(** * simplemdmapi: the request / pagination / validation pipeline

    A shallow embedding of the Python package [simplemdmapi]
    ([utils.py], [validators.py], [decorators.py], [__init__.py] and the
    method tables of [endpoints/]) together with the properties of its
    specification.

    Conventions of the embedding.
    - Python values that travel through keyword arguments and JSON bodies
      are the type [pyval]; floats do not occur in the modelled paths and
      are left out.
    - A [str] is a [string] whose characters are read as the code points
      0..255.
    - A [dict] is an association list in insertion order, as Python
      iterates it; a well-formed dict has no repeated key.
    - Code that raises returns [Raise e]; code that talks to the network or
      prints threads a [world].
    - Keyword arguments are copied from call to call, the objects under
      them are not: the one object the code writes into, the [files] dict
      of an upload, is followed from the callee back to the caller
      ([kwargs_after]). *)

From Stdlib Require Import String Ascii ZArith List Bool Lia.
From Stdlib Require Import DecimalString.
Import ListNotations.
Open Scope string_scope.
Open Scope Z_scope.

Set Implicit Arguments.
Set Warnings "-register-all".

(** ** Python values *)

Module Py.

Inductive pyval : Type :=
| PNone
| PBool (b : bool)
| PInt (z : Z)
| PStr (s : string)
| PList (l : list pyval)
| PTuple (l : list pyval)
| PDict (d : list (string * pyval))
| PFile (name : string).

Definition dict := list (string * pyval).

(** Truth value of an object, as [if v:] tests it. *)
Definition truthy (v : pyval) : bool :=
  match v with
  | PNone => false
  | PBool b => b
  | PInt z => negb (z =? 0)
  | PStr s => negb (String.eqb s "")
  | PList l | PTuple l => match l with [] => false | _ => true end
  | PDict d => match d with [] => false | _ => true end
  | PFile _ => true
  end.

(** *** Characters *)

Definition code (c : ascii) : Z := Z.of_nat (nat_of_ascii c).

Definition dquote : ascii := ascii_of_nat 34.
Definition squote : ascii := "'"%char.
Definition bslash : ascii := "\"%char.

(** [str.isdigit] on one character: the decimal digits and the
    superscripts U+00B2, U+00B3, U+00B9. *)
Definition char_isdigit (c : ascii) : bool :=
  let n := code c in
  ((48 <=? n) && (n <=? 57)) || (n =? 178) || (n =? 179) || (n =? 185).

(** White space as [str.strip()] sees it. *)
Definition char_isspace (c : ascii) : bool :=
  let n := code c in
  ((9 <=? n) && (n <=? 13)) || ((28 <=? n) && (n <=? 32))
  || (n =? 133) || (n =? 160).

(** Printable characters, as [repr] decides what to escape. *)
Definition char_isprintable (c : ascii) : bool :=
  let n := code c in
  ((32 <=? n) && (n <? 127)) || ((161 <=? n) && negb (n =? 173)).

Definition hex_digit (n : Z) : ascii :=
  if n <? 10 then ascii_of_nat (Z.to_nat (48 + n))
  else ascii_of_nat (Z.to_nat (87 + n)).

Definition hex2 (c : ascii) : string :=
  let n := code c in
  String (hex_digit (n / 16)) (String (hex_digit (n mod 16)) "").

(** *** Strings *)

Fixpoint str_contains_char (c : ascii) (s : string) : bool :=
  match s with
  | EmptyString => false
  | String d r => Ascii.eqb c d || str_contains_char c r
  end.

Fixpoint str_forall (p : ascii -> bool) (s : string) : bool :=
  match s with
  | EmptyString => true
  | String c r => p c && str_forall p r
  end.

Fixpoint str_rev_onto (acc s : string) : string :=
  match s with
  | EmptyString => acc
  | String c r => str_rev_onto (String c acc) r
  end.

Definition str_rev (s : string) : string := str_rev_onto "" s.

Fixpoint lstrip (s : string) : string :=
  match s with
  | String c r => if char_isspace c then lstrip r else s
  | EmptyString => s
  end.

(** [s.strip()] *)
Definition strip (s : string) : string :=
  str_rev (lstrip (str_rev (lstrip s))).

(** [s.endswith(c)] for a one-character suffix. *)
Fixpoint endswith_char (c : ascii) (s : string) : bool :=
  match s with
  | EmptyString => false
  | String d EmptyString => Ascii.eqb c d
  | String _ r => endswith_char c r
  end.

(** [str(n)] for an integer. *)
Definition str_of_Z (z : Z) : string := NilZero.string_of_int (Z.to_int z).

Definition repr_char (quote c : ascii) : string :=
  if Ascii.eqb c quote || Ascii.eqb c bslash then String bslash (String c "")
  else if code c =? 9 then "\t"
  else if code c =? 10 then "\n"
  else if code c =? 13 then "\r"
  else if char_isprintable c then String c ""
  else "\x" ++ hex2 c.

Fixpoint repr_chars (quote : ascii) (s : string) : string :=
  match s with
  | EmptyString => ""
  | String c r => repr_char quote c ++ repr_chars quote r
  end.

(** [repr(s)] for a string: single quotes unless the text has a single
    quote and no double quote. *)
Definition repr_str (s : string) : string :=
  let quote :=
    if str_contains_char squote s && negb (str_contains_char dquote s)
    then dquote else squote in
  String quote (repr_chars quote s ++ String quote "").

(** [repr(v)] *)
Fixpoint repr (v : pyval) : string :=
  match v with
  | PNone => "None"
  | PBool true => "True"
  | PBool false => "False"
  | PInt z => str_of_Z z
  | PStr s => repr_str s
  | PList l => "[" ++ String.concat ", " (map repr l) ++ "]"
  | PTuple l =>
      match l with
      | [x] => "(" ++ repr x ++ ",)"
      | _ => "(" ++ String.concat ", " (map repr l) ++ ")"
      end
  | PDict d =>
      "{" ++ String.concat ", "
               (map (fun kv => repr_str (fst kv) ++ ": " ++ repr (snd kv)) d)
          ++ "}"
  | PFile name => "<_io.BufferedReader name=" ++ repr_str name ++ ">"
  end.

(** [str(v)], which is what an f-string field and [str.join] use. *)
Definition str (v : pyval) : string :=
  match v with
  | PStr s => s
  | _ => repr v
  end.

(** *** Comparisons met in the code *)

(** [s == v] for a string [s]: only another string can be equal. *)
Definition eq_str (s : string) (v : pyval) : bool :=
  match v with
  | PStr t => String.eqb s t
  | _ => false
  end.

(** [n == v] for an integer [n]: integers and booleans compare by value. *)
Definition eq_int (n : Z) (v : pyval) : bool :=
  match v with
  | PInt m => n =? m
  | PBool b => n =? (if b then 1 else 0)
  | _ => false
  end.

(** [a == b] in general. Dicts are equal when they bind the same keys to
    equal values, whatever the order; an open file is only equal to
    itself. *)
Fixpoint py_eq (a b : pyval) {struct a} : bool :=
  let fix eq_list (l m : list pyval) {struct l} : bool :=
    match l, m with
    | [], [] => true
    | x :: l', y :: m' => py_eq x y && eq_list l' m'
    | _, _ => false
    end in
  let fix sub_dict (d e : list (string * pyval)) {struct d} : bool :=
    match d with
    | [] => true
    | (k, v) :: d' =>
        let fix find (e : list (string * pyval)) : bool :=
          match e with
          | [] => false
          | (k', w) :: e' => if String.eqb k k' then py_eq v w else find e'
          end in
        find e && sub_dict d' e
    end in
  match a, b with
  | PNone, PNone => true
  | PBool x, PBool y => Bool.eqb x y
  | PBool x, PInt n | PInt n, PBool x => n =? (if x then 1 else 0)
  | PInt n, PInt m => n =? m
  | PStr s, PStr t => String.eqb s t
  | PList l, PList m => eq_list l m
  | PTuple l, PTuple m => eq_list l m
  | PDict d, PDict e => Nat.eqb (length d) (length e) && sub_dict d e
  | PFile n, PFile m => String.eqb n m
  | _, _ => false
  end.

(** [len(v)], where the type has a length. *)
Definition len (v : pyval) : option Z :=
  match v with
  | PStr s => Some (Z.of_nat (String.length s))
  | PList l | PTuple l => Some (Z.of_nat (length l))
  | PDict d => Some (Z.of_nat (length d))
  | _ => None
  end.

(** [s.isdigit()]: a non-empty string of digits. *)
Definition str_isdigit (s : string) : bool :=
  negb (String.eqb s "") && str_forall char_isdigit s.

(** *** Dictionaries *)

Fixpoint dict_get (d : dict) (k : string) : option pyval :=
  match d with
  | [] => None
  | (k', v) :: r => if String.eqb k k' then Some v else dict_get r k
  end.

(** [k in d] *)
Definition dict_mem (d : dict) (k : string) : bool :=
  match dict_get d k with Some _ => true | None => false end.

(** [d[k] = v]: an existing key keeps its place. *)
Fixpoint dict_set (d : dict) (k : string) (v : pyval) : dict :=
  match d with
  | [] => [(k, v)]
  | (k', v') :: r =>
      if String.eqb k k' then (k, v) :: r else (k', v') :: dict_set r k v
  end.

(** [del d[k]] for a key that is present. *)
Fixpoint dict_del (d : dict) (k : string) : dict :=
  match d with
  | [] => []
  | (k', v') :: r =>
      if String.eqb k k' then r else (k', v') :: dict_del r k
  end.

(** [d.get(k)], with [None] for a missing key. *)
Definition dict_get_none (d : dict) (k : string) : pyval :=
  match dict_get d k with Some v => v | None => PNone end.

(** [d.setdefault(k, v)] *)
Definition dict_setdefault (d : dict) (k : string) (v : pyval) : dict :=
  if dict_mem d k then d else dict_set d k v.

(** A dict has each key once. *)
Definition dict_wf (d : dict) : Prop := NoDup (map fst d).

End Py.

Import Py.

(** ** Exceptions and results *)

Inductive exn : Type :=
| TypeError (msg : string)
| AttributeError (msg : string)
| ValueError (msg : string)
| OSError (path : string)
| FileNotFoundError (path : string)
| PackageNotSigned (msg : string)
| JSONDecodeError
| APIException (msg : string)
| KeyError (key : string)
| HTTPError (status : Z)
| ConnectionError (msg : string).

(** What running a piece of code gives: a value, an exception, or, for
    the one loop of the package, no answer within the steps allowed. *)
Inductive result (A : Type) : Type :=
| Ret (a : A)
| Raise (e : exn)
| OutOfFuel.

Arguments Ret {A} a.
Arguments Raise {A} e.
Arguments OutOfFuel {A}.

Definition rbind {A B} (r : result A) (k : A -> result B) : result B :=
  match r with
  | Ret a => k a
  | Raise e => Raise e
  | OutOfFuel => OutOfFuel
  end.

Declare Scope py_scope.
Delimit Scope py_scope with py.
Notation "x <~ r ;; k" := (rbind r (fun x => k))
  (at level 61, r at next level, right associativity) : py_scope.
Open Scope py_scope.

(** Name of a value's type, for the messages of the interpreter. *)
Definition type_name (v : pyval) : string :=
  match v with
  | PNone => "NoneType"
  | PBool _ => "bool"
  | PInt _ => "int"
  | PStr _ => "str"
  | PList _ => "list"
  | PTuple _ => "tuple"
  | PDict _ => "dict"
  | PFile _ => "_io.BufferedReader"
  end.

Definition no_attribute (v : pyval) (attr : string) : exn :=
  AttributeError ("'" ++ type_name v ++ "' object has no attribute '" ++ attr ++ "'").

Definition not_iterable (v : pyval) : exn :=
  TypeError ("'" ++ type_name v ++ "' object is not iterable").

Fixpoint chars (s : string) : list pyval :=
  match s with
  | EmptyString => []
  | String c r => PStr (String c "") :: chars r
  end.

(** The elements a [for] loop or a [*v] unpacking sees. *)
Definition iter (v : pyval) : result (list pyval) :=
  match v with
  | PList l | PTuple l => Ret l
  | PStr s => Ret (chars s)
  | PDict d => Ret (map (fun kv => PStr (fst kv)) d)
  | _ => Raise (not_iterable v)
  end.

(** [v.get(k)] *)
Definition get_attr_get (v : pyval) (k : string) : result pyval :=
  match v with
  | PDict d => Ret (dict_get_none d k)
  | _ => Raise (no_attribute v "get")
  end.

(** [v.get(k, default)] *)
Definition get_attr_get_default (v : pyval) (k : string) (default : pyval)
  : result pyval :=
  match v with
  | PDict d => Ret (match dict_get d k with Some x => x | None => default end)
  | _ => Raise (no_attribute v "get")
  end.

(** ** The connector object

    The class attributes of [SimpleMDMConnector] that the environment can
    override are fields; the two status lists are constants of the class. *)

Definition HTTP_RETRY_STATUS_LIST : list Z := [429; 500; 502; 503; 504].
Definition HTTP_IGNORE_STATUS_ERR : list Z := [200; 201; 202; 500].

(** One entry of a [_method_kwargs] table. *)
Record method_conf : Type := {
  all_params : option (list string);
  any_params : option (list string);
  req_params : option (list string);
  inc_params : option (list (list string));
  validate : option (list (string * list pyval));
  file_param : option string
}.

(** [{}], what [_method_kwargs.get(fn_name, {})] gives an unlisted name. *)
Definition empty_conf : method_conf :=
  {| all_params := None; any_params := None; req_params := None;
     inc_params := None; validate := None; file_param := None |}.

Record connector : Type := {
  BASE_URL : string;
  HTTP_CONNECT_TIMEOUT : Z;
  HTTP_READ_TIMEOUT : Z;
  HTTP_MAX_RETRIES : Z;
  HTTP_RETRY_BACKOFF : Z;
  api_vers : string;
  endpoint : string;
  dry_run : bool;
  _method_kwargs : list (string * method_conf)
}.

Record response : Type := {
  status_code : Z;
  (** [None] when the body is not JSON and [json()] raises *)
  json_body : option pyval
}.

Definition json (r : response) : result pyval :=
  match json_body r with
  | Some v => Ret v
  | None => Raise JSONDecodeError
  end.

(** [requests.Response.raise_for_status] *)
Definition raise_for_status (r : response) : result unit :=
  if (400 <=? status_code r) && (status_code r <? 600)
  then Raise (HTTPError (status_code r))
  else Ret tt.

(** ** utils.py *)

Module Utils.

Definition _function_kwargs : list string :=
  ["ignore_statuses"; "retry_statuses"; "file_upload"].

Definition _requests_kwargs : list string :=
  ["method"; "url"; "params"; "data"; "headers"; "cookies"; "files"; "auth";
   "timeout"; "allow_redirects"; "proxies"; "hooks"; "stream"; "verify";
   "cert"; "json"].

(** The quoted titles of the error objects, in order; an error object
    without a truthy title contributes nothing. *)
Fixpoint err_strings (errs : list pyval) : result (list string) :=
  match errs with
  | [] => Ret []
  | err :: rest =>
      t <~ get_attr_get err "title" ;;
      r <~ err_strings rest ;;
      Ret (if truthy t then ("'" ++ str t ++ "'") :: r else r)
  end.

Definition api_error_message (titles : list string) (status : Z) : string :=
  "SimpleMDM error/s: " ++ String.concat ", " titles ++ ", HTTP " ++ str_of_Z status.

Definition api_error_check (r : response) : result unit :=
  match json r with
  | Raise _ | OutOfFuel => Ret tt
  | Ret body =>
      api_errors <~ get_attr_get body "errors" ;;
      match api_errors with
      | PNone => Ret tt
      | _ =>
          errs <~ iter api_errors ;;
          titles <~ err_strings errs ;;
          Raise (APIException (api_error_message titles (status_code r)))
      end
  end.

(** [fslash_reg.sub(sep, s)] for the default [sep]. In the f-string
    [rf"{sep}{2,}"] the second field is the expression [2,], so the
    compiled pattern is [/(2,)]: it matches the three characters [/2,]. *)
Fixpoint fslash_sub (s : string) : string :=
  match s with
  | EmptyString => ""
  | String c r =>
      match c, r with
      | "/"%char, String "2"%char (String ","%char r') =>
          String "/"%char (fslash_sub r')
      | _, _ => String c (fslash_sub r)
      end
  end.

(** [scheme_reg.sub("://", s)] with [scheme_reg = :/{3,}]: a colon and
    three or more slashes. [eating] is set while the slashes of a match
    are being consumed. *)
Fixpoint scheme_sub_from (eating : bool) (s : string) : string :=
  match s with
  | EmptyString => ""
  | String c r =>
      if eating && Ascii.eqb c "/"%char then scheme_sub_from true r
      else
        match c, r with
        | ":"%char, String "/"%char (String "/"%char (String "/"%char r')) =>
            "://" ++ scheme_sub_from true r'
        | _, _ => String c (scheme_sub_from false r)
        end
  end.

Definition scheme_sub (s : string) : string := scheme_sub_from false s.

(** [urljoin] applied to the positional [paths] and to [base], with the
    default separator. *)
Definition urljoin (paths : list pyval) (base : string) : string :=
  let paths := fslash_sub (String.concat "/" (map str (filter truthy paths))) in
  scheme_sub (base ++ (if negb (endswith_char "/"%char base) then "/" else "") ++ paths).

Definition generate_url (self : connector) (args : list pyval) : string :=
  urljoin (PStr (api_vers self) :: PStr (endpoint self) :: args) (BASE_URL self).

Definition in_list (k : string) (l : list string) : bool :=
  existsb (String.eqb k) l.

(** The three dicts the loop of [consume_kwargs] fills. *)
Definition consume_step (acc : dict * dict * dict) (kv : string * pyval)
  : dict * dict * dict :=
  let '(rqst_kwargs, param_kwargs, func_kwargs) := acc in
  let (k, v) := kv in
  if in_list k _requests_kwargs then (dict_set rqst_kwargs k v, param_kwargs, func_kwargs)
  else if in_list k _function_kwargs then (rqst_kwargs, param_kwargs, dict_set func_kwargs k v)
  else (rqst_kwargs, dict_set param_kwargs k v, func_kwargs).

Definition consume_kwargs (kwargs : dict) : dict * dict :=
  let '(rqst_kwargs, param_kwargs, func_kwargs) :=
    fold_left consume_step kwargs ([], [], []) in
  (dict_set rqst_kwargs "params" (PDict param_kwargs), func_kwargs).

(** [[*kwargs.get(key, []), *defaults]] *)
Definition with_defaults (kwargs : dict) (key : string) (defaults : list Z)
  : result (list pyval) :=
  extra <~ iter (match dict_get kwargs key with Some v => v | None => PList [] end) ;;
  Ret (extra ++ map PInt defaults)%list.

Definition consume_func_kwargs (self : connector) (kwargs : dict)
  : result (list pyval * list pyval) :=
  ignore <~ with_defaults kwargs "ignore_statuses" HTTP_IGNORE_STATUS_ERR ;;
  retry <~ with_defaults kwargs "retry_statuses" HTTP_RETRY_STATUS_LIST ;;
  Ret (ignore, retry).

(** The adapter of [session_retry]: an [HTTPAdapter] carrying a [Retry]. *)
Record adapter : Type := {
  total : Z;
  status_forcelist : list pyval;
  backoff_factor : Z
}.

Definition session_retry (self : connector) (retry : list pyval) : adapter :=
  {| total := HTTP_MAX_RETRIES self;
     status_forcelist := retry;
     backoff_factor := HTTP_RETRY_BACKOFF self |}.

(** [x in l] for a status code [x]. *)
Definition status_in (x : Z) (l : list pyval) : bool := existsb (eq_int x) l.

End Utils.

(** ** The local file system

    What the package asks of the machine it runs on: whether a path exists,
    the text of a regular file, the absolute form of a path
    ([expanduser().resolve()]) and the verdict of [pkgutil --check-signature]. *)

Record filesystem : Type := {
  path_exists : string -> bool;
  read_file : string -> option string;
  resolve : string -> string;
  pkg_signed : string -> bool
}.

Definition is_file (fs : filesystem) (p : string) : bool :=
  match read_file fs p with Some _ => true | None => false end.

(** The text after the last [c] of [s], when [s] has one. *)
Fixpoint after_last (c : ascii) (s : string) : option string :=
  match s with
  | EmptyString => None
  | String d r =>
      match after_last c r with
      | Some t => Some t
      | None => if Ascii.eqb c d then Some r else None
      end
  end.

(** [Path(p).name] *)
Definition path_name (p : string) : string :=
  match after_last "/"%char p with Some t => t | None => p end.

(** [Path(p).suffix]: from the last dot of the name, if that dot is neither
    its first nor its last character. *)
Definition path_suffix (p : string) : string :=
  match path_name p with
  | EmptyString => ""
  | String _ r =>
      match after_last "."%char r with
      | Some EmptyString | None => ""
      | Some t => String "."%char t
      end
  end.

(** ** validators.py *)

Module Validators.

(** [itertools.combinations(p, n)] for [n >= 0], in its order. *)
Fixpoint combinations {A} (p : list A) (n : nat) : list (list A) :=
  match n with
  | O => [[]]
  | S n' =>
      match p with
      | [] => []
      | x :: r => (map (cons x) (combinations r n') ++ combinations r n)%list
      end
  end.

(** For each group, its combinations of all members but one. [None] is
    the result of falling off the end when nothing was collected. *)
Fixpoint bad_combinations_of (params : list (list string))
  : result (list (list string)) :=
  match params with
  | [] => Ret []
  | p :: rest =>
      match p with
      | [] => Raise (ValueError "r must be non-negative")
      | _ :: _ =>
          more <~ bad_combinations_of rest ;;
          Ret (combinations p (length p - 1) ++ more)%list
      end
  end.

Definition _generate_bad_combinations (params : list (list string))
  : result (option (list (list string))) :=
  result <~ bad_combinations_of params ;;
  Ret (match result with [] => None | _ => Some result end).

Fixpoint validate_required (kwargs : dict) (req_params : list string)
  (fn_name : string) : result unit :=
  match req_params with
  | [] => Ret tt
  | req_param :: rest =>
      if negb (dict_mem kwargs req_param)
      then Raise (TypeError (fn_name ++ "() missing required keyword-only parameter: "
                              ++ repr_str req_param))
      else validate_required kwargs rest fn_name
  end.

Definition validate_any (kwargs : dict) (any_params : list string)
  (fn_name : string) : result unit :=
  if negb (existsb (dict_mem kwargs) any_params)
  then Raise (TypeError (fn_name ++ "() missing at least one optional keyword-only parameter: "
                          ++ repr (PList (map PStr any_params))))
  else Ret tt.

(** The table value [inc_params]: a sequence of lists of names. *)
Definition groups_val (inc_params : list (list string)) : list pyval :=
  map (fun g => PList (map PStr g)) inc_params.

(** The test of the innermost loop of [validate_incompatible];
    [kwarg in inc_params] compares the name with each group. *)
Definition clash (kwargs : dict) (inc_params : list (list string))
  (kwarg bad_kwarg : string) : bool :=
  dict_mem kwargs bad_kwarg
  && existsb (eq_str kwarg) (groups_val inc_params)
  && negb (String.eqb bad_kwarg kwarg).

Fixpoint check_combo (kwargs : dict) (inc_params : list (list string))
  (fn_name kwarg : string) (combo : list string) : result unit :=
  match combo with
  | [] => Ret tt
  | bad_kwarg :: rest =>
      if clash kwargs inc_params kwarg bad_kwarg
      then Raise (AttributeError (fn_name ++ "() " ++ repr_str bad_kwarg
                                   ++ " not permitted with " ++ repr_str kwarg))
      else check_combo kwargs inc_params fn_name kwarg rest
  end.

Fixpoint check_combos (kwargs : dict) (inc_params : list (list string))
  (fn_name kwarg : string) (bad_combos : list (list string)) : result unit :=
  match bad_combos with
  | [] => Ret tt
  | combo :: rest =>
      _ <~ check_combo kwargs inc_params fn_name kwarg combo ;;
      check_combos kwargs inc_params fn_name kwarg rest
  end.

Fixpoint check_kwargs (kwargs : dict) (inc_params : list (list string))
  (fn_name : string) (bad_combos : option (list (list string)))
  (names : list string) : result unit :=
  match names with
  | [] => Ret tt
  | kwarg :: rest =>
      match bad_combos with
      | None => Raise (not_iterable PNone)
      | Some combos =>
          _ <~ check_combos kwargs inc_params fn_name kwarg combos ;;
          check_kwargs kwargs inc_params fn_name bad_combos rest
      end
  end.

Definition validate_incompatible (kwargs : dict) (inc_params : list (list string))
  (fn_name : string) : result unit :=
  bad_combos <~ _generate_bad_combinations inc_params ;;
  check_kwargs kwargs inc_params fn_name bad_combos (map fst kwargs).

Fixpoint validate_param_opts (kwargs : dict) (val_params : list (string * list pyval))
  (fn_name : string) : result unit :=
  match val_params with
  | [] => Ret tt
  | (param, values) :: rest =>
      let value := dict_get_none kwargs param in
      if truthy value && negb (existsb (py_eq value) values)
      then Raise (ValueError (fn_name ++ "() unexpected value " ++ repr value ++ " for "
                               ++ repr_str param ++ ", expecting one of: "
                               ++ repr (PList values)))
      else validate_param_opts kwargs rest fn_name
  end.

(** [all(n.isdigit() for n in v)] *)
Fixpoint all_isdigit (items : list pyval) : result bool :=
  match items with
  | [] => Ret true
  | PStr n :: rest => if str_isdigit n then all_isdigit rest else Ret false
  | n :: _ => Raise (no_attribute n "isdigit")
  end.

(** The body of [wrapper_b], the function that [validate_pin(param, length)]
    puts in the place of the method it decorates. It ends without calling
    that method, so it has no use for it beyond its name. *)
Definition pin_checks (param : string) (length : Z) (fn_name : string)
  (kwargs : dict) : result unit :=
  params <~ Ret (match dict_get kwargs "params" with Some v => v | None => PDict [] end) ;;
  _param <~ get_attr_get params param ;;
  if truthy _param then
    match len _param with
    | None => Raise (TypeError ("object of type '" ++ type_name _param ++ "' has no len()"))
    | Some n =>
        if negb (n =? length)
        then Raise (ValueError (fn_name ++ "() option for " ++ repr_str param
                                 ++ " does not meet length requirement of "
                                 ++ str_of_Z length))
        else
          items <~ iter _param ;;
          ok <~ all_isdigit items ;;
          if negb ok
          then Raise (ValueError (fn_name ++ "() option for " ++ repr_str param
                                   ++ " contains non-numeric characters"))
          else Ret tt
    end
  else Ret tt.

Definition validate_package (fs : filesystem) (pkg : string) (fn_name : string)
  : result unit :=
  if negb (path_exists fs pkg) then Raise (FileNotFoundError pkg)
  else if negb (pkg_signed fs pkg)
  then Raise (PackageNotSigned (fn_name ++ "() " ++ repr_str pkg
                                 ++ " is not signed, only signed packages can be uploaded."))
  else Ret tt.

End Validators.

(** ** decorators.py *)

Module Decorators.

Import Utils Validators.

(** One call of [session.request(method, url, ...)]. *)
Record request_call : Type := {
  rq_method : string;
  rq_url : string;
  rq_kwargs : dict
}.

(** What a method of a resource class hands back: nothing, a response, or
    a generator, which is represented by the records it yields when it is
    run to its end. *)
Inductive retval : Type :=
| RNone
| RResponse (r : response)
| RGenerator (records : list pyval).

(** [str.upper] on the letters a-z. *)
Definition char_upper (c : ascii) : ascii :=
  if (97 <=? code c) && (code c <=? 122)
  then ascii_of_nat (nat_of_ascii c - 32) else c.

Fixpoint upper (s : string) : string :=
  match s with
  | EmptyString => ""
  | String c r => String (char_upper c) (upper r)
  end.

(** [Path(v)]: only a string makes a path. *)
Definition as_path (v : pyval) : result string :=
  match v with
  | PStr s => Ret s
  | PFile _ =>
      Raise (TypeError "expected str, bytes or os.PathLike object, not BufferedReader")
  | _ => Raise (TypeError ("expected str, bytes or os.PathLike object, not "
                            ++ type_name v))
  end.

Section Transport.

(** The remote side: [send a rq t] is what [session.request] answers for the
    call [rq] when the session carries the adapter [a] and the service is in
    state [t]. *)
Variable T : Type.
Variable send : adapter -> request_call -> T -> result response * T.
Variable fs : filesystem.

(** What a call can change: the service, the record of the requests sent,
    the adapter mounted on the session and the lines printed in dry-run
    mode. *)
Record world : Type := {
  net : T;
  sent : list request_call;
  mounted : option adapter;
  printed : list request_call
}.

Definition M (A : Type) : Type := world -> result A * world.

Definition meth : Type := connector -> list pyval -> dict -> M retval.

Definition mount (a : adapter) (w : world) : world :=
  {| net := net w; sent := sent w; mounted := Some a; printed := printed w |}.

Definition print_call (rq : request_call) (w : world) : world :=
  {| net := net w; sent := sent w; mounted := mounted w;
     printed := (printed w ++ [rq])%list |}.

(** [method] and [url] reach [Session.request] positionally, so a keyword
    of one of these names is a second value for the parameter: the first
    such keyword of the call, if there is one. *)
Definition given_twice (rqst_kwargs : dict) : option string :=
  match filter (fun kv => in_list (fst kv) ["method"; "url"]) rqst_kwargs with
  | kv :: _ => Some (fst kv)
  | [] => None
  end.

(** [self.session.request(method, url, **rqst_kwargs)]: the call is
    refused, and nothing goes out, when a keyword repeats [method] or
    [url]. *)
Definition session_request (a : adapter) (rq : request_call) : M response :=
  fun w =>
    match given_twice (rq_kwargs rq) with
    | Some name =>
        (Raise (TypeError ("Session.request() got multiple values for argument "
                             ++ repr_str name)), w)
    | None =>
        let (r, t) := send a rq (net w) in
        (r, {| net := t; sent := (sent w ++ [rq])%list; mounted := mounted w;
               printed := printed w |})
    end.

(** The file to upload, opened: [rqst_kwargs["files"]] with the path under
    [fieldname] replaced by the open file. *)
Definition open_upload (fieldname files : pyval) : result pyval :=
  match fieldname with
  | PStr name =>
      path <~ get_attr_get files name ;;
      path <~ as_path path ;;
      let file := resolve fs path in
      if is_file fs file
      then Ret (match files with
                | PDict d => PDict (dict_set d name (PFile file))
                | _ => files
                end)
      else Raise (OSError file)
  | _ => Raise (TypeError ("expected str, bytes or os.PathLike object, not NoneType"))
  end.

(** What [wrap_actions] of [request] has in hand once the keyword
    arguments are sorted and before the session is touched. *)
Record prepared : Type := {
  p_ignore : list pyval;
  p_retry : list pyval;
  p_fieldname : pyval;
  p_url : string;
  p_kwargs : dict
}.

(** The first part of [wrap_actions]: the sorting of the keyword
    arguments, the URL, the default timeout and the JSON header. *)
Definition prepare (self : connector) (args : list pyval) (kwargs : dict)
  : result prepared :=
  let (rqst_kwargs, func_kwargs) := consume_kwargs kwargs in
  ir <~ consume_func_kwargs self func_kwargs ;;
  let (ignore, retry) := ir in
  let fieldname := dict_get_none func_kwargs "file_upload" in
  let url := generate_url self args in
  let rqst_kwargs :=
    if negb (truthy fieldname) && negb (truthy (dict_get_none rqst_kwargs "files"))
    then dict_setdefault rqst_kwargs "timeout"
           (PTuple [PInt (HTTP_CONNECT_TIMEOUT self); PInt (HTTP_READ_TIMEOUT self)])
    else rqst_kwargs in
  let rqst_kwargs :=
    if truthy (dict_get_none rqst_kwargs "json")
    then dict_set rqst_kwargs "headers"
           (PDict [("Content-Type", PStr "application/json")])
    else rqst_kwargs in
  Ret {| p_ignore := ignore; p_retry := retry; p_fieldname := fieldname;
         p_url := url; p_kwargs := rqst_kwargs |}.

(** The checks on a response whose status is not ignored: on the upload
    path only the status, elsewhere the error list of the body, then the
    status. *)
Definition check_response (upload : bool) (response : response) : result unit :=
  if upload then raise_for_status response
  else _ <~ api_error_check response ;; raise_for_status response.

(** The request itself and what is made of the answer. *)
Definition send_and_check (method : string) (upload : bool) (p : prepared)
  (a : adapter) (rqst_kwargs : dict) : M retval :=
  fun w =>
    let rq := {| rq_method := method; rq_url := p_url p; rq_kwargs := rqst_kwargs |} in
    match session_request a rq w with
    | (Ret response, w) =>
        if negb (status_in (status_code response) (p_ignore p)) then
          match check_response upload response with
          | Ret _ => (Ret (RResponse response), w)
          | Raise e => (Raise e, w)
          | OutOfFuel => (OutOfFuel, w)
          end
        else (Ret (RResponse response), w)
    | (Raise e, w) => (Raise e, w)
    | (OutOfFuel, w) => (OutOfFuel, w)
    end.

(** The second part of [wrap_actions], from the dry-run test on. *)
Definition perform (method : string) (self : connector) (p : prepared)
  (a : adapter) : M retval :=
  fun w =>
    if negb (dry_run self) then
      if truthy (p_fieldname p) && truthy (dict_get_none (p_kwargs p) "files") then
        match open_upload (p_fieldname p) (dict_get_none (p_kwargs p) "files") with
        | Raise e => (Raise e, w)
        | OutOfFuel => (OutOfFuel, w)
        | Ret files =>
            send_and_check method true p a (dict_set (p_kwargs p) "files" files) w
        end
      else send_and_check method false p a (p_kwargs p) w
    else
      (Ret RNone,
       print_call {| rq_method := method; rq_url := p_url p;
                     rq_kwargs := p_kwargs p |} w).

(** The function that [request(method)] puts in the place of the method
    it decorates; [method] is already in upper case. *)
Definition wrap_request (method : string) : meth :=
  fun self args kwargs w =>
    match prepare self args kwargs with
    | Raise e => (Raise e, w)
    | OutOfFuel => (OutOfFuel, w)
    | Ret p =>
        let a := session_retry self (p_retry p) in
        perform method self p a (mount a w)
    end.

(** [rqst_kwargs["files"]] is the dict the caller gave under [files], not
    a copy of it: the open file that the upload path writes into it is
    still there, closed, when the call is over. The caller's [files] after
    a call that got as far as opening the file, whatever came of the
    request. *)
Definition files_after (self : connector) (p : prepared) : option pyval :=
  if negb (dry_run self)
     && (truthy (p_fieldname p) && truthy (dict_get_none (p_kwargs p) "files"))
  then
    match open_upload (p_fieldname p) (dict_get_none (p_kwargs p) "files") with
    | Ret files => Some files
    | _ => None
    end
  else None.

(** The keyword arguments a caller holds, as a call of a request method
    with them leaves them. *)
Definition kwargs_after (self : connector) (args : list pyval) (kwargs : dict) : dict :=
  match prepare self args kwargs with
  | Ret p =>
      match files_after self p with
      | Some files => dict_set kwargs "files" files
      | None => kwargs
      end
  | _ => kwargs
  end.

Definition methods : list string := ["delete"; "get"; "patch"; "post"; "put"].

(** [request(method)]: the decorator, or the [ValueError] for a name that
    is not a REST method. *)
Definition request (method : string) : result (meth -> meth) :=
  if negb (in_list method methods)
  then Raise (ValueError ("Error: " ++ repr_str method
                           ++ " is an invalid REST method; use one of: "
                           ++ repr (PList (map PStr methods))))
  else Ret (fun _ => wrap_request (upper method)).

(** The five request methods of [SimpleMDMConnector]. *)
Definition delete : meth := wrap_request "DELETE".
Definition get : meth := wrap_request "GET".
Definition patch : meth := wrap_request "PATCH".
Definition post : meth := wrap_request "POST".
Definition put : meth := wrap_request "PUT".

(** [self._method_kwargs.get(fn_name, {})] *)
Fixpoint lookup_conf (table : list (string * method_conf)) (fn_name : string)
  : method_conf :=
  match table with
  | [] => empty_conf
  | (k, c) :: rest => if String.eqb fn_name k then c else lookup_conf rest fn_name
  end.

Definition when_some {A} (o : option A) (nonempty : A -> bool)
  (check : A -> result unit) : result unit :=
  match o with
  | Some a => if nonempty a then check a else Ret tt
  | None => Ret tt
  end.

Definition nonempty {A} (l : list A) : bool :=
  match l with [] => false | _ => true end.

(** The validations of [method_params], in their order. *)
Definition run_validations (conf : method_conf) (fn_name : string) (kwargs : dict)
  : result unit :=
  let file :=
    match file_param conf with
    | Some p => dict_get_none kwargs p
    | None => PNone
    end in
  _ <~ when_some (req_params conf) nonempty
         (fun req_params => validate_required kwargs req_params fn_name) ;;
  _ <~ when_some (any_params conf) nonempty
         (fun any_params => validate_any kwargs any_params fn_name) ;;
  _ <~ when_some (inc_params conf) nonempty
         (fun inc_params => validate_incompatible kwargs inc_params fn_name) ;;
  _ <~ when_some (validate conf) nonempty
         (fun val_params => validate_param_opts kwargs val_params fn_name) ;;
  match file_param conf with
  | Some "binary" =>
      if truthy file then
        _file <~ as_path file ;;
        if String.eqb (path_suffix _file) ".pkg"
        then validate_package fs _file fn_name
        else Ret tt
      else Ret tt
  | _ => Ret tt
  end.

(** The exchange of the file parameter for [files] and [file_upload]. *)
Definition switch_file (conf : method_conf) (kwargs : dict) : dict :=
  match file_param conf with
  | Some p =>
      let file := dict_get_none kwargs p in
      if negb (truthy (dict_get_none kwargs "files")) && truthy file
      then dict_del
             (dict_set (dict_set kwargs "files" (PDict [(p, file)]))
                       "file_upload" (PStr p))
             p
      else kwargs
  | None => kwargs
  end.

(** [method_params(fn)], for a method [fn] whose [__name__] is [fn_name]. *)
Definition method_params (fn_name : string) (fn : meth) : meth :=
  fun self args kwargs w =>
    let conf := lookup_conf (_method_kwargs self) fn_name in
    match run_validations conf fn_name kwargs with
    | Raise e => (Raise e, w)
    | OutOfFuel => (OutOfFuel, w)
    | Ret _ => fn self args (switch_file conf kwargs) w
    end.

(** [validate_pin(param, length)(fn)] *)
Definition validate_pin (param : string) (length : Z) (fn_name : string)
  (fn : meth) : meth :=
  fun self args kwargs w =>
    match pin_checks param length fn_name kwargs with
    | Raise e => (Raise e, w)
    | OutOfFuel => (OutOfFuel, w)
    | Ret _ => (Ret RNone, w)
    end.

(** [url_suffixes(sfx, params_as_suffixes)(fn)] *)
Definition url_suffixes (sfx : string) (params_as_suffixes : list string)
  (fn : meth) : meth :=
  fun self args kwargs w =>
    let paths :=
      String.concat "/"
        (sfx :: map (fun kv => str (snd kv))
                  (filter (fun kv => in_list (fst kv) params_as_suffixes) kwargs)) in
    let args := match args with
                | [] => [PStr paths]
                | _ => (args ++ [PStr paths])%list
                end in
    let args := [PStr (String.concat "/" (map str args))] in
    fn self args kwargs w.

(** [v[-1]] *)
Definition last_item (v : pyval) : result pyval :=
  match v with
  | PList l | PTuple l =>
      match rev l with
      | x :: _ => Ret x
      | [] => Raise (TypeError "list index out of range")
      end
  | PStr s =>
      match rev (chars s) with
      | x :: _ => Ret x
      | [] => Raise (TypeError "string index out of range")
      end
  | PDict _ => Raise (KeyError "-1")
  | _ => Raise (TypeError ("'" ++ type_name v ++ "' object is not subscriptable"))
  end.

(** [response.json()] of what [self.get] returned; in the loop that is a
    response. *)
Definition json_of (r : retval) : result pyval :=
  match r with
  | RResponse response => json response
  | RNone => Raise (no_attribute PNone "json")
  | RGenerator _ => Raise (AttributeError "'generator' object has no attribute 'json'")
  end.

(** What one turn of the loop of [paginate] makes of a page: the cursor
    for the next request, the value of [paginate], and the records to
    yield. A page without records ends the loop and leaves the cursor. *)
Definition read_page (json_data : pyval) (kwargs : dict)
  : result (dict * bool * list pyval) :=
  objects <~ get_attr_get_default json_data "data" (PList []) ;;
  if truthy objects then
    last <~ last_item objects ;;
    id <~ get_attr_get last "id" ;;
    has_more <~ get_attr_get_default json_data "has_more" (PBool false) ;;
    records <~ iter objects ;;
    Ret (dict_set kwargs "starting_after" id, truthy has_more, records)
  else Ret (kwargs, false, []).

(** The loop of [paginate], run until it ends or [fuel] turns are used.
    The records yielded so far are kept when a turn raises. The keyword
    arguments of a turn are those of the turn before as its call of [get]
    left them, with the new cursor. *)
Fixpoint paginate_loop (fuel : nat) (self : connector) (args : list pyval)
  (kwargs : dict) (w : world) : list pyval * result unit * world :=
  match fuel with
  | O => ([], OutOfFuel, w)
  | S fuel' =>
      match get self args kwargs w with
      | (Raise e, w) => ([], Raise e, w)
      | (OutOfFuel, w) => ([], OutOfFuel, w)
      | (Ret response, w) =>
          match (json_data <~ json_of response ;;
                 read_page json_data (kwargs_after self args kwargs)) with
          | Raise e => ([], Raise e, w)
          | OutOfFuel => ([], OutOfFuel, w)
          | Ret (kwargs, paginate, records) =>
              if paginate then
                let '(more, r, w) := paginate_loop fuel' self args kwargs w in
                ((records ++ more)%list, r, w)
              else (records, Ret tt, w)
          end
      end
  end.

(** The keyword arguments after the three [setdefault] calls. *)
Definition paginate_defaults (kwargs : dict) : dict :=
  let limit := match dict_get kwargs "limit" with Some v => v | None => PInt 100 end in
  let starting_after :=
    match dict_get kwargs "starting_after" with Some v => v | None => PInt 0 end in
  let direction :=
    match dict_get kwargs "direction" with Some v => v | None => PStr "asc" end in
  dict_setdefault
    (dict_setdefault (dict_setdefault kwargs "limit" limit)
       "starting_after" starting_after)
    "direction" direction.

(** The generator of [paginate] run to its end: the records it yields, how
    it ends, and the world it leaves. *)
Definition paginate_run (fuel : nat) (self : connector) (args : list pyval)
  (kwargs : dict) (w : world) : list pyval * result unit * world :=
  let kwargs := paginate_defaults kwargs in
  if negb (dry_run self) then paginate_loop fuel self args kwargs w
  else
    let (r, w) := get self args kwargs w in
    ([], (_ <~ r ;; Ret tt), w).

(** [paginate(fn)]: the decorated method does not call [fn]. *)
Definition paginate (fuel : nat) (fn : meth) : meth :=
  fun self args kwargs w =>
    let '(records, r, w) := paginate_run fuel self args kwargs w in
    ((_ <~ r ;; Ret (RGenerator records)), w).

End Transport.

End Decorators.

(** ** __init__.py: the token of [SimpleMDMConnector] *)

Module Connector.

(** The two kinds of value [tkn] is typed with: a [str] or a [Path]. *)
Inductive token : Type :=
| TokStr (s : string)
| TokPath (p : string).

(** [Path(tkn)] *)
Definition token_path (tkn : token) : string :=
  match tkn with TokStr s => s | TokPath p => p end.

Definition _token_is_file (fs : filesystem) (tkn : token) : bool :=
  is_file fs (token_path tkn) && path_exists fs (token_path tkn).

(** [Path.open(mode, encoding=enc)] followed by [read()]: text is not to be
    had in a binary mode that is given an encoding. *)
Definition open_and_read (fs : filesystem) (p mode : string) (enc : option string)
  : result string :=
  match enc with
  | Some _ =>
      if str_contains_char "b"%char mode
      then Raise (ValueError "binary mode doesn't take an encoding argument")
      else match read_file fs p with
           | Some text => Ret text
           | None => Raise (OSError p)
           end
  | None =>
      match read_file fs p with
      | Some text => Ret text
      | None => Raise (OSError p)
      end
  end.

Definition _read_token_with (fs : filesystem) (tkn : token) (_mode _enc : string)
  : result string :=
  if _token_is_file fs tkn then
    match tkn with
    | TokPath p =>
        text <~ open_and_read fs p _mode (Some _enc) ;;
        Ret (strip text)
    | TokStr _ => Raise (no_attribute (PStr "") "open")
    end
  else
    match tkn with
    | TokStr s => Ret (strip s)
    | TokPath _ => Raise (AttributeError "'PosixPath' object has no attribute 'strip'")
    end.

(** [_read_token(tkn)] with its default mode and encoding. *)
Definition _read_token (fs : filesystem) (tkn : token) : result string :=
  _read_token_with fs tkn "rb" "utf-8".

Definition DEFAULT_AUTH_TOKEN_PATH : token := TokPath "/var/root/simplemdm_token".

(** [tkn or self._TOKEN] *)
Definition chosen_token (_TOKEN : token) (tkn : option token) : token :=
  match tkn with
  | None | Some (TokStr EmptyString) => _TOKEN
  | Some t => t
  end.

(** Construction of a client: the user name of the session's basic
    authentication, which is the bearer token. [_TOKEN] is the class
    attribute read from the environment. *)
Definition init (fs : filesystem) (_TOKEN : token) (tkn : option token)
  : result string :=
  _read_token fs (chosen_token _TOKEN tkn).

End Connector.

(** ** endpoints: method tables and the methods the properties speak of *)

Module Endpoints.

Import Utils Validators Decorators.

Definition conf_of (all req any : option (list string)) : method_conf :=
  {| all_params := all; any_params := any; req_params := req;
     inc_params := None; validate := None; file_param := None |}.

(** The table of [Devices]. *)
Definition devices_table : list (string * method_conf) :=
  [ ("list_all",
     conf_of (Some ["search"; "include_awaiting_enrollment";
                    "include_secret_custom_attributes"; "limit"; "starting_after"])
             None None);
    ("retrieve", conf_of (Some ["include_secret_custom_attributes"]) None None);
    ("create", conf_of (Some ["name"; "group_id"]) (Some ["name"]) None);
    ("update", conf_of (Some ["device_name"; "name"]) None (Some ["device_name"; "name"]));
    ("delete_user", conf_of (Some ["user_id"]) (Some ["user_id"]) None);
    ("reboot",
     {| all_params := Some ["notify_user"; "rebuild_kernel_cache"];
        any_params := None; req_params := None; inc_params := None;
        validate := Some [("rebuild_kernel_cache", [PBool true; PBool false]);
                          ("notify_user", [PBool true; PBool false])];
        file_param := None |});
    ("lock", conf_of (Some ["message"; "phone_number"; "pin"]) None None);
    ("set_admin_password", conf_of (Some ["new_password"]) (Some ["new_password"]) None);
    ("wipe", conf_of (Some ["pin"]) None None);
    ("update_os",
     {| all_params := Some ["os_update_mode"; "version_type"];
        any_params := None; req_params := None; inc_params := None;
        validate := Some [("os_update_mode",
                           [PStr "download_only"; PStr "force_update"; PStr "install_asap";
                            PStr "smart_update"; PStr "notify_only"]);
                          ("version_type",
                           [PStr "latest_major_version"; PStr "latest_minor_version"])];
        file_param := None |});
    ("set_timezone", conf_of (Some ["time_zone"]) (Some ["time_zone"]) None);
    ("set_device_attributes",
     conf_of (Some ["attr_name"; "value"]) (Some ["attr_name"; "value"]) None);
    ("set_multiple_device_attributes", conf_of (Some ["json"]) (Some ["json"]) None);
    ("enable_lost_mode",
     conf_of (Some ["message"; "phone_number"; "footnote"]) None
             (Some ["message"; "phone_number"; "footnote"])) ].

(** The table of [Apps]. *)
Definition apps_table : list (string * method_conf) :=
  [ ("list_all", conf_of (Some ["limit"; "starting_after"]) None None);
    ("create",
     {| all_params := Some ["app_store_id"; "binary"; "bundle_id"; "name"];
        any_params := Some ["app_store_id"; "bundle_id"; "binary"];
        req_params := None;
        inc_params := Some [["app_store_id"; "bundle_id"; "binary"];
                            ["app_store_id"; "bundle_id"; "name"]];
        validate := None;
        file_param := Some "binary" |});
    ("update",
     {| all_params := Some ["binary"; "deploy_to"; "name"];
        any_params := Some ["binary"; "deploy_to"; "name"];
        req_params := None; inc_params := None;
        validate := Some [("deploy_to", [PStr "all"; PStr "none"; PStr "outdated"])];
        file_param := Some "binary" |}) ].

(** The table of [Scripts]. *)
Definition scripts_table : list (string * method_conf) :=
  [ ("list_all", conf_of (Some ["limit"; "starting_after"]) None None);
    ("create",
     {| all_params := Some ["name"; "variable_support"; "file"];
        any_params := None;
        req_params := Some ["file"; "name"];
        inc_params := None;
        validate := Some [("variable_support", [PStr "0"; PStr "1"; PInt 0; PInt 1])];
        file_param := Some "file" |});
    ("update",
     {| all_params := Some ["name"; "variable_support"; "file"];
        any_params := None;
        req_params := Some ["file"; "name"];
        inc_params := None;
        validate := Some [("variable_support", [PStr "0"; PStr "1"; PInt 0; PInt 1])];
        file_param := Some "file" |}) ].

(** A resource object with the defaults of the class attributes. *)
Definition resource (endpoint : string) (dry_run : bool)
  (table : list (string * method_conf)) : connector :=
  {| BASE_URL := "https://a.simplemdm.com/api";
     HTTP_CONNECT_TIMEOUT := 5;
     HTTP_READ_TIMEOUT := 5;
     HTTP_MAX_RETRIES := 3;
     HTTP_RETRY_BACKOFF := 1;
     api_vers := "v1";
     endpoint := endpoint;
     dry_run := dry_run;
     _method_kwargs := table |}.

Definition Devices (dry_run : bool) : connector :=
  resource "devices" dry_run devices_table.

Definition Apps (dry_run : bool) : connector :=
  resource "apps" dry_run apps_table.

Definition Scripts (dry_run : bool) : connector :=
  resource "scripts" dry_run scripts_table.

(** The table of [AssignmentGroups]. *)
Definition assignment_groups_table : list (string * method_conf) :=
  [ ("list_all", conf_of (Some ["limit"; "starting_after"]) None None);
    ("create",
     {| all_params := Some ["auto_deploy"; "install_type"; "name"; "type"];
        any_params := None;
        req_params := Some ["name"];
        inc_params := Some [["app_store_id"; "bundle_id"; "binary"];
                            ["app_store_id"; "bundle_id"; "name"]];
        validate := Some [("auto_deploy", [PBool true; PBool false]);
                          ("install_type", [PStr "managed"; PStr "self_serve"]);
                          ("type", [PStr "munki"; PStr "standard"])];
        file_param := None |});
    ("update",
     {| all_params := Some ["auto_deploy"; "name"];
        any_params := None; req_params := None; inc_params := None;
        validate := Some [("deploy_to", [PStr "all"; PStr "none"; PStr "outdated"])];
        file_param := None |});
    ("assign_app", conf_of (Some ["app_id"]) (Some ["app_id"]) None);
    ("unassign_app", conf_of (Some ["app_id"]) (Some ["app_id"]) None);
    ("assign_device_group",
     conf_of (Some ["device_group_id"]) (Some ["device_group_id"]) None);
    ("unassign_device_group",
     conf_of (Some ["device_group_id"]) (Some ["device_group_id"]) None);
    ("assign_device", conf_of (Some ["device_id"]) (Some ["device_id"]) None);
    ("unassign_device", conf_of (Some ["device_id"]) (Some ["device_id"]) None) ].

Definition AssignmentGroups (dry_run : bool) : connector :=
  resource "assignment_groups" dry_run assignment_groups_table.

(** The table of [PushCertificate]. *)
Definition push_certificate_table : list (string * method_conf) :=
  [ ("update",
     {| all_params := Some ["file"; "apple_id"];
        any_params := None;
        req_params := Some ["file"];
        inc_params := None;
        validate := None;
        file_param := Some "file" |}) ].

Definition PushCertificate (dry_run : bool) : connector :=
  resource "push_certificate" dry_run push_certificate_table.

Section Methods.

Variable T : Type.
Variable send : adapter -> request_call -> T -> result response * T.
Variable fs : filesystem.

(** A method declared [def f(self, name, **kwargs)]: the one positional
    parameter is bound from the arguments of the call. *)
Definition def1 (fn_name name : string)
  (body : connector -> pyval -> dict -> M T retval) : meth T :=
  fun self args kwargs w =>
    match args with
    | [] =>
        match dict_get kwargs name with
        | Some v => body self v (dict_del kwargs name) w
        | None => (Raise (TypeError (fn_name ++ "() missing 1 required positional argument: "
                                      ++ repr_str name)), w)
        end
    | [v] =>
        if dict_mem kwargs name
        then (Raise (TypeError (fn_name ++ "() got multiple values for argument "
                                 ++ repr_str name)), w)
        else body self v kwargs w
    | _ => (Raise (TypeError (fn_name ++ "() takes 2 positional arguments but "
                               ++ str_of_Z (Z.of_nat (S (length args))) ++ " were given")), w)
    end.

(** A method declared [def f(self, **kwargs)]. *)
Definition def0 (fn_name : string) (body : connector -> dict -> M T retval) : meth T :=
  fun self args kwargs w =>
    match args with
    | [] => body self kwargs w
    | _ => (Raise (TypeError (fn_name ++ "() takes 1 positional argument but "
                               ++ str_of_Z (Z.of_nat (S (length args))) ++ " were given")), w)
    end.

Definition post_with_id : connector -> pyval -> dict -> M T retval :=
  fun self id kwargs => post send fs self [id] kwargs.

Definition get_with_id : connector -> pyval -> dict -> M T retval :=
  fun self id kwargs => get send fs self [id] kwargs.

(** [Devices.list_all] *)
Definition devices_list_all (fuel : nat) : meth T :=
  method_params fs "list_all"
    (paginate send fs fuel
       (def0 "list_all" (fun self kwargs => get send fs self [] kwargs))).

(** [Devices.create] *)
Definition devices_create : meth T :=
  method_params fs "create"
    (def0 "create" (fun self kwargs => post send fs self [] kwargs)).

(** [Devices.lock] *)
Definition devices_lock : meth T :=
  method_params fs "lock"
    (validate_pin "pin" 6 "lock"
       (url_suffixes "lock" [] (def1 "lock" "device_id" post_with_id))).

(** [Devices.wipe] *)
Definition devices_wipe : meth T :=
  method_params fs "wipe"
    (validate_pin "pin" 6 "wipe"
       (url_suffixes "wipe" [] (def1 "wipe" "device_id" post_with_id))).

(** [Devices.set_device_attribute] *)
Definition devices_set_device_attribute : meth T :=
  method_params fs "set_device_attribute"
    (url_suffixes "custom_attribute_values" ["attr_name"]
       (def1 "set_device_attribute" "device_id" get_with_id)).

(** [Apps.create] *)
Definition apps_create : meth T :=
  method_params fs "create"
    (def0 "create" (fun self kwargs => post send fs self [] kwargs)).

(** [Scripts.create] *)
Definition scripts_create : meth T :=
  method_params fs "create"
    (def0 "create" (fun self kwargs => post send fs self [] kwargs)).

(** [Devices.update] *)
Definition devices_update : meth T :=
  method_params fs "update"
    (def1 "update" "device_id"
       (fun self id kwargs => patch send fs self [id] kwargs)).

(** [Devices.delete_user] *)
Definition devices_delete_user : meth T :=
  method_params fs "delete_user"
    (url_suffixes "users" ["user_id"]
       (def1 "delete_user" "device_id"
          (fun self id kwargs => delete send fs self [id] kwargs))).

(** [PushCertificate.push_certificate_update] *)
Definition push_certificate_update : meth T :=
  method_params fs "push_certificate_update"
    (def0 "push_certificate_update" (fun self kwargs => post send fs self [] kwargs)).

(** [Devices.set_multiple_device_attributes]: its body is
    [self.put(device_id)], without the keyword arguments. *)
Definition devices_set_multiple_device_attributes : meth T :=
  method_params fs "set_multiple_device_attributes"
    (url_suffixes "custom_attribute_values" []
       (def1 "set_multiple_device_attributes" "device_id"
          (fun self id _ => put send fs self [id] []))).

(** [AssignmentGroups.delete]: the class defines [delete] over the request
    method of that name, and the body [self.delete(group_id, **kwargs)] is
    a call of the method itself. [depth] is the number of nested calls the
    interpreter allows. *)
Fixpoint assignment_groups_delete (depth : nat) : meth T :=
  match depth with
  | O => fun _ _ _ w => (OutOfFuel, w)
  | S depth' =>
      def1 "delete" "group_id"
        (fun self group_id kwargs =>
           assignment_groups_delete depth' self [group_id] kwargs)
  end.

(** [AssignmentGroups.unassign_app], whose [self.delete] is the method
    above. *)
Definition assignment_groups_unassign_app (depth : nat) : meth T :=
  method_params fs "unassign_app"
    (url_suffixes "apps" ["app_id"]
       (def1 "unassign_app" "group_id"
          (fun self group_id kwargs =>
             assignment_groups_delete depth self [group_id] kwargs))).

End Methods.

End Endpoints.

(** ** Test doubles *)

Module Mock.

Import Utils Decorators.

Definition ok_response (body : pyval) : response :=
  {| status_code := 200; json_body := Some body |}.

Definition record (id : Z) : pyval := PDict [("id", PInt id)].

Definition page1 : pyval :=
  PDict [("data", PList [record 1; record 2]); ("has_more", PBool true)].

Definition page2 : pyval :=
  PDict [("data", PList [record 3]); ("has_more", PBool false)].

(** A service that answers the first call with [page1], the second with
    [page2], and has nothing more to say; its state counts the calls. *)
Definition two_pages (a : adapter) (rq : request_call) (calls : nat)
  : result response * nat :=
  (match calls with
   | 0%nat => Ret (ok_response page1)
   | 1%nat => Ret (ok_response page2)
   | _ => Raise (ConnectionError "no more pages")
   end, S calls).

(** A service that answers every call with the same response. *)
Definition always (r : response) (a : adapter) (rq : request_call) (calls : nat)
  : result response * nat :=
  (Ret r, S calls).

(** A machine without files. *)
Definition no_files : filesystem :=
  {| path_exists := fun _ => false;
     read_file := fun _ => None;
     resolve := fun p => p;
     pkg_signed := fun _ => false |}.

(** A machine whose only file is [path], with the text [text]. *)
Definition one_file (path text : string) : filesystem :=
  {| path_exists := String.eqb path;
     read_file := fun p => if String.eqb path p then Some text else None;
     resolve := fun p => p;
     pkg_signed := fun _ => false |}.

Definition fresh : world nat :=
  {| net := 0%nat; sent := []; mounted := None; printed := [] |}.

(** The body of a page of records. *)
Definition page_of (records : list pyval) (more : bool) : pyval :=
  PDict [("data", PList records); ("has_more", PBool more)].

(** The body of the page number [n] of a book of pages; every page but the
    last says that more are to come. *)
Fixpoint nth_page (pages : list (list pyval)) (n : nat) : option pyval :=
  match pages with
  | [] => None
  | p :: rest =>
      match n with
      | O => Some (page_of p (match rest with [] => false | _ => true end))
      | S n' => nth_page rest n'
      end
  end.

(** A service that answers the calls with the pages of a book, one after
    the other, whatever the cursor; its state counts the calls. *)
Definition serve (pages : list (list pyval)) (a : adapter) (rq : request_call)
  (calls : nat) : result response * nat :=
  (match nth_page pages calls with
   | Some body => Ret (ok_response body)
   | None => Raise (ConnectionError "no more pages")
   end, S calls).

End Mock.

(** ** Observations used in the statements *)

Module Obs.

Import Utils Validators Decorators.

(** The exception of [validate_incompatible] for two parameters that may
    not be combined is an [AttributeError]. *)
Definition is_incompatible_error {A} (r : result A) : bool :=
  match r with
  | Raise (AttributeError _) => true
  | _ => false
  end.

(** The exception of [validate_pin] is a [ValueError]. *)
Definition is_pin_error {A} (r : result A) : bool :=
  match r with
  | Raise (ValueError _) => true
  | _ => false
  end.

(** A page that ends the pagination: no records, or no more to come. *)
Definition last_page (body : dict) : bool :=
  negb (truthy (match dict_get body "data" with Some v => v | None => PList [] end))
  || negb (truthy (match dict_get body "has_more" with Some v => v | None => PBool false end)).

(** The headers that announce a JSON body. *)
Definition json_headers : pyval :=
  PDict [("Content-Type", PStr "application/json")].

(** The cursor a request carries. *)
Definition cursor_of (rq : request_call) : option pyval :=
  match dict_get (rq_kwargs rq) "params" with
  | Some (PDict params) => dict_get params "starting_after"
  | _ => None
  end.

(** Two slashes in a row somewhere in [s]. *)
Fixpoint has_double_slash (s : string) : bool :=
  match s with
  | EmptyString => false
  | String c r =>
      match r with
      | String d _ =>
          (Ascii.eqb c "/"%char && Ascii.eqb d "/"%char) || has_double_slash r
      | EmptyString => false
      end
  end.

(** [s] without a leading [scheme://]. *)
Fixpoint after_scheme (s : string) : string :=
  match s with
  | EmptyString => ""
  | String c r =>
      match c, r with
      | ":"%char, String "/"%char (String "/"%char r') => r'
      | _, _ => after_scheme r
      end
  end.

(** The call goes down the upload path of [wrap_actions]. *)
Definition is_upload (p : prepared) : bool :=
  truthy (p_fieldname p) && truthy (dict_get_none (p_kwargs p) "files").

Definition is_dict (v : pyval) : bool :=
  match v with PDict _ => true | _ => false end.

(** The quoted titles of a list of error objects: one for each object
    with a truthy title. *)
Definition quoted_titles (errs : list pyval) : list string :=
  map (fun t => "'" ++ str t ++ "'")
      (filter truthy
         (map (fun err => match err with
                          | PDict d => dict_get_none d "title"
                          | _ => PNone
                          end) errs)).

(** A colon followed by three slashes somewhere in [s]. *)
Fixpoint has_overlong_scheme (s : string) : bool :=
  match s with
  | EmptyString => false
  | String c r =>
      match c, r with
      | ":"%char, String "/"%char (String "/"%char (String "/"%char _)) => true
      | _, _ => has_overlong_scheme r
      end
  end.

(** [s] without its first three characters. *)
Definition drop3 (s : string) : string :=
  match s with
  | String _ (String _ (String _ r)) => r
  | _ => ""
  end.

(** [s] starts with the two characters [2,]. *)
Definition starts_two_comma (s : string) : bool :=
  match s with
  | String c r =>
      Ascii.eqb c "2"%char
      && match r with String d _ => Ascii.eqb d ","%char | EmptyString => false end
  | EmptyString => false
  end.

(** [s] without its first two characters. *)
Definition drop2 (s : string) : string :=
  match s with
  | String _ (String _ r) => r
  | _ => ""
  end.

(** The number of slashes [s] starts with. *)
Fixpoint leading_slashes (s : string) : nat :=
  match s with
  | String "/"%char r => S (leading_slashes r)
  | _ => O
  end.

(** No keyword of the call is one of the three that [wrap_actions] keeps
    for itself. *)
Definition no_function_kwargs (kwargs : dict) : bool :=
  forallb (fun kv => negb (in_list (fst kv) _function_kwargs)) kwargs.

(** The records of a page are objects, and there is one at least. *)
Definition good_page (records : list pyval) : bool :=
  match records with [] => false | _ => forallb is_dict records end.

(** The dict of [consume_kwargs] a keyword goes to: 0 for the request
    keywords, 1 for the keywords [wrap_actions] keeps, 2 for the rest. *)
Definition bucket_of (k : string) : nat :=
  if in_list k _requests_kwargs then 0%nat
  else if in_list k _function_kwargs then 1%nat else 2%nat.

(** The dict number [n] of the three the loop of [consume_kwargs] fills. *)
Definition pick (n : nat) (acc : dict * dict * dict) : dict :=
  match n with
  | O => fst (fst acc)
  | S O => snd acc
  | _ => snd (fst acc)
  end.

(** The answer of [wrap_actions] once the response [r] is in. *)
Definition verdict (upload : bool) (ignore : list pyval) (r : result response)
  : result retval :=
  match r with
  | Ret response =>
      if negb (status_in (status_code response) ignore)
      then _ <~ check_response upload response ;; Ret (RResponse response)
      else Ret (RResponse response)
  | Raise e => Raise e
  | OutOfFuel => OutOfFuel
  end.

End Obs.

(** * Properties *)

Ltac inv H := inversion H; subst; clear H.

Import Utils Validators Decorators Connector Endpoints Mock Obs.

(** ** Dictionaries *)

Lemma dict_get_set_same (d : dict) (k : string) (v : pyval) :
  dict_get (dict_set d k v) k = Some v.
Proof.
  induction d as [|[k' v'] d IH]; simpl.
  - now rewrite String.eqb_refl.
  - destruct (String.eqb k k') eqn:E; simpl.
    + now rewrite String.eqb_refl.
    + now rewrite E.
Qed.

Lemma dict_get_set_other (d : dict) (k k' : string) (v : pyval) :
  String.eqb k' k = false ->
  dict_get (dict_set d k v) k' = dict_get d k'.
Proof.
  intros Hne. induction d as [|[k0 v0] d IH]; simpl.
  - now rewrite Hne.
  - destruct (String.eqb k k0) eqn:E; simpl.
    + apply String.eqb_eq in E. subst k0. now rewrite Hne.
    + destruct (String.eqb k' k0); auto.
Qed.

Lemma dict_get_setdefault_other (d : dict) (k k' : string) (v : pyval) :
  String.eqb k' k = false ->
  dict_get (dict_setdefault d k v) k' = dict_get d k'.
Proof.
  intros Hne. unfold dict_setdefault.
  destruct (dict_mem d k); auto using dict_get_set_other.
Qed.

Lemma dict_get_absent (d : dict) (k : string) :
  ~ In k (map fst d) -> dict_get d k = None.
Proof.
  induction d as [|[k' v'] d IH]; simpl; intros Hn; auto.
  destruct (String.eqb k k') eqn:E.
  - apply String.eqb_eq in E. subst. tauto.
  - apply IH. tauto.
Qed.

(** ** C4: the URL builder *)

Lemma filter_twice {A} (f : A -> bool) (l : list A) :
  filter f (filter f l) = filter f l.
Proof.
  induction l as [|x l IH]; simpl; auto.
  destruct (f x) eqn:E; simpl; rewrite ?E, IH; auto.
Qed.

(** Falsy segments are dropped: they leave no trace in the URL. *)
Lemma urljoin_drops_falsy (paths : list pyval) (base : string) :
  urljoin paths base = urljoin (filter truthy paths) base.
Proof. unfold urljoin. now rewrite filter_twice. Qed.

(** C4. The example of the specification is joined as it says, and falsy
    segments are dropped; but the slashes of the path are not collapsed: a
    segment that ends in a slash leaves two in the URL, and the pattern
    that was meant to collapse them removes the text [2,] after a slash
    instead. *)
Theorem C4_urljoin_keeps_repeated_slashes :
  urljoin [PStr "v1"; PStr "devices"; PStr "42"; PStr "profiles"]
          "https://a.simplemdm.com/api"
    = "https://a.simplemdm.com/api/v1/devices/42/profiles"
  /\ urljoin [PStr "v1"; PStr ""; PNone; PStr "devices"; PInt 0; PInt 42]
             "https://a.simplemdm.com/api"
       = "https://a.simplemdm.com/api/v1/devices/42"
  /\ urljoin [PStr "v1"; PStr "devices/"; PStr "42"] "https://a.simplemdm.com/api"
       = "https://a.simplemdm.com/api/v1/devices//42"
  /\ has_double_slash
       (after_scheme (urljoin [PStr "v1"; PStr "devices/"; PStr "42"]
                              "https://a.simplemdm.com/api")) = true
  /\ urljoin [PStr "v1"; PStr "devices"; PStr "2,5"] "https://a.simplemdm.com/api"
       = "https://a.simplemdm.com/api/v1/devices/5".
Proof. repeat split; vm_compute; reflexivity. Qed.

(** ** C8: the bearer token *)

(** What [_read_token] does, case by case: a token that names a regular
    file is never read; a string that names none is trimmed; a path that
    names none has no [strip]. *)
Lemma read_token_cases (fs : filesystem) (tkn : token) :
  _read_token fs tkn =
    if _token_is_file fs tkn then
      match tkn with
      | TokPath _ => Raise (ValueError "binary mode doesn't take an encoding argument")
      | TokStr _ => Raise (AttributeError "'str' object has no attribute 'open'")
      end
    else
      match tkn with
      | TokStr s => Ret (strip s)
      | TokPath _ => Raise (AttributeError "'PosixPath' object has no attribute 'strip'")
      end.
Proof.
  unfold _read_token, _read_token_with.
  destruct (_token_is_file fs tkn), tkn; reflexivity.
Qed.

(** C8. A token given as a string that names no file is used trimmed; but
    when the token names an existing regular file the construction of the
    client raises, for a path (the default token path included) as for a
    string, and the text of the file is never the bearer token. *)
Theorem C8_token_file_is_never_read :
  init no_files DEFAULT_AUTH_TOKEN_PATH (Some (TokStr "  abc123 ")) = Ret "abc123"
  /\ init (one_file "/var/root/simplemdm_token" "abc123 ") DEFAULT_AUTH_TOKEN_PATH None
       = Raise (ValueError "binary mode doesn't take an encoding argument")
  /\ init (one_file "/tmp/token" "abc123") DEFAULT_AUTH_TOKEN_PATH
          (Some (TokStr "/tmp/token"))
       = Raise (AttributeError "'str' object has no attribute 'open'")
  /\ (forall fs _TOKEN tkn,
        (if _token_is_file fs (chosen_token _TOKEN tkn)
         then match init fs _TOKEN tkn with Ret _ => false | _ => true end
         else true) = true).
Proof.
  repeat split; try (vm_compute; reflexivity).
  intros fs _TOKEN tkn. unfold init. rewrite read_token_cases.
  destruct (_token_is_file fs (chosen_token _TOKEN tkn)); auto.
  destruct (chosen_token _TOKEN tkn); reflexivity.
Qed.

(** ** C3: incompatible parameters *)

(** No name of a parameter is equal to a group of names. *)
Lemma name_in_no_group (kwarg : string) (inc_params : list (list string)) :
  existsb (eq_str kwarg) (groups_val inc_params) = false.
Proof. induction inc_params as [|g inc IH]; simpl; auto. Qed.

Lemma clash_never (kwargs : dict) (inc_params : list (list string))
  (kwarg bad_kwarg : string) :
  clash kwargs inc_params kwarg bad_kwarg = false.
Proof.
  unfold clash. rewrite name_in_no_group.
  now rewrite andb_false_r.
Qed.

Lemma check_combo_passes kwargs inc_params fn_name kwarg combo :
  check_combo kwargs inc_params fn_name kwarg combo = Ret tt.
Proof.
  induction combo as [|b combo IH]; simpl; auto.
  now rewrite clash_never.
Qed.

Lemma check_combos_passes kwargs inc_params fn_name kwarg combos :
  check_combos kwargs inc_params fn_name kwarg combos = Ret tt.
Proof.
  induction combos as [|c combos IH]; simpl; auto.
  now rewrite check_combo_passes.
Qed.

Lemma check_kwargs_cases kwargs inc_params fn_name bad_combos names :
  check_kwargs kwargs inc_params fn_name bad_combos names = Ret tt
  \/ check_kwargs kwargs inc_params fn_name bad_combos names
       = Raise (not_iterable PNone).
Proof.
  induction names as [|n names IH]; simpl; auto.
  destruct bad_combos as [combos|]; auto.
  now rewrite check_combos_passes.
Qed.

Lemma bad_combinations_cases (params : list (list string)) :
  (exists l, bad_combinations_of params = Ret l)
  \/ bad_combinations_of params = Raise (ValueError "r must be non-negative").
Proof.
  induction params as [|p params IH]; simpl.
  - left. now exists [].
  - destruct p as [|x p]; auto.
    destruct IH as [[l ->]| ->]; simpl; eauto.
Qed.



(** C3. Whatever the call and the groups, [validate_incompatible] does not
    raise its error for incompatible parameters; with the groups of
    [Apps.create], two parameters of one group pass the validation, and
    [Apps.create] called with two of them sends its request. One parameter
    of a group passes as well. *)
Theorem C3_incompatible_parameters_pass :
  (forall kwargs inc_params fn_name,
      is_incompatible_error (validate_incompatible kwargs inc_params fn_name) = false)
  /\ validate_incompatible
       [("app_store_id", PStr "1090161858"); ("binary", PStr "/tmp/app.pkg")]
       [["app_store_id"; "bundle_id"; "binary"]; ["app_store_id"; "bundle_id"; "name"]]
       "create" = Ret tt
  /\ (let '(r, w) :=
        apps_create (always (ok_response (PDict []))) no_files (Apps false) []
          [("app_store_id", PStr "1090161858"); ("bundle_id", PStr "foo.example.org")]
          fresh in
      r = Ret (RResponse (ok_response (PDict []))) /\ length (sent w) = 1%nat)
  /\ validate_incompatible
       [("app_store_id", PStr "1090161858")]
       [["app_store_id"; "bundle_id"; "binary"]; ["app_store_id"; "bundle_id"; "name"]]
       "create" = Ret tt.
Proof.
  split; [|repeat split; vm_compute; reflexivity].
  intros kwargs inc_params fn_name.
  unfold validate_incompatible, _generate_bad_combinations.
  destruct (bad_combinations_cases inc_params) as [[l ->]| ->]; [|reflexivity].
  cbn [rbind].
  match goal with
  | |- context [check_kwargs ?k ?i ?f ?b ?n] =>
      destruct (check_kwargs_cases k i f b n) as [-> | ->]
  end; reflexivity.
Qed.

(** ** C2: the device PIN *)

(** [validate_pin] looks for the PIN under [params]; there the three values
    of the specification get the three verdicts. *)
Lemma pin_checks_under_params :
  pin_checks "pin" 6 "lock" [("params", PDict [("pin", PStr "123456")])] = Ret tt
  /\ pin_checks "pin" 6 "lock" [("params", PDict [("pin", PStr "12345")])]
       = Raise (ValueError "lock() option for 'pin' does not meet length requirement of 6")
  /\ pin_checks "pin" 6 "lock" [("params", PDict [("pin", PStr "12a456")])]
       = Raise (ValueError "lock() option for 'pin' contains non-numeric characters").
Proof. repeat split; vm_compute; reflexivity. Qed.

(** The wrapper of [validate_pin] leaves the world as it found it. *)
Lemma validate_pin_sends_nothing (T : Type) (param : string) (length : Z)
  (fn_name : string) (fn : meth T) self args kwargs (w : world T) :
  snd (validate_pin param length fn_name fn self args kwargs w) = w.
Proof.
  unfold validate_pin. destruct (pin_checks param length fn_name kwargs); reflexivity.
Qed.

(** C2. A PIN given to [Devices.lock] or [Devices.wipe] as the keyword
    argument [pin] is not validated: "12345" and "12a456" raise nothing.
    And a call whose PIN is valid does not proceed, be the PIN given as
    [pin] or under [params], where the validator looks for it: whatever
    the call, no request is sent, and the method returns [None]. *)
Theorem C2_pin_not_checked_and_call_not_made :
  (forall T (send : adapter -> request_call -> T -> result response * T)
          fs dry device_id pin (w : world T),
      devices_lock send fs (Devices dry) [device_id] [("pin", pin)] w = (Ret RNone, w)
      /\ devices_wipe send fs (Devices dry) [device_id] [("pin", pin)] w = (Ret RNone, w))
  /\ (forall T (send : adapter -> request_call -> T -> result response * T)
             fs self args kwargs (w : world T),
        snd (devices_lock send fs self args kwargs w) = w
        /\ snd (devices_wipe send fs self args kwargs w) = w)
  /\ is_pin_error
       (fst (devices_lock (always (ok_response (PDict []))) no_files (Devices false)
               [PStr "42"] [("pin", PStr "12345")] fresh)) = false
  /\ is_pin_error
       (fst (devices_lock (always (ok_response (PDict []))) no_files (Devices false)
               [PStr "42"] [("pin", PStr "12a456")] fresh)) = false
  /\ devices_lock (always (ok_response (PDict []))) no_files (Devices false)
       [PStr "42"] [("pin", PStr "123456")] fresh = (Ret RNone, fresh)
  /\ devices_lock (always (ok_response (PDict []))) no_files (Devices false)
       [PStr "42"] [("params", PDict [("pin", PStr "123456")])] fresh
     = (Ret RNone, fresh).
Proof.
  split; [|split; [|repeat split; vm_compute; reflexivity]].
  - intros. split; reflexivity.
  - intros. unfold devices_lock, devices_wipe, method_params.
    split;
      match goal with
      | |- context [run_validations ?f ?c ?n ?k] => destruct (run_validations f c n k)
      end; try reflexivity; apply validate_pin_sends_nothing.
Qed.

(** ** C9: the status lists *)

Lemma status_in_app_r (x : Z) (l m : list pyval) :
  status_in x m = true -> status_in x (l ++ m) = true.
Proof. unfold status_in. rewrite existsb_app. intros ->. apply orb_true_r. Qed.

Lemma status_in_defaults (x : Z) (defaults : list Z) :
  In x defaults -> status_in x (map PInt defaults) = true.
Proof.
  unfold status_in. intros Hin. apply existsb_exists.
  exists (PInt x). split; [now apply in_map|]. simpl. apply Z.eqb_refl.
Qed.

Lemma with_defaults_spec (kwargs : dict) (key : string) (defaults : list Z)
  (l : list pyval) :
  with_defaults kwargs key defaults = Ret l ->
  exists extra,
    iter (match dict_get kwargs key with Some v => v | None => PList [] end) = Ret extra
    /\ l = (extra ++ map PInt defaults)%list.
Proof.
  unfold with_defaults. destruct (iter _) as [extra|e|]; simpl; try discriminate.
  intros [= <-]. eauto.
Qed.

Lemma with_defaults_contains (kwargs : dict) (key : string) (defaults : list Z)
  (l : list pyval) :
  with_defaults kwargs key defaults = Ret l ->
  forall x, In x defaults -> status_in x l = true.
Proof.
  intros H x Hx. apply with_defaults_spec in H as (extra & _ & ->).
  apply status_in_app_r. now apply status_in_defaults.
Qed.

Lemma consume_func_kwargs_inv (self : connector) (kwargs : dict) ignore retry :
  consume_func_kwargs self kwargs = Ret (ignore, retry) ->
  with_defaults kwargs "ignore_statuses" HTTP_IGNORE_STATUS_ERR = Ret ignore
  /\ with_defaults kwargs "retry_statuses" HTTP_RETRY_STATUS_LIST = Ret retry.
Proof.
  unfold consume_func_kwargs.
  destruct (with_defaults kwargs "ignore_statuses" _) as [i|e|]; simpl; try discriminate.
  destruct (with_defaults kwargs "retry_statuses" _) as [r|e|]; simpl; try discriminate.
  now intros [= <- <-].
Qed.

Lemma prepare_inv (self : connector) (args : list pyval) (kwargs : dict) (p : prepared) :
  prepare self args kwargs = Ret p ->
  consume_func_kwargs self (snd (consume_kwargs kwargs)) = Ret (p_ignore p, p_retry p).
Proof.
  unfold prepare. destruct (consume_kwargs kwargs) as [rk fk]. simpl.
  destruct (consume_func_kwargs self fk) as [[i r]|e|]; simpl; try discriminate.
  now intros [= <-].
Qed.

(** C9. The lists in force for a call are the caller's statuses followed
    by the defaults of the class: every default is in them and every
    status of the caller is in them. This holds for the two lists that
    [consume_func_kwargs] returns, hence for the ignore list that a
    request is checked against and for the retry list of the adapter
    mounted for it. *)
Theorem C9_defaults_stay_in_force (self : connector) (func_kwargs : dict)
  (ignore retry : list pyval) :
  consume_func_kwargs self func_kwargs = Ret (ignore, retry) ->
  (forall s, In s [200; 201; 202; 500] -> status_in s ignore = true)
  /\ (forall s, In s [429; 500; 502; 503; 504] -> status_in s retry = true)
  /\ (exists extra,
        iter (match dict_get func_kwargs "ignore_statuses" with
              | Some v => v | None => PList [] end) = Ret extra
        /\ ignore = (extra ++ map PInt [200; 201; 202; 500])%list)
  /\ (exists extra,
        iter (match dict_get func_kwargs "retry_statuses" with
              | Some v => v | None => PList [] end) = Ret extra
        /\ retry = (extra ++ map PInt [429; 500; 502; 503; 504])%list)
  /\ (forall args kwargs p,
        func_kwargs = snd (consume_kwargs kwargs) ->
        prepare self args kwargs = Ret p ->
        p_ignore p = ignore
        /\ status_forcelist (session_retry self (p_retry p)) = retry).
Proof.
  intros H. pose proof (consume_func_kwargs_inv _ _ H) as [Hi Hr].
  split; [|split; [|split; [|split]]].
  - intros s Hs. eapply with_defaults_contains; eauto.
  - intros s Hs. eapply with_defaults_contains; eauto.
  - now apply with_defaults_spec.
  - now apply with_defaults_spec.
  - intros args kwargs p -> Hp. apply prepare_inv in Hp.
    rewrite H in Hp. now inversion Hp.
Qed.

(** C9 at a call that adds 404 to the ignored statuses and 408 to the
    retried ones. *)
Lemma C9_defaults_stay_in_force_witness :
  (forall s, In s [200; 201; 202; 500] ->
     status_in s (map PInt [404; 200; 201; 202; 500]) = true)
  /\ (forall s, In s [429; 500; 502; 503; 504] ->
        status_in s (map PInt [408; 429; 500; 502; 503; 504]) = true).
Proof.
  pose proof (@C9_defaults_stay_in_force (Devices false)
                [("ignore_statuses", PList [PInt 404]);
                 ("retry_statuses", PList [PInt 408])]
                (map PInt [404; 200; 201; 202; 500])
                (map PInt [408; 429; 500; 502; 503; 504])
                eq_refl) as (Hi & Hr & _).
  split; assumption.
Defined.

(** ** Required parameters *)

(** [validate_required] raises for the first required name the call lacks,
    and passes when none is lacking. *)
Lemma validate_required_missing (kwargs : dict) (fn_name : string)
  (req_params : list string) (r : string) :
  In r req_params -> dict_mem kwargs r = false ->
  exists r', In r' req_params /\ dict_mem kwargs r' = false
    /\ validate_required kwargs req_params fn_name
       = Raise (TypeError (fn_name ++ "() missing required keyword-only parameter: "
                             ++ repr_str r')).
Proof.
  induction req_params as [|q reqs IH]; simpl; [tauto|].
  intros Hin Hr. destruct (dict_mem kwargs q) eqn:Hq; simpl.
  - destruct Hin as [->|Hin]; [congruence|].
    destruct (IH Hin Hr) as (r' & Hin' & Hr' & ->). eauto.
  - exists q. auto.
Qed.

Lemma validate_required_present (kwargs : dict) (fn_name : string)
  (req_params : list string) :
  forallb (dict_mem kwargs) req_params = true ->
  validate_required kwargs req_params fn_name = Ret tt.
Proof.
  induction req_params as [|q reqs IH]; simpl; auto.
  intros [Hq Hall]%andb_prop. rewrite Hq. simpl. auto.
Qed.

(** X26. A method decorated with [method_params] whose table entry, found
    under the name of the method, declares required parameters, called
    without one of them, raises the
    [TypeError] of [validate_required] for a parameter that is lacking.
    The world is left as it was: no request is sent, nothing is printed,
    and the decorated function is not reached, whatever it is. *)
Theorem missing_required_raises_before_any_request
  (T : Type) (fs : filesystem) (fn_name : string) (fn : meth T)
  (self : connector) (args : list pyval) (kwargs : dict) (w : world T)
  (reqs : list string) (r : string) :
  req_params (lookup_conf (_method_kwargs self) fn_name) = Some reqs ->
  In r reqs ->
  dict_mem kwargs r = false ->
  exists r',
    In r' reqs /\ dict_mem kwargs r' = false
    /\ method_params fs fn_name fn self args kwargs w
       = (Raise (TypeError (fn_name ++ "() missing required keyword-only parameter: "
                              ++ repr_str r')), w).
Proof.
  intros Hconf Hin Hr.
  destruct (validate_required_missing kwargs fn_name reqs r Hin Hr)
    as (r' & Hin' & Hr' & Hraise).
  exists r'. split; [assumption|]. split; [assumption|].
  unfold method_params, run_validations. rewrite Hconf.
  unfold when_some at 1.
  destruct reqs as [|q reqs]; [contradiction|].
  cbn [nonempty]. rewrite Hraise. reflexivity.
Qed.

(** X26 at [Devices.create] called without [name]: the error is raised
    and the mocked transport has seen no request. *)
Lemma missing_required_raises_before_any_request_witness :
  exists r',
    In r' ["name"] /\ dict_mem [("group_id", PInt 7)] r' = false
    /\ devices_create (always (ok_response (PDict []))) no_files (Devices false) []
         [("group_id", PInt 7)] fresh
       = (Raise (TypeError ("create" ++ "() missing required keyword-only parameter: "
                              ++ repr_str r')), fresh).
Proof.
  apply (@missing_required_raises_before_any_request nat no_files "create"
           (def0 "create"
              (fun self kwargs =>
                 post (always (ok_response (PDict []))) no_files self [] kwargs))
           (Devices false) [] [("group_id", PInt 7)] fresh ["name"] "name").
  - reflexivity.
  - simpl. auto.
  - reflexivity.
Defined.

(** ** The request wrapper *)

Lemma app_one_neq {A} (l : list A) (x : A) : (l ++ [x])%list <> l.
Proof.
  intros H. apply (f_equal (@length A)) in H.
  rewrite length_app in H. simpl in H. lia.
Qed.

Lemma app_one_inj {A} (l : list A) (x y : A) :
  (l ++ [x])%list = (l ++ [y])%list -> x = y.
Proof. intros H. apply app_inv_head in H. congruence. Qed.

Section RequestFacts.

Variable T : Type.
Variable send : adapter -> request_call -> T -> result response * T.
Variable fs : filesystem.

(** The two ways [send_and_check] can go: the call of the session is
    refused for a keyword that repeats [method] or [url], or the request
    goes out. *)
Lemma send_and_check_inv method upload p a k (w w' : world T) out :
  send_and_check send method upload p a k w = (out, w') ->
  let rq := {| rq_method := method; rq_url := p_url p; rq_kwargs := k |} in
  ((exists name, given_twice k = Some name)
   /\ w' = w /\ exists msg, out = Raise (TypeError msg))
  \/ (given_twice k = None
      /\ sent w' = (sent w ++ [rq])%list
      /\ printed w' = printed w
      /\ mounted w' = mounted w
      /\ net w' = snd (send a rq (net w))
      /\ out = verdict upload (p_ignore p) (fst (send a rq (net w)))).
Proof.
  unfold send_and_check, session_request, verdict. cbn zeta. cbn [rq_kwargs].
  destruct (given_twice k) as [name|].
  - intros H; inv H. left. eauto.
  - destruct (send a _ (net w)) as [[resp|e|] t]; cbn [fst snd].
    + destruct (negb (status_in (status_code resp) (p_ignore p))).
      * destruct (check_response upload resp) as [[]|e|]; intros H; inv H; cbn;
          right; auto 6.
      * intros H; inv H; cbn; right; auto 6.
    + intros H; inv H; cbn; right; auto 6.
    + intros H; inv H; cbn; right; auto 6.
Qed.

(** The three ways [perform] can go. *)
Lemma perform_inv method self p a (w w' : world T) out :
  perform send fs method self p a w = (out, w') ->
  (sent w' = sent w /\ printed w' = printed w /\ mounted w' = mounted w
   /\ dry_run self = false)
  \/ (dry_run self = true /\ out = Ret RNone /\ sent w' = sent w
      /\ mounted w' = mounted w
      /\ printed w' = (printed w ++ [{| rq_method := method; rq_url := p_url p;
                                         rq_kwargs := p_kwargs p |}])%list)
  \/ (dry_run self = false
      /\ exists k,
           send_and_check send method (is_upload p) p a k w = (out, w')
           /\ dict_get k "headers" = dict_get (p_kwargs p) "headers").
Proof.
  unfold perform, is_upload. destruct (dry_run self); cbn [negb].
  - intros H; inv H. right; left. cbn. auto.
  - destruct (truthy (p_fieldname p) && truthy (dict_get_none (p_kwargs p) "files")).
    + destruct (open_upload fs (p_fieldname p) (dict_get_none (p_kwargs p) "files"))
        as [files|e|].
      * intros H. right; right. split; auto.
        exists (dict_set (p_kwargs p) "files" files). split; auto.
        now apply dict_get_set_other.
      * intros H; inv H. auto.
      * intros H; inv H. auto.
    + intros H. right; right. split; auto. exists (p_kwargs p). auto.
Qed.

(** A call of a request method that has sent a request has sent one, to
    the adapter it mounted, and answers by the verdict on the response. *)
Lemma wrap_request_sent method self args kwargs (w w' : world T) out rq :
  wrap_request send fs method self args kwargs w = (out, w') ->
  sent w' = (sent w ++ [rq])%list ->
  exists p,
    prepare self args kwargs = Ret p
    /\ dry_run self = false
    /\ mounted w' = Some (session_retry self (p_retry p))
    /\ rq_method rq = method /\ rq_url rq = p_url p
    /\ dict_get (rq_kwargs rq) "headers" = dict_get (p_kwargs p) "headers"
    /\ net w' = snd (send (session_retry self (p_retry p)) rq (net w))
    /\ out = verdict (is_upload p) (p_ignore p)
               (fst (send (session_retry self (p_retry p)) rq (net w))).
Proof.
  unfold wrap_request. intros H Hsent.
  destruct (prepare self args kwargs) as [p|e|] eqn:Hp.
  - apply perform_inv in H.
    destruct H as [(Hs & _)|[(_ & _ & Hs & _)|(Hdry & k & H & Hh)]].
    + cbn in Hs. rewrite Hs in Hsent. symmetry in Hsent.
      now apply app_one_neq in Hsent.
    + cbn in Hs. rewrite Hs in Hsent. symmetry in Hsent.
      now apply app_one_neq in Hsent.
    + apply send_and_check_inv in H. cbn zeta in H.
      destruct H as [(_ & -> & _)|(_ & Hs & _ & Hm & Hn & Hout)].
      * cbn [mount sent] in Hsent. symmetry in Hsent.
        now apply app_one_neq in Hsent.
      * cbn [mount sent net mounted] in Hs, Hm, Hn, Hout.
        rewrite Hs in Hsent. apply app_one_inj in Hsent. subst rq.
        exists p. cbn. auto 10.
  - inv H. symmetry in Hsent. now apply app_one_neq in Hsent.
  - inv H. symmetry in Hsent. now apply app_one_neq in Hsent.
Qed.

(** The decorator [request] applied to a method name gives the wrapper for
    the name in upper case, whatever function it decorates. *)
Lemma request_get (fn : meth T) :
  exists decorate, request send fs "get" = Ret decorate
                   /\ decorate fn = get send fs.
Proof. eexists. split; reflexivity. Qed.

(** ** C5: ignored statuses *)

(** C5. When a call of a request method has sent its request and the
    response has a status of the ignore list in force, the call returns
    that response as it is: neither the error list of the body nor the
    status is looked at. This is so for the statuses the caller adds and,
    whatever the caller adds, for the defaults 200, 201, 202 and 500. *)
Theorem C5_ignored_status_is_returned_as_is
  (method : string) (self : connector) (args : list pyval) (kwargs : dict)
  (w w' : world T) (out : result retval) (rq : request_call) (a : adapter)
  (resp : response) :
  wrap_request send fs method self args kwargs w = (out, w') ->
  sent w' = (sent w ++ [rq])%list ->
  mounted w' = Some a ->
  fst (send a rq (net w)) = Ret resp ->
  (In (status_code resp) HTTP_IGNORE_STATUS_ERR
   \/ exists ignore retry,
        consume_func_kwargs self (snd (consume_kwargs kwargs)) = Ret (ignore, retry)
        /\ status_in (status_code resp) ignore = true) ->
  out = Ret (RResponse resp).
Proof.
  intros H Hsent Hm Hresp Hign.
  destruct (@wrap_request_sent method self args kwargs w w' out rq H Hsent)
    as (p & Hp & _ & Hm' & _ & _ & _ & _ & Hout).
  rewrite Hm in Hm'. injection Hm' as Ha. rewrite <- Ha, Hresp in Hout.
  pose proof (@prepare_inv self args kwargs p Hp) as Hc.
  assert (Hin : status_in (status_code resp) (p_ignore p) = true).
  { destruct Hign as [Hd | (ignore & retry & Hc' & Hs)].
    - apply consume_func_kwargs_inv in Hc as [Hi _].
      eapply with_defaults_contains; eauto.
    - rewrite Hc in Hc'. injection Hc' as -> _. exact Hs. }
  unfold verdict in Hout. now rewrite Hin in Hout.
Qed.

End RequestFacts.

(** C5 at a plain POST answered with status 500 and a body without
    errors. *)
Lemma C5_ignored_status_is_returned_as_is_witness :
  post (always {| status_code := 500; json_body := Some (PDict [("data", PDict [])]) |})
       no_files (Devices false) [] [("name", PStr "n")] fresh
  = (Ret (RResponse {| status_code := 500;
                       json_body := Some (PDict [("data", PDict [])]) |}),
     snd (post (always {| status_code := 500;
                          json_body := Some (PDict [("data", PDict [])]) |})
               no_files (Devices false) [] [("name", PStr "n")] fresh)).
Proof.
  set (resp := {| status_code := 500; json_body := Some (PDict [("data", PDict [])]) |}).
  set (run := post (always resp) no_files (Devices false) [] [("name", PStr "n")] fresh).
  assert (Hrun : run = (fst run, snd run)) by (destruct run; reflexivity).
  rewrite Hrun at 1. apply (f_equal (fun r => (r, snd run))).
  apply (@C5_ignored_status_is_returned_as_is nat (always resp) no_files "POST"
           (Devices false) [] [("name", PStr "n")] fresh (snd run) (fst run)
           {| rq_method := "POST"; rq_url := "https://a.simplemdm.com/api/v1/devices";
              rq_kwargs := [("params", PDict [("name", PStr "n")]);
                            ("timeout", PTuple [PInt 5; PInt 5])] |}
           (session_retry (Devices false) (map PInt HTTP_RETRY_STATUS_LIST))
           resp).
  - exact Hrun.
  - vm_compute. reflexivity.
  - vm_compute. reflexivity.
  - reflexivity.
  - left. simpl. auto.
Defined.

(** ** C10: the JSON header *)

Lemma consume_step_get (k : string) (l : list (string * pyval)) :
  in_list k _requests_kwargs = true ->
  NoDup (map fst l) ->
  forall rk pk fk,
    dict_get (fst (fst (fold_left consume_step l (rk, pk, fk)))) k
    = match dict_get l k with Some v => Some v | None => dict_get rk k end.
Proof.
  intros Hk. induction l as [|[k0 v0] l IH]; intros Hnd rk pk fk; [reflexivity|].
  inv Hnd. cbn [fold_left dict_get]. unfold consume_step at 2.
  destruct (String.eqb k k0) eqn:E.
  - apply String.eqb_eq in E. subst k0. rewrite Hk.
    rewrite IH by assumption.
    rewrite dict_get_absent by assumption. apply dict_get_set_same.
  - destruct (in_list k0 _requests_kwargs); [|destruct (in_list k0 _function_kwargs)];
      rewrite IH by assumption; destruct (dict_get l k); auto.
    apply dict_get_set_other. exact E.
Qed.

(** A request keyword other than [params] reaches the request as given. *)
Lemma consume_kwargs_get (kwargs : dict) (k : string) :
  dict_wf kwargs ->
  in_list k _requests_kwargs = true ->
  String.eqb k "params" = false ->
  dict_get (fst (consume_kwargs kwargs)) k = dict_get kwargs k.
Proof.
  intros Hwf Hk Hp. unfold consume_kwargs.
  pose proof (@consume_step_get k kwargs Hk Hwf [] [] []) as H.
  set (F := fold_left consume_step kwargs ([], [], [])).
  change (dict_get (fst (fst F)) k
          = match dict_get kwargs k with Some v => Some v | None => None end) in H.
  destruct F as [[rk pk] fk].
  cbn [fst] in H. cbn beta iota zeta. cbn [fst].
  rewrite dict_get_set_other by assumption.
  rewrite H. destruct (dict_get kwargs k); reflexivity.
Qed.

(** The headers with which a call is prepared. *)
Lemma prepare_headers (self : connector) (args : list pyval) (kwargs : dict)
  (p : prepared) :
  dict_wf kwargs ->
  prepare self args kwargs = Ret p ->
  dict_get (p_kwargs p) "headers"
  = if truthy (dict_get_none kwargs "json") then Some json_headers
    else dict_get kwargs "headers".
Proof.
  intros Hwf. unfold prepare.
  pose proof (@consume_kwargs_get kwargs "json" Hwf eq_refl eq_refl) as Hj.
  pose proof (@consume_kwargs_get kwargs "headers" Hwf eq_refl eq_refl) as Hh.
  destruct (consume_kwargs kwargs) as [rk fk]. cbn [fst] in *.
  destruct (consume_func_kwargs self fk) as [[i r]|e|]; cbn [rbind]; try discriminate.
  intros [= <-]. cbn [p_kwargs].
  set (rk1 := if negb (truthy (dict_get_none fk "file_upload"))
                 && negb (truthy (dict_get_none rk "files"))
              then dict_setdefault rk "timeout"
                     (PTuple [PInt (HTTP_CONNECT_TIMEOUT self);
                              PInt (HTTP_READ_TIMEOUT self)])
              else rk).
  assert (H1 : forall k, String.eqb k "timeout" = false ->
                         dict_get rk1 k = dict_get rk k).
  { intros k Hk. unfold rk1. destruct (_ && _); auto.
    now apply dict_get_setdefault_other. }
  assert (Hjson : dict_get_none rk1 "json" = dict_get_none kwargs "json").
  { unfold dict_get_none. rewrite H1 by reflexivity. now rewrite Hj. }
  rewrite Hjson. destruct (truthy (dict_get_none kwargs "json")).
  - apply dict_get_set_same.
  - rewrite H1 by reflexivity. exact Hh.
Qed.

Section JsonHeader.

Variable T : Type.
Variable send : adapter -> request_call -> T -> result response * T.
Variable fs : filesystem.

(** C10. The request that a call sends, or prints in dry-run mode,
    carries exactly the JSON content type as its headers when the call has
    a truthy [json], whatever headers the caller gave; without a truthy
    [json] it carries the caller's headers, or none if none were given. *)
Theorem C10_json_body_replaces_headers
  (method : string) (self : connector) (args : list pyval) (kwargs : dict)
  (w w' : world T) (out : result retval) (rq : request_call) :
  dict_wf kwargs ->
  wrap_request send fs method self args kwargs w = (out, w') ->
  sent w' = (sent w ++ [rq])%list \/ printed w' = (printed w ++ [rq])%list ->
  dict_get (rq_kwargs rq) "headers"
  = if truthy (dict_get_none kwargs "json")
    then Some (PDict [("Content-Type", PStr "application/json")])
    else dict_get kwargs "headers".
Proof.
  intros Hwf H [Hsent|Hprinted].
  - destruct (@wrap_request_sent T send fs method self args kwargs w w' out rq H Hsent)
      as (p & Hp & _ & _ & _ & _ & Hh & _).
    rewrite Hh. now apply prepare_headers with (self := self) (args := args).
  - unfold wrap_request in H.
    destruct (prepare self args kwargs) as [p|e|] eqn:Hp.
    + apply perform_inv in H.
      destruct H as [(_ & Hpr & _)|[(_ & _ & _ & _ & Hpr)|(_ & k & H & _)]].
      * cbn in Hpr. rewrite Hpr in Hprinted. symmetry in Hprinted.
        now apply app_one_neq in Hprinted.
      * cbn [mount printed] in Hpr. rewrite Hpr in Hprinted.
        apply app_one_inj in Hprinted. subst rq. cbn [rq_kwargs].
        now apply prepare_headers with (self := self) (args := args).
      * apply send_and_check_inv in H. cbn zeta in H.
        assert (Hpr : printed w' = printed w).
        { destruct H as [(_ & -> & _)|(_ & _ & Hpr & _)]; [reflexivity|exact Hpr]. }
        rewrite Hpr in Hprinted. symmetry in Hprinted.
        now apply app_one_neq in Hprinted.
    + inv H. symmetry in Hprinted. now apply app_one_neq in Hprinted.
    + inv H. symmetry in Hprinted. now apply app_one_neq in Hprinted.
Qed.

End JsonHeader.

(** C10 at a PUT with a JSON body and headers of the caller's. *)
Lemma C10_json_body_replaces_headers_witness :
  dict_get
    [("headers", PDict [("Content-Type", PStr "application/json")]);
     ("json", PDict [("name", PStr "n")]);
     ("params", PDict []);
     ("timeout", PTuple [PInt 5; PInt 5])]
    "headers"
  = if truthy (dict_get_none [("headers", PDict [("X-Trace", PStr "1")]);
                              ("json", PDict [("name", PStr "n")])] "json")
    then Some (PDict [("Content-Type", PStr "application/json")])
    else dict_get [("headers", PDict [("X-Trace", PStr "1")]);
                   ("json", PDict [("name", PStr "n")])] "headers".
Proof.
  set (resp := ok_response (PDict [])).
  set (kwargs := [("headers", PDict [("X-Trace", PStr "1")]);
                  ("json", PDict [("name", PStr "n")])]).
  set (run := put (always resp) no_files (Devices false) [PStr "42"] kwargs fresh).
  apply (@C10_json_body_replaces_headers nat (always resp) no_files "PUT"
           (Devices false) [PStr "42"] kwargs fresh (snd run) (fst run)
           {| rq_method := "PUT"; rq_url := "https://a.simplemdm.com/api/v1/devices/42";
              rq_kwargs := [("headers", PDict [("Content-Type", PStr "application/json")]);
                            ("json", PDict [("name", PStr "n")]);
                            ("params", PDict []);
                            ("timeout", PTuple [PInt 5; PInt 5])] |}).
  - unfold dict_wf, kwargs. simpl.
    repeat constructor; simpl; intuition discriminate.
  - exact (surjective_pairing run).
  - left. vm_compute. reflexivity.
Defined.

(** ** C6: errors reported by the service *)

Lemma err_strings_of_dicts (errs : list pyval) :
  forallb is_dict errs = true -> exists titles, err_strings errs = Ret titles.
Proof.
  induction errs as [|err errs IH]; simpl; [eauto|].
  intros [Hd Hall]%andb_prop. destruct err; try discriminate.
  destruct (IH Hall) as [titles ->]. simpl. eauto.
Qed.

(** A body with a list of error objects under [errors] makes
    [api_error_check] raise the API error, whose message carries the
    quoted titles and the status. *)
Lemma api_error_check_raises (r : response) (body : dict) (errs : list pyval) :
  json_body r = Some (PDict body) ->
  dict_get body "errors" = Some (PList errs) ->
  forallb is_dict errs = true ->
  exists titles,
    err_strings errs = Ret titles
    /\ api_error_check r
       = Raise (APIException ("SimpleMDM error/s: " ++ String.concat ", " titles
                                ++ ", HTTP " ++ str_of_Z (status_code r))).
Proof.
  intros Hj He Hd. destruct (err_strings_of_dicts errs Hd) as [titles Ht].
  exists titles. split; [assumption|].
  unfold api_error_check, json. rewrite Hj. cbn [get_attr_get rbind].
  unfold dict_get_none. rewrite He. cbn [iter rbind]. now rewrite Ht.
Qed.

Section ServiceErrors.

Variable T : Type.
Variable send : adapter -> request_call -> T -> result response * T.
Variable fs : filesystem.

(** X9. Off the upload path, a response whose status is not ignored and
    whose body lists errors makes the call raise the API error. *)
Lemma plain_request_raises_api_error
  (method : string) (self : connector) (args : list pyval) (kwargs : dict)
  (w w' : world T) (out : result retval) (rq : request_call) (p : prepared)
  (resp : response) (body : dict) (errs : list pyval) :
  wrap_request send fs method self args kwargs w = (out, w') ->
  sent w' = (sent w ++ [rq])%list ->
  prepare self args kwargs = Ret p ->
  is_upload p = false ->
  fst (send (session_retry self (p_retry p)) rq (net w)) = Ret resp ->
  status_in (status_code resp) (p_ignore p) = false ->
  json_body resp = Some (PDict body) ->
  dict_get body "errors" = Some (PList errs) ->
  forallb is_dict errs = true ->
  exists titles,
    err_strings errs = Ret titles
    /\ out = Raise (APIException ("SimpleMDM error/s: " ++ String.concat ", " titles
                                    ++ ", HTTP " ++ str_of_Z (status_code resp))).
Proof.
  intros H Hsent Hp Hup Hresp Hst Hj He Hd.
  destruct (@wrap_request_sent T send fs method self args kwargs w w' out rq H Hsent)
    as (p' & Hp' & _ & _ & _ & _ & _ & _ & Hout).
  rewrite Hp in Hp'. injection Hp' as <-.
  rewrite Hresp, Hup in Hout. unfold verdict in Hout. rewrite Hst in Hout.
  cbn [negb] in Hout. unfold check_response in Hout.
  destruct (api_error_check_raises resp Hj He Hd) as (titles & Ht & Hraise).
  rewrite Hraise in Hout. eauto.
Qed.

(** X10. On the upload path the body is not looked at: the call returns
    the response or raises the HTTP error of its status. *)
Lemma upload_request_skips_api_errors
  (method : string) (self : connector) (args : list pyval) (kwargs : dict)
  (w w' : world T) (out : result retval) (rq : request_call) (p : prepared)
  (resp : response) :
  wrap_request send fs method self args kwargs w = (out, w') ->
  sent w' = (sent w ++ [rq])%list ->
  prepare self args kwargs = Ret p ->
  is_upload p = true ->
  fst (send (session_retry self (p_retry p)) rq (net w)) = Ret resp ->
  out = Ret (RResponse resp) \/ out = Raise (HTTPError (status_code resp)).
Proof.
  intros H Hsent Hp Hup Hresp.
  destruct (@wrap_request_sent T send fs method self args kwargs w w' out rq H Hsent)
    as (p' & Hp' & _ & _ & _ & _ & _ & _ & Hout).
  rewrite Hp in Hp'. injection Hp' as <-.
  rewrite Hresp, Hup in Hout. unfold verdict, check_response, raise_for_status in Hout.
  destruct (negb _); auto.
  destruct ((400 <=? status_code resp) && (status_code resp <? 600)); auto.
Qed.

End ServiceErrors.

(** C6. A service that answers 422 with the body
    [{"errors": [{"title": "bad"}]}]: a plain call raises the API error
    with the title and the status, but [Scripts.create], which uploads a
    file, raises the HTTP error of the status instead, and with a status
    that is no HTTP error it returns the response, errors unread. *)
Theorem C6_upload_path_skips_the_error_list :
  let errors := PDict [("errors", PList [PDict [("title", PStr "bad")]])] in
  let upload := [("file", PStr "/tmp/s.sh"); ("name", PStr "n")] in
  fst (devices_create (always {| status_code := 422; json_body := Some errors |})
         no_files (Devices false) [] [("name", PStr "n")] fresh)
    = Raise (APIException "SimpleMDM error/s: 'bad', HTTP 422")
  /\ fst (scripts_create (always {| status_code := 422; json_body := Some errors |})
            (one_file "/tmp/s.sh" "#!/bin/sh") (Scripts false) [] upload fresh)
       = Raise (HTTPError 422)
  /\ fst (scripts_create (always {| status_code := 203; json_body := Some errors |})
            (one_file "/tmp/s.sh" "#!/bin/sh") (Scripts false) [] upload fresh)
       = Ret (RResponse {| status_code := 203; json_body := Some errors |})
  /\ length (sent (snd (scripts_create
                          (always {| status_code := 422; json_body := Some errors |})
                          (one_file "/tmp/s.sh" "#!/bin/sh") (Scripts false) []
                          upload fresh))) = 1%nat.
Proof. cbv zeta. repeat split; vm_compute; reflexivity. Qed.

(** ** C1: pagination *)

Lemma last_item_of_dicts (objs : list pyval) :
  objs <> [] -> forallb is_dict objs = true ->
  exists d, last_item (PList objs) = Ret (PDict d).
Proof.
  intros Hne Hall. unfold last_item.
  destruct (rev objs) as [|x r] eqn:E.
  - apply (f_equal (@rev pyval)) in E. rewrite rev_involutive in E. now subst.
  - assert (Hin : In x objs) by (apply in_rev; rewrite E; now left).
    rewrite forallb_forall in Hall. specialize (Hall x Hin).
    destruct x; try discriminate. eauto.
Qed.

Lemma last_item_answers (v : pyval) : last_item v <> OutOfFuel.
Proof.
  destruct v; simpl; try discriminate;
    match goal with |- context [rev ?l] => destruct (rev l) end; discriminate.
Qed.

Lemma get_attr_get_answers (v : pyval) (k : string) : get_attr_get v k <> OutOfFuel.
Proof. destruct v; discriminate. Qed.

Lemma iter_answers (v : pyval) : iter v <> OutOfFuel.
Proof. destruct v; discriminate. Qed.

Section Pagination.

Variable T : Type.
Variable send : adapter -> request_call -> T -> result response * T.
Variable fs : filesystem.

(** A turn of the loop on a last page is the last turn: nothing is
    fetched after it. *)
Lemma last_page_ends_the_loop (fuel : nat) (self : connector) (args : list pyval)
  (kwargs : dict) (w w' : world T) (resp : response) (body : dict) :
  get send fs self args kwargs w = (Ret (RResponse resp), w') ->
  json_body resp = Some (PDict body) ->
  last_page body = true ->
  exists records r,
    paginate_loop send fs (S fuel) self args kwargs w = (records, r, w')
    /\ (r = Ret tt \/ exists e, r = Raise e).
Proof.
  intros Hget Hj Hlast. cbn [paginate_loop]. rewrite Hget.
  cbn [json_of]. unfold json. rewrite Hj. cbn [rbind].
  unfold read_page, get_attr_get_default. cbn [rbind].
  unfold last_page in Hlast.
  destruct (truthy (match dict_get body "data" with Some x => x | None => PList [] end))
    eqn:Hdata.
  - cbn [negb orb] in Hlast. apply negb_true_iff in Hlast.
    destruct (last_item _) as [last|e|] eqn:E1; cbn [rbind]; eauto 6;
      [|now apply last_item_answers in E1].
    destruct (get_attr_get last "id") as [id|e|] eqn:E2; cbn [rbind]; eauto 6;
      [|now apply get_attr_get_answers in E2].
    destruct (iter _) as [records|e|] eqn:E3; cbn [rbind]; eauto 6;
      [|now apply iter_answers in E3].
    rewrite Hlast. eauto 6.
  - eauto 6.
Qed.

(** On a last page whose records are a list of objects the loop ends
    normally, having yielded these records. *)
Lemma last_page_yields_its_records (fuel : nat) (self : connector) (args : list pyval)
  (kwargs : dict) (w w' : world T) (resp : response) (body : dict)
  (objs : list pyval) :
  get send fs self args kwargs w = (Ret (RResponse resp), w') ->
  json_body resp = Some (PDict body) ->
  last_page body = true ->
  dict_get body "data" = Some (PList objs) ->
  forallb is_dict objs = true ->
  paginate_loop send fs (S fuel) self args kwargs w = (objs, Ret tt, w').
Proof.
  intros Hget Hj Hlast Hdata Hall. cbn [paginate_loop]. rewrite Hget.
  cbn [json_of]. unfold json. rewrite Hj. cbn [rbind].
  unfold read_page, get_attr_get_default. cbn [rbind].
  unfold last_page in Hlast. rewrite Hdata in *.
  destruct objs as [|o objs]; [reflexivity|].
  cbn [truthy negb orb] in Hlast. apply negb_true_iff in Hlast.
  cbn [truthy].
  destruct (@last_item_of_dicts (o :: objs)) as [d ->]; [discriminate|assumption|].
  cbn [rbind get_attr_get iter]. now rewrite Hlast.
Qed.

End Pagination.

(** C1. Against the service that answers with the page of records 1 and 2
    and more to come, then with the page of record 3 and no more, the
    paginator run to its end yields the records 1, 2, 3 in this order and
    ends normally after two fetches, the second of which carries the
    cursor 2; [Devices.list_all] is that generator. In general, a fetch
    whose page has no records or a falsy [has_more] is the last one: the
    loop ends with the world that fetch left, and when the records are a
    list of objects it ends normally, having yielded them. *)
Theorem C1_paginator_yields_records_and_stops :
  (forall fs fuel,
      let '(records, r, w) :=
        paginate_run two_pages fs (S (S fuel)) (Devices false) [] [] fresh in
      records = [record 1; record 2; record 3]
      /\ r = Ret tt
      /\ net w = 2%nat
      /\ length (sent w) = 2%nat
      /\ map cursor_of (sent w) = [Some (PInt 0); Some (PInt 2)]
      /\ fst (devices_list_all two_pages fs (S (S fuel)) (Devices false) [] [] fresh)
         = Ret (RGenerator records))
  /\ (forall T (send : adapter -> request_call -> T -> result response * T) fs
             fuel self args kwargs (w w' : world T) resp body,
        get send fs self args kwargs w = (Ret (RResponse resp), w') ->
        json_body resp = Some (PDict body) ->
        last_page body = true ->
        exists records r,
          paginate_loop send fs (S fuel) self args kwargs w = (records, r, w')
          /\ (r = Ret tt \/ exists e, r = Raise e)
          /\ (forall objs,
                dict_get body "data" = Some (PList objs) ->
                forallb is_dict objs = true ->
                records = objs /\ r = Ret tt)).
Proof.
  split.
  - intros fs fuel. vm_compute. repeat split; reflexivity.
  - intros T send fs fuel self args kwargs w w' resp body Hget Hj Hlast.
    destruct (@last_page_ends_the_loop T send fs fuel self args kwargs w w' resp body
                Hget Hj Hlast) as (records & r & Hloop & Hr).
    exists records, r. split; [assumption|]. split; [assumption|].
    intros objs Hdata Hall.
    pose proof (@last_page_yields_its_records T send fs fuel self args kwargs w w'
                  resp body objs Hget Hj Hlast Hdata Hall) as Hloop'.
    rewrite Hloop in Hloop'. now inversion Hloop'.
Qed.

(** C1 at a service whose first page is already the last. *)
Lemma C1_paginator_yields_records_and_stops_witness :
  exists records r,
    paginate_loop (always (ok_response page2)) no_files 1 (Devices false) []
      [("starting_after", PInt 2)] fresh
    = (records, r,
       snd (get (always (ok_response page2)) no_files (Devices false) []
              [("starting_after", PInt 2)] fresh))
    /\ (r = Ret tt \/ exists e, r = Raise e)
    /\ (forall objs,
          dict_get [("data", PList [record 3]); ("has_more", PBool false)] "data"
            = Some (PList objs) ->
          forallb is_dict objs = true ->
          records = objs /\ r = Ret tt).
Proof.
  apply (proj2 C1_paginator_yields_records_and_stops nat (always (ok_response page2))
           no_files 0%nat (Devices false) [] [("starting_after", PInt 2)] fresh
           (snd (get (always (ok_response page2)) no_files (Devices false) []
                   [("starting_after", PInt 2)] fresh))
           (ok_response page2)
           [("data", PList [record 3]); ("has_more", PBool false)]).
  - vm_compute. reflexivity.
  - reflexivity.
  - reflexivity.
Defined.

(** ** C7: required parameters that are declared and not enforced *)

(** C7. [method_params] finds the entry of a method under the method's own
    name, and two tables file an entry under another name: that of
    [Devices] has [set_device_attributes] for the method
    [set_device_attribute], that of [PushCertificate] has [update] for the
    method [push_certificate_update]. Both entries declare required
    parameters, which the methods never see: called without any of them,
    each raises nothing and sends its request, where the check of the
    declared set would have raised. *)
Theorem C7_declared_required_parameters_not_enforced :
  let service := always (ok_response (PDict [])) in
  let plain := [("params", PDict []); ("timeout", PTuple [PInt 5; PInt 5])] in
  (req_params (lookup_conf (_method_kwargs (Devices false)) "set_device_attributes")
     = Some ["attr_name"; "value"]
   /\ lookup_conf (_method_kwargs (Devices false)) "set_device_attribute" = empty_conf
   /\ fst (devices_set_device_attribute service no_files (Devices false)
             [PStr "42"] [] fresh)
      = Ret (RResponse (ok_response (PDict [])))
   /\ sent (snd (devices_set_device_attribute service no_files (Devices false)
                   [PStr "42"] [] fresh))
      = [{| rq_method := "GET";
            rq_url := "https://a.simplemdm.com/api/v1/devices/42/custom_attribute_values";
            rq_kwargs := plain |}]
   /\ validate_required [] ["attr_name"; "value"] "set_device_attribute"
      = Raise (TypeError "set_device_attribute() missing required keyword-only parameter: 'attr_name'"))
  /\ (req_params (lookup_conf (_method_kwargs (PushCertificate false)) "update")
        = Some ["file"]
      /\ lookup_conf (_method_kwargs (PushCertificate false)) "push_certificate_update"
         = empty_conf
      /\ fst (push_certificate_update service no_files (PushCertificate false)
                [] [] fresh)
         = Ret (RResponse (ok_response (PDict [])))
      /\ sent (snd (push_certificate_update service no_files (PushCertificate false)
                      [] [] fresh))
         = [{| rq_method := "POST";
               rq_url := "https://a.simplemdm.com/api/v1/push_certificate";
               rq_kwargs := plain |}]
      /\ validate_required [] ["file"] "push_certificate_update"
         = Raise (TypeError "push_certificate_update() missing required keyword-only parameter: 'file'")).
Proof. cbv zeta. repeat split; vm_compute; reflexivity. Qed.

(** ** A note on the status lists *)

(** With overrides that are absent or are lists, [consume_func_kwargs]
    returns: the lists of C9 exist for every such call. *)
Lemma consume_func_kwargs_returns (self : connector) (extra_i extra_r : list pyval) :
  consume_func_kwargs self
    [("ignore_statuses", PList extra_i); ("retry_statuses", PList extra_r)]
  = Ret ((extra_i ++ map PInt HTTP_IGNORE_STATUS_ERR)%list,
         (extra_r ++ map PInt HTTP_RETRY_STATUS_LIST)%list)
  /\ consume_func_kwargs self []
     = Ret (map PInt HTTP_IGNORE_STATUS_ERR, map PInt HTTP_RETRY_STATUS_LIST).
Proof. split; reflexivity. Qed.

(** * Further properties of the code *)

(** ** Dictionaries, continued *)

Lemma dict_mem_set (d : dict) (k k' : string) (v : pyval) :
  dict_mem (dict_set d k v) k' = String.eqb k' k || dict_mem d k'.
Proof.
  unfold dict_mem. destruct (String.eqb k' k) eqn:E.
  - apply String.eqb_eq in E. subst. now rewrite dict_get_set_same.
  - now rewrite dict_get_set_other.
Qed.

Lemma dict_get_del_other (d : dict) (k k' : string) :
  String.eqb k' k = false -> dict_get (dict_del d k) k' = dict_get d k'.
Proof.
  intros Hne. induction d as [|[k0 v0] d IH]; simpl; auto.
  destruct (String.eqb k k0) eqn:E; simpl.
  - apply String.eqb_eq in E. subst. now rewrite Hne.
  - now rewrite IH.
Qed.

Lemma dict_get_del_same (d : dict) (k : string) :
  dict_wf d -> dict_get (dict_del d k) k = None.
Proof.
  unfold dict_wf. induction d as [|[k0 v0] d IH]; simpl; auto.
  intros Hnd. inv Hnd. destruct (String.eqb k k0) eqn:E; simpl.
  - apply String.eqb_eq in E. subst. now apply dict_get_absent.
  - rewrite E. auto.
Qed.

Lemma dict_set_keys (d : dict) (k : string) (v : pyval) :
  forall k', In k' (map fst (dict_set d k v)) <-> k' = k \/ In k' (map fst d).
Proof.
  intros k'. induction d as [|[k0 v0] d IH]; simpl; [intuition congruence|].
  destruct (String.eqb k k0) eqn:E; simpl.
  - apply String.eqb_eq in E. subst. intuition congruence.
  - rewrite IH. intuition congruence.
Qed.

Lemma dict_set_wf (d : dict) (k : string) (v : pyval) :
  dict_wf d -> dict_wf (dict_set d k v).
Proof.
  unfold dict_wf. induction d as [|[k0 v0] d IH]; simpl; intros Hnd.
  - repeat constructor. simpl. tauto.
  - inv Hnd. destruct (String.eqb k k0) eqn:E; simpl.
    + apply String.eqb_eq in E. subst. now constructor.
    + constructor; auto. rewrite dict_set_keys. intros [->|Hin]; auto.
      now rewrite String.eqb_refl in E.
Qed.

(** ** utils.py: [consume_kwargs] *)

Lemma pick_step (n : nat) (acc : dict * dict * dict) (k : string) (v : pyval) :
  (n <= 2)%nat ->
  pick n (consume_step acc (k, v))
  = if Nat.eqb (bucket_of k) n then dict_set (pick n acc) k v else pick n acc.
Proof.
  intros Hn. destruct acc as [[rk pk] fk]. unfold consume_step, bucket_of.
  destruct (in_list k _requests_kwargs); [|destruct (in_list k _function_kwargs)];
    destruct n as [|[|[|n]]]; try lia; reflexivity.
Qed.

Lemma dict_mem_cons (k0 : string) (v0 : pyval) (l : dict) (k : string) :
  dict_mem ((k0, v0) :: l) k = String.eqb k k0 || dict_mem l k.
Proof. unfold dict_mem. simpl. destruct (String.eqb k k0); reflexivity. Qed.

Lemma fold_pick_mem (n : nat) (k : string) (l : dict) :
  (n <= 2)%nat ->
  forall acc,
    dict_mem (pick n (fold_left consume_step l acc)) k
    = dict_mem (pick n acc) k || (Nat.eqb (bucket_of k) n && dict_mem l k).
Proof.
  intros Hn. induction l as [|[k0 v0] l IH]; intros acc.
  - cbn [fold_left]. unfold dict_mem at 3. simpl. now rewrite andb_false_r, orb_false_r.
  - cbn [fold_left]. rewrite IH, pick_step by assumption. rewrite dict_mem_cons.
    destruct (Nat.eqb (bucket_of k0) n) eqn:E0.
    + rewrite dict_mem_set. destruct (String.eqb k k0) eqn:E.
      * apply String.eqb_eq in E. subst k0. rewrite E0. simpl.
        now rewrite orb_true_r.
      * simpl. reflexivity.
    + destruct (String.eqb k k0) eqn:E.
      * apply String.eqb_eq in E. subst k0. rewrite E0. simpl. reflexivity.
      * simpl. reflexivity.
Qed.

Lemma fold_pick_get (n : nat) (k : string) (l : dict) :
  (n <= 2)%nat -> NoDup (map fst l) ->
  forall acc,
    dict_get (pick n (fold_left consume_step l acc)) k
    = if Nat.eqb (bucket_of k) n
      then match dict_get l k with Some v => Some v | None => dict_get (pick n acc) k end
      else dict_get (pick n acc) k.
Proof.
  intros Hn. induction l as [|[k0 v0] l IH]; intros Hnd acc.
  - cbn [fold_left dict_get]. now destruct (Nat.eqb _ _).
  - inv Hnd. cbn [fold_left]. rewrite IH, pick_step by assumption. cbn [dict_get].
    destruct (String.eqb k k0) eqn:E.
    + apply String.eqb_eq in E. subst k0.
      rewrite (dict_get_absent l k) by assumption.
      destruct (Nat.eqb (bucket_of k) n); auto. apply dict_get_set_same.
    + destruct (Nat.eqb (bucket_of k0) n); [rewrite dict_get_set_other by assumption|];
        reflexivity.
Qed.

(** X1. [consume_kwargs] sorts the keywords of a call without losing or
    inventing any: a keyword is in the request dict exactly when it is a
    request keyword of the call, or [params]; in the function dict exactly
    when it is one of the three function keywords of the call; and the
    request dict always holds, under [params], a dict with exactly the
    other keywords of the call. *)
Theorem consume_kwargs_sorts_every_keyword (kwargs : dict) (k : string) :
  dict_mem (fst (consume_kwargs kwargs)) k
    = String.eqb k "params" || (in_list k _requests_kwargs && dict_mem kwargs k)
  /\ dict_mem (snd (consume_kwargs kwargs)) k
     = negb (in_list k _requests_kwargs) && in_list k _function_kwargs
       && dict_mem kwargs k
  /\ exists params,
       dict_get (fst (consume_kwargs kwargs)) "params" = Some (PDict params)
       /\ dict_mem params k
          = negb (in_list k _requests_kwargs) && negb (in_list k _function_kwargs)
            && dict_mem kwargs k.
Proof.
  unfold consume_kwargs.
  pose proof (@fold_pick_mem 0 k kwargs (Nat.le_0_l 2) ([], [], [])) as H0.
  pose proof (@fold_pick_mem 1 k kwargs (le_S _ _ (le_n 1)) ([], [], [])) as H1.
  pose proof (@fold_pick_mem 2 k kwargs (le_n 2) ([], [], [])) as H2.
  set (F := fold_left consume_step kwargs ([], [], [])) in *.
  change (pick 0 ([], [], [])) with (@nil (string * pyval)) in H0.
  change (pick 1 ([], [], [])) with (@nil (string * pyval)) in H1.
  change (pick 2 ([], [], [])) with (@nil (string * pyval)) in H2.
  destruct F as [[rk pk] fk]. cbn [pick fst snd] in *. cbn beta iota.
  cbn [fst snd]. unfold bucket_of in *.
  change (dict_mem [] k) with false in *.
  rewrite dict_mem_set, H0, H1.
  split; [|split; [|exists pk; split; [apply dict_get_set_same|rewrite H2]]];
    destruct (in_list k _requests_kwargs); destruct (in_list k _function_kwargs);
    reflexivity.
Qed.

(** X2. Each keyword of a call reaches its dict with the value the caller
    gave: the request keywords the request dict, the function keywords the
    function dict, the others the dict under [params]. What the caller
    gives as [params] is replaced by that dict. *)
Theorem consume_kwargs_keeps_the_values (kwargs : dict) :
  dict_wf kwargs ->
  forall k,
    dict_get (snd (consume_kwargs kwargs)) k
      = (if negb (in_list k _requests_kwargs) && in_list k _function_kwargs
         then dict_get kwargs k else None)
    /\ exists params,
         dict_get (fst (consume_kwargs kwargs)) "params" = Some (PDict params)
         /\ dict_get params k
            = (if negb (in_list k _requests_kwargs)
                  && negb (in_list k _function_kwargs)
               then dict_get kwargs k else None)
         /\ dict_get (fst (consume_kwargs kwargs)) k
            = (if String.eqb k "params" then Some (PDict params)
               else if in_list k _requests_kwargs then dict_get kwargs k else None).
Proof.
  intros Hwf k. unfold consume_kwargs.
  pose proof (@fold_pick_get 0 k kwargs (Nat.le_0_l 2) Hwf ([], [], [])) as H0.
  pose proof (@fold_pick_get 1 k kwargs (le_S _ _ (le_n 1)) Hwf ([], [], [])) as H1.
  pose proof (@fold_pick_get 2 k kwargs (le_n 2) Hwf ([], [], [])) as H2.
  set (F := fold_left consume_step kwargs ([], [], [])) in *.
  change (pick 0 ([], [], [])) with (@nil (string * pyval)) in H0.
  change (pick 1 ([], [], [])) with (@nil (string * pyval)) in H1.
  change (pick 2 ([], [], [])) with (@nil (string * pyval)) in H2.
  destruct F as [[rk pk] fk]. cbn [pick fst snd] in *. cbn beta iota.
  cbn [fst snd dict_get] in *. unfold bucket_of in *.
  split; [|exists pk; split; [apply dict_get_set_same|split]].
  - rewrite H1.
    destruct (in_list k _requests_kwargs); destruct (in_list k _function_kwargs);
      cbn; destruct (dict_get kwargs k); reflexivity.
  - rewrite H2.
    destruct (in_list k _requests_kwargs); destruct (in_list k _function_kwargs);
      cbn; destruct (dict_get kwargs k); reflexivity.
  - destruct (String.eqb k "params") eqn:E.
    + apply String.eqb_eq in E. subst. apply dict_get_set_same.
    + rewrite dict_get_set_other by assumption. rewrite H0.
      destruct (in_list k _requests_kwargs); destruct (in_list k _function_kwargs);
        cbn; destruct (dict_get kwargs k); reflexivity.
Qed.

(** X2 at a call with a request keyword, a function keyword, a query
    parameter and [params] of the caller's. *)
Lemma consume_kwargs_keeps_the_values_witness :
  dict_get (snd (consume_kwargs
                   [("limit", PInt 5); ("json", PBool true);
                    ("file_upload", PStr "file"); ("params", PInt 1)])) "limit"
    = (if negb (in_list "limit" _requests_kwargs) && in_list "limit" _function_kwargs
       then dict_get [("limit", PInt 5); ("json", PBool true);
                      ("file_upload", PStr "file"); ("params", PInt 1)] "limit"
       else None)
  /\ exists params,
       dict_get (fst (consume_kwargs
                        [("limit", PInt 5); ("json", PBool true);
                         ("file_upload", PStr "file"); ("params", PInt 1)])) "params"
         = Some (PDict params)
       /\ dict_get params "limit"
          = (if negb (in_list "limit" _requests_kwargs)
                && negb (in_list "limit" _function_kwargs)
             then dict_get [("limit", PInt 5); ("json", PBool true);
                            ("file_upload", PStr "file"); ("params", PInt 1)] "limit"
             else None)
       /\ dict_get (fst (consume_kwargs
                           [("limit", PInt 5); ("json", PBool true);
                            ("file_upload", PStr "file"); ("params", PInt 1)])) "limit"
          = (if String.eqb "limit" "params" then Some (PDict params)
             else if in_list "limit" _requests_kwargs
                  then dict_get [("limit", PInt 5); ("json", PBool true);
                                 ("file_upload", PStr "file"); ("params", PInt 1)] "limit"
                  else None).
Proof.
  apply (@consume_kwargs_keeps_the_values
           [("limit", PInt 5); ("json", PBool true);
            ("file_upload", PStr "file"); ("params", PInt 1)]).
  unfold dict_wf. simpl. repeat constructor; simpl; intuition discriminate.
Defined.

(** ** decorators.py: one call of a request method *)

Lemma consume_kwargs_get_func (kwargs : dict) (k : string) :
  dict_wf kwargs ->
  in_list k _requests_kwargs = false ->
  in_list k _function_kwargs = true ->
  dict_get (snd (consume_kwargs kwargs)) k = dict_get kwargs k.
Proof.
  intros Hwf Hr Hf. unfold consume_kwargs.
  pose proof (@fold_pick_get 1 k kwargs (le_S _ _ (le_n 1)) Hwf ([], [], [])) as H1.
  set (F := fold_left consume_step kwargs ([], [], [])) in *.
  change (pick 1 ([], [], [])) with (@nil (string * pyval)) in H1.
  destruct F as [[rk pk] fk]. cbn [pick fst snd] in *. cbn beta iota. cbn [snd].
  unfold bucket_of in H1. rewrite Hr, Hf in H1. cbn in H1.
  rewrite H1. destruct (dict_get kwargs k); reflexivity.
Qed.

Lemma with_defaults_answers (kwargs : dict) (key : string) (defaults : list Z) :
  with_defaults kwargs key defaults <> OutOfFuel.
Proof.
  unfold with_defaults. destruct (iter _) eqn:E; simpl; try discriminate.
  now apply iter_answers in E.
Qed.

Lemma prepare_answers (self : connector) (args : list pyval) (kwargs : dict) :
  prepare self args kwargs <> OutOfFuel.
Proof.
  unfold prepare, consume_func_kwargs. destruct (consume_kwargs kwargs) as [rk fk].
  destruct (with_defaults fk "ignore_statuses" _) eqn:Ei; simpl; try discriminate;
    [|now apply with_defaults_answers in Ei].
  destruct (with_defaults fk "retry_statuses" _) eqn:Er; simpl; try discriminate.
  now apply with_defaults_answers in Er.
Qed.

Lemma prepare_url (self : connector) (args : list pyval) (kwargs : dict) (p : prepared) :
  prepare self args kwargs = Ret p -> p_url p = generate_url self args.
Proof.
  unfold prepare. destruct (consume_kwargs kwargs) as [rk fk].
  destruct (consume_func_kwargs self fk) as [[i r]|e|]; simpl; try discriminate.
  now intros [= <-].
Qed.

Section OneCall.

Variable T : Type.
Variable send : adapter -> request_call -> T -> result response * T.
Variable fs : filesystem.

(** X3. A call of a request method sends no request or one; the one it
    sends goes out with the verb of the method to the URL built from the
    API version, the endpoint and the positional arguments, and only when
    the client is not in dry-run mode. *)
Theorem wrap_request_sends_at_most_once
  (method : string) (self : connector) (args : list pyval) (kwargs : dict)
  (w : world T) :
  let w' := snd (wrap_request send fs method self args kwargs w) in
  sent w' = sent w
  \/ exists rq,
       sent w' = (sent w ++ [rq])%list
       /\ rq_method rq = method
       /\ rq_url rq = generate_url self args
       /\ dry_run self = false.
Proof.
  cbv zeta. destruct (wrap_request send fs method self args kwargs w) as [out w'] eqn:H.
  cbn [snd]. unfold wrap_request in H.
  destruct (prepare self args kwargs) as [p|e|] eqn:Hp.
  - apply perform_inv in H.
    destruct H as [(Hs & _)|[(_ & _ & Hs & _)|(Hdry & k & H & _)]]; auto.
    apply send_and_check_inv in H. cbn zeta in H.
    destruct H as [(_ & -> & _)|(_ & Hs & _)]; [left; reflexivity|].
    right. eexists. split; [exact Hs|]. cbn. split; [reflexivity|].
    split; [now apply prepare_url with (kwargs := kwargs)|assumption].
  - inv H. auto.
  - inv H. auto.
Qed.

(** X4. In dry-run mode a call of a request method leaves the service and
    the record of sent requests as they were. It returns [None] after
    printing the one request it would have sent, with its verb and URL,
    unless the status overrides of the caller make it raise, in which
    case it prints nothing. *)
Theorem wrap_request_dry_run_sends_nothing
  (method : string) (self : connector) (args : list pyval) (kwargs : dict)
  (w : world T) :
  dry_run self = true ->
  let run := wrap_request send fs method self args kwargs w in
  sent (snd run) = sent w
  /\ net (snd run) = net w
  /\ ((exists e, fst run = Raise e /\ printed (snd run) = printed w)
      \/ (fst run = Ret RNone
          /\ exists rq,
               printed (snd run) = (printed w ++ [rq])%list
               /\ rq_method rq = method
               /\ rq_url rq = generate_url self args)).
Proof.
  intros Hdry. cbv zeta. unfold wrap_request.
  destruct (prepare self args kwargs) as [p|e|] eqn:Hp.
  - unfold perform. rewrite Hdry. cbn. repeat split.
    right. split; [reflexivity|]. eexists. split; [reflexivity|]. cbn.
    split; [reflexivity|]. now apply prepare_url with (kwargs := kwargs).
  - cbn. repeat split. left. eauto.
  - now apply prepare_answers in Hp.
Qed.

End OneCall.

(** X4 at a dry-run GET of the devices. *)
Lemma wrap_request_dry_run_sends_nothing_witness :
  let run := wrap_request (always (ok_response (PDict []))) no_files "GET" (Devices true)
               [PStr "42"] [("limit", PInt 5)] fresh in
  sent (snd run) = sent fresh
  /\ net (snd run) = net fresh
  /\ ((exists e, fst run = Raise e /\ printed (snd run) = printed fresh)
      \/ (fst run = Ret RNone
          /\ exists rq,
               printed (snd run) = (printed fresh ++ [rq])%list
               /\ rq_method rq = "GET"
               /\ rq_url rq = generate_url (Devices true) [PStr "42"])).
Proof.
  apply (@wrap_request_dry_run_sends_nothing nat (always (ok_response (PDict [])))
           no_files "GET" (Devices true) [PStr "42"] [("limit", PInt 5)] fresh).
  reflexivity.
Defined.

(** ** decorators.py: the default timeout *)

Lemma dict_get_setdefault_same (d : dict) (k : string) (v : pyval) :
  dict_get (dict_setdefault d k v) k
  = Some (match dict_get d k with Some x => x | None => v end).
Proof.
  unfold dict_setdefault, dict_mem. destruct (dict_get d k) eqn:E.
  - exact E.
  - apply dict_get_set_same.
Qed.

(** X5. A call gets the connect and read timeouts of the client unless it
    brings a timeout of its own; but a call that uploads (a truthy
    [file_upload] or [files]) gets none: its timeout is the caller's, if
    there is one. *)
Theorem prepare_sets_the_timeout_unless_uploading
  (self : connector) (args : list pyval) (kwargs : dict) (p : prepared) :
  dict_wf kwargs ->
  prepare self args kwargs = Ret p ->
  dict_get (p_kwargs p) "timeout"
  = if truthy (dict_get_none kwargs "file_upload")
       || truthy (dict_get_none kwargs "files")
    then dict_get kwargs "timeout"
    else Some (match dict_get kwargs "timeout" with
               | Some t => t
               | None => PTuple [PInt (HTTP_CONNECT_TIMEOUT self);
                                 PInt (HTTP_READ_TIMEOUT self)]
               end).
Proof.
  intros Hwf. unfold prepare.
  pose proof (@consume_kwargs_get kwargs "files" Hwf eq_refl eq_refl) as Hfiles.
  pose proof (@consume_kwargs_get kwargs "timeout" Hwf eq_refl eq_refl) as Htime.
  pose proof (@consume_kwargs_get_func kwargs "file_upload" Hwf eq_refl eq_refl) as Hup.
  destruct (consume_kwargs kwargs) as [rk fk]. cbn [fst snd] in *.
  destruct (consume_func_kwargs self fk) as [[i r]|e|]; cbn [rbind]; try discriminate.
  intros [= <-]. cbn [p_kwargs].
  assert (Hup' : dict_get_none fk "file_upload" = dict_get_none kwargs "file_upload")
    by (unfold dict_get_none; now rewrite Hup).
  assert (Hfiles' : dict_get_none rk "files" = dict_get_none kwargs "files")
    by (unfold dict_get_none; now rewrite Hfiles).
  rewrite Hup', Hfiles'.
  set (up := truthy (dict_get_none kwargs "file_upload")).
  set (fl := truthy (dict_get_none kwargs "files")).
  match goal with
  | |- dict_get (if ?c then dict_set ?d _ _ else ?d) _ = _ =>
      assert (Hh : dict_get (if c then dict_set d "headers" json_headers else d) "timeout"
                   = dict_get d "timeout")
        by (destruct c; [now apply dict_get_set_other|reflexivity])
  end.
  unfold json_headers in Hh. rewrite Hh. clear Hh.
  destruct up, fl; cbn [negb andb orb]; try exact Htime.
  rewrite dict_get_setdefault_same, Htime. reflexivity.
Qed.

(** X5 at a plain call and its default timeout. *)
Lemma prepare_sets_the_timeout_unless_uploading_witness :
  dict_get [("params", PDict [("name", PStr "n")]);
            ("timeout", PTuple [PInt 5; PInt 5])] "timeout"
  = if truthy (dict_get_none [("name", PStr "n")] "file_upload")
       || truthy (dict_get_none [("name", PStr "n")] "files")
    then dict_get [("name", PStr "n")] "timeout"
    else Some (match dict_get [("name", PStr "n")] "timeout" with
               | Some t => t
               | None => PTuple [PInt (HTTP_CONNECT_TIMEOUT (Devices false));
                                 PInt (HTTP_READ_TIMEOUT (Devices false))]
               end).
Proof.
  apply (@prepare_sets_the_timeout_unless_uploading (Devices false) []
           [("name", PStr "n")]
           {| p_ignore := map PInt HTTP_IGNORE_STATUS_ERR;
              p_retry := map PInt HTTP_RETRY_STATUS_LIST;
              p_fieldname := PNone;
              p_url := "https://a.simplemdm.com/api/v1/devices";
              p_kwargs := [("params", PDict [("name", PStr "n")]);
                           ("timeout", PTuple [PInt 5; PInt 5])] |}).
  - unfold dict_wf. simpl. repeat constructor; simpl; intuition discriminate.
  - vm_compute. reflexivity.
Defined.

(** ** utils.py: [api_error_check] *)

Lemma err_strings_answers (errs : list pyval) : err_strings errs <> OutOfFuel.
Proof.
  induction errs as [|err errs IH]; simpl; [discriminate|].
  destruct err; simpl; try discriminate.
  destruct (err_strings errs); simpl; try discriminate. contradiction.
Qed.

Lemma err_strings_quoted (errs : list pyval) :
  forallb is_dict errs = true -> err_strings errs = Ret (quoted_titles errs).
Proof.
  unfold quoted_titles. induction errs as [|err errs IH]; simpl; [reflexivity|].
  intros [Hd Hall]%andb_prop. destruct err; try discriminate.
  rewrite (IH Hall). simpl. destruct (truthy (dict_get_none d "title")); reflexivity.
Qed.

(** X6. [api_error_check] returns normally in two cases only: the body is
    not JSON, or it is a JSON object without [errors] (or with a null
    one). Any other [errors], an empty list included, makes it raise. *)
Theorem api_error_check_passes_iff (r : response) :
  api_error_check r = Ret tt
  <-> (json_body r = None
       \/ exists body, json_body r = Some (PDict body)
                       /\ dict_get_none body "errors" = PNone).
Proof.
  unfold api_error_check, json. split.
  - destruct (json_body r) as [v|]; [|auto].
    destruct v; cbn [get_attr_get rbind]; try discriminate.
    intros H. right. exists d. split; [reflexivity|].
    destruct (dict_get_none d "errors") eqn:E; auto; exfalso;
      destruct (iter _) as [errs|e|]; cbn [rbind] in H; try discriminate;
      destruct (err_strings errs); cbn [rbind] in H; discriminate.
  - intros [->|(body & -> & He)]; [reflexivity|].
    cbn [get_attr_get rbind]. now rewrite He.
Qed.

(** X7. When the body has a list of error objects under [errors], the API
    error is raised with a message that lists, in order and in quotes, the
    truthy titles of the objects, then the status; objects without a title
    are passed over, and an empty list gives an empty list of titles. *)
Theorem api_error_message_lists_the_titles
  (r : response) (body : dict) (errs : list pyval) :
  json_body r = Some (PDict body) ->
  dict_get body "errors" = Some (PList errs) ->
  forallb is_dict errs = true ->
  api_error_check r
  = Raise (APIException ("SimpleMDM error/s: " ++ String.concat ", " (quoted_titles errs)
                           ++ ", HTTP " ++ str_of_Z (status_code r))).
Proof.
  intros Hj He Hd. unfold api_error_check, json. rewrite Hj.
  cbn [get_attr_get rbind]. unfold dict_get_none. rewrite He. cbn [iter rbind].
  now rewrite (err_strings_quoted errs Hd).
Qed.

(** X7 at a body with two titled errors around one without a title. *)
Lemma api_error_message_lists_the_titles_witness :
  api_error_check
    {| status_code := 422;
       json_body := Some (PDict [("errors",
                                  PList [PDict [("title", PStr "a")];
                                         PDict [("detail", PStr "x")];
                                         PDict [("title", PStr "b")]])]) |}
  = Raise (APIException
             ("SimpleMDM error/s: "
              ++ String.concat ", "
                   (quoted_titles [PDict [("title", PStr "a")];
                                   PDict [("detail", PStr "x")];
                                   PDict [("title", PStr "b")]])
              ++ ", HTTP " ++ str_of_Z 422)).
Proof.
  apply (@api_error_message_lists_the_titles
           {| status_code := 422;
              json_body := Some (PDict [("errors",
                                         PList [PDict [("title", PStr "a")];
                                                PDict [("detail", PStr "x")];
                                                PDict [("title", PStr "b")]])]) |}
           [("errors", PList [PDict [("title", PStr "a")];
                              PDict [("detail", PStr "x")];
                              PDict [("title", PStr "b")]])]
           [PDict [("title", PStr "a")]; PDict [("detail", PStr "x")];
            PDict [("title", PStr "b")]]); reflexivity.
Defined.

(** ** decorators.py: what a call makes of the response *)

Section Verdicts.

Variable T : Type.
Variable send : adapter -> request_call -> T -> result response * T.
Variable fs : filesystem.

(** X8. Off the upload path, a response whose status is not ignored and
    whose body reports no error is returned unless the status is from 400
    to 599, in which case the call raises the HTTP error of the status. *)
Theorem plain_request_raises_http_error
  (method : string) (self : connector) (args : list pyval) (kwargs : dict)
  (w w' : world T) (out : result retval) (rq : request_call) (p : prepared)
  (resp : response) :
  wrap_request send fs method self args kwargs w = (out, w') ->
  sent w' = (sent w ++ [rq])%list ->
  prepare self args kwargs = Ret p ->
  is_upload p = false ->
  fst (send (session_retry self (p_retry p)) rq (net w)) = Ret resp ->
  status_in (status_code resp) (p_ignore p) = false ->
  api_error_check resp = Ret tt ->
  out = if (400 <=? status_code resp) && (status_code resp <? 600)
        then Raise (HTTPError (status_code resp))
        else Ret (RResponse resp).
Proof.
  intros H Hsent Hp Hup Hresp Hst Hok.
  destruct (@wrap_request_sent T send fs method self args kwargs w w' out rq H Hsent)
    as (p' & Hp' & _ & _ & _ & _ & _ & _ & Hout).
  rewrite Hp in Hp'. injection Hp' as <-.
  rewrite Hresp, Hup in Hout. unfold verdict in Hout. rewrite Hst in Hout.
  cbn [negb] in Hout. unfold check_response in Hout. rewrite Hok in Hout.
  cbn [rbind] in Hout. unfold raise_for_status in Hout.
  destruct ((400 <=? status_code resp) && (status_code resp <? 600)); assumption.
Qed.

End Verdicts.

(** X8 at a GET that is answered 404 with an empty JSON object. *)
Lemma plain_request_raises_http_error_witness :
  fst (get (always {| status_code := 404; json_body := Some (PDict []) |}) no_files
         (Devices false) [PStr "42"] [] fresh)
  = Raise (HTTPError 404).
Proof.
  set (resp := {| status_code := 404; json_body := Some (PDict []) |}).
  set (run := get (always resp) no_files (Devices false) [PStr "42"] [] fresh).
  exact (@plain_request_raises_http_error nat (always resp) no_files "GET"
           (Devices false) [PStr "42"] [] fresh (snd run) (fst run)
           {| rq_method := "GET"; rq_url := "https://a.simplemdm.com/api/v1/devices/42";
              rq_kwargs := [("params", PDict []);
                            ("timeout", PTuple [PInt 5; PInt 5])] |}
           {| p_ignore := map PInt HTTP_IGNORE_STATUS_ERR;
              p_retry := map PInt HTTP_RETRY_STATUS_LIST;
              p_fieldname := PNone;
              p_url := "https://a.simplemdm.com/api/v1/devices/42";
              p_kwargs := [("params", PDict []);
                           ("timeout", PTuple [PInt 5; PInt 5])] |}
           resp
           (surjective_pairing run) eq_refl eq_refl eq_refl eq_refl eq_refl eq_refl).
Defined.

(** X9 at a POST that is answered 422 with a list of errors. *)
Lemma plain_request_raises_api_error_witness :
  exists titles,
    err_strings [PDict [("title", PStr "bad")]] = Ret titles
    /\ fst (post (always {| status_code := 422;
                           json_body := Some (PDict [("errors",
                                                      PList [PDict [("title", PStr "bad")]])]) |})
              no_files (Devices false) [] [("name", PStr "n")] fresh)
       = Raise (APIException ("SimpleMDM error/s: " ++ String.concat ", " titles
                                ++ ", HTTP " ++ str_of_Z 422)).
Proof.
  set (resp := {| status_code := 422;
                  json_body := Some (PDict [("errors",
                                             PList [PDict [("title", PStr "bad")]])]) |}).
  set (run := post (always resp) no_files (Devices false) [] [("name", PStr "n")] fresh).
  exact (@plain_request_raises_api_error nat (always resp) no_files "POST"
           (Devices false) [] [("name", PStr "n")] fresh (snd run) (fst run)
           {| rq_method := "POST"; rq_url := "https://a.simplemdm.com/api/v1/devices";
              rq_kwargs := [("params", PDict [("name", PStr "n")]);
                            ("timeout", PTuple [PInt 5; PInt 5])] |}
           {| p_ignore := map PInt HTTP_IGNORE_STATUS_ERR;
              p_retry := map PInt HTTP_RETRY_STATUS_LIST;
              p_fieldname := PNone;
              p_url := "https://a.simplemdm.com/api/v1/devices";
              p_kwargs := [("params", PDict [("name", PStr "n")]);
                           ("timeout", PTuple [PInt 5; PInt 5])] |}
           resp
           [("errors", PList [PDict [("title", PStr "bad")]])]
           [PDict [("title", PStr "bad")]]
           (surjective_pairing run) eq_refl eq_refl eq_refl eq_refl eq_refl eq_refl
           eq_refl eq_refl).
Defined.

(** X10 at a POST of a file that is answered 422 with a list of errors. *)
Lemma upload_request_skips_api_errors_witness :
  let resp := {| status_code := 422;
                 json_body := Some (PDict [("errors",
                                            PList [PDict [("title", PStr "bad")]])]) |} in
  let run := post (always resp) (one_file "/tmp/s.sh" "#!/bin/sh") (Scripts false) []
               [("files", PDict [("file", PStr "/tmp/s.sh")]);
                ("file_upload", PStr "file")] fresh in
  fst run = Ret (RResponse resp) \/ fst run = Raise (HTTPError (status_code resp)).
Proof.
  intros resp run.
  exact (@upload_request_skips_api_errors nat (always resp)
           (one_file "/tmp/s.sh" "#!/bin/sh") "POST"
           (Scripts false) []
           [("files", PDict [("file", PStr "/tmp/s.sh")]); ("file_upload", PStr "file")]
           fresh (snd run) (fst run)
           {| rq_method := "POST"; rq_url := "https://a.simplemdm.com/api/v1/scripts";
              rq_kwargs := [("files", PDict [("file", PFile "/tmp/s.sh")]);
                            ("params", PDict [])] |}
           {| p_ignore := map PInt HTTP_IGNORE_STATUS_ERR;
              p_retry := map PInt HTTP_RETRY_STATUS_LIST;
              p_fieldname := PStr "file";
              p_url := "https://a.simplemdm.com/api/v1/scripts";
              p_kwargs := [("files", PDict [("file", PStr "/tmp/s.sh")]);
                           ("params", PDict [])] |}
           resp
           (surjective_pairing run) eq_refl eq_refl eq_refl eq_refl).
Defined.

(** ** validators.py *)

(** X11. [validate_required] passes exactly when every required name is a
    keyword of the call; a name given with the value [None] counts as
    given. *)
Theorem validate_required_passes_iff (kwargs : dict) (req_params : list string)
  (fn_name : string) :
  validate_required kwargs req_params fn_name = Ret tt
  <-> forall r, In r req_params -> dict_mem kwargs r = true.
Proof.
  induction req_params as [|q reqs IH]; simpl.
  - split; [intros _ r []|reflexivity].
  - destruct (dict_mem kwargs q) eqn:Hq; simpl.
    + rewrite IH. split.
      * intros H r [<-|Hin]; auto.
      * intros H r Hin. apply H. now right.
    + split; [discriminate|]. intros H. specialize (H q (or_introl eq_refl)). congruence.
Qed.

Lemma validate_param_opts_answers kwargs val_params fn_name :
  validate_param_opts kwargs val_params fn_name <> OutOfFuel.
Proof.
  induction val_params as [|[param values] rest IH]; simpl; [discriminate|].
  destruct (_ && _); [discriminate|assumption].
Qed.

(** X12. [validate_param_opts] passes exactly when, for every parameter
    with a list of allowed values, the value given is falsy (absent,
    [None], [False], 0, empty) or equal to an allowed value. A falsy value
    is thus never checked against the list. *)
Theorem validate_param_opts_passes_iff (kwargs : dict)
  (val_params : list (string * list pyval)) (fn_name : string) :
  validate_param_opts kwargs val_params fn_name = Ret tt
  <-> forall param values,
        In (param, values) val_params ->
        truthy (dict_get_none kwargs param) = false
        \/ existsb (py_eq (dict_get_none kwargs param)) values = true.
Proof.
  induction val_params as [|[p0 v0] rest IH]; simpl.
  - split; [intros _ ? ? []|reflexivity].
  - destruct (truthy (dict_get_none kwargs p0)) eqn:Ht;
      destruct (existsb (py_eq (dict_get_none kwargs p0)) v0) eqn:Hv; cbn [negb andb].
    + rewrite IH. split.
      * intros H param values [[= <- <-]|Hin]; auto.
      * intros H param values Hin. apply H. now right.
    + split; [discriminate|]. intros H.
      destruct (H p0 v0 (or_introl eq_refl)); congruence.
    + rewrite IH. split.
      * intros H param values [[= <- <-]|Hin]; auto.
      * intros H param values Hin. apply H. now right.
    + rewrite IH. split.
      * intros H param values [[= <- <-]|Hin]; auto.
      * intros H param values Hin. apply H. now right.
Qed.

Lemma all_isdigit_chars (s : string) :
  all_isdigit (chars s) = Ret (str_forall char_isdigit s).
Proof.
  induction s as [|c s IH]; simpl; [reflexivity|].
  unfold str_isdigit. simpl. rewrite andb_true_r.
  destruct (char_isdigit c); simpl; [exact IH|reflexivity].
Qed.

(** X13. Where [validate_pin] looks for it, under [params], a PIN that is
    a non-empty string passes exactly when it has the expected length and
    only digits; otherwise the [ValueError] of the length is raised, or,
    for a string of the right length, that of the characters. *)
Theorem pin_checks_on_a_string (param : string) (length : Z) (fn_name : string)
  (c : ascii) (s : string) :
  pin_checks param length fn_name [("params", PDict [(param, PStr (String c s))])]
  = if negb (Z.of_nat (String.length (String c s)) =? length)
    then Raise (ValueError (fn_name ++ "() option for " ++ repr_str param
                              ++ " does not meet length requirement of "
                              ++ str_of_Z length))
    else if str_forall char_isdigit (String c s) then Ret tt
         else Raise (ValueError (fn_name ++ "() option for " ++ repr_str param
                                   ++ " contains non-numeric characters")).
Proof.
  unfold pin_checks.
  change (dict_get [("params", PDict [(param, PStr (String c s))])] "params")
    with (Some (PDict [(param, PStr (String c s))])).
  cbn [rbind get_attr_get]. unfold dict_get_none.
  assert (Hget : dict_get [(param, PStr (String c s))] param = Some (PStr (String c s)))
    by (simpl; now rewrite String.eqb_refl).
  rewrite Hget. cbn [truthy negb len].
  replace (String.eqb (String c s) "") with false by reflexivity. cbn [negb].
  destruct (negb (Z.of_nat (String.length (String c s)) =? length)); [reflexivity|].
  cbn [iter rbind]. rewrite all_isdigit_chars. cbn [rbind].
  destruct (str_forall char_isdigit (String c s)); reflexivity.
Qed.

(** ** decorators.py: [method_params] *)

(** X14. A method whose table entry names parameters of which one at
    least is needed, called with its required parameters but with none of
    those, raises the [TypeError] of [validate_any]; the world is left as
    it was and the decorated function is not reached. *)
Theorem missing_any_of_raises_before_any_request
  (T : Type) (fs : filesystem) (fn_name : string) (fn : meth T)
  (self : connector) (args : list pyval) (kwargs : dict) (w : world T)
  (any : string) (anys : list string) :
  match req_params (lookup_conf (_method_kwargs self) fn_name) with
  | Some reqs => forallb (dict_mem kwargs) reqs
  | None => true
  end = true ->
  any_params (lookup_conf (_method_kwargs self) fn_name) = Some (any :: anys) ->
  existsb (dict_mem kwargs) (any :: anys) = false ->
  method_params fs fn_name fn self args kwargs w
  = (Raise (TypeError (fn_name
                         ++ "() missing at least one optional keyword-only parameter: "
                         ++ repr (PList (map PStr (any :: anys))))), w).
Proof.
  intros Hreq Hany Hnone. unfold method_params, run_validations.
  set (conf := lookup_conf (_method_kwargs self) fn_name) in *.
  assert (H1 : when_some (req_params conf) nonempty
                 (fun req_params => validate_required kwargs req_params fn_name) = Ret tt).
  { unfold when_some. destruct (req_params conf) as [reqs|]; [|reflexivity].
    destruct (nonempty reqs); [|reflexivity]. now apply validate_required_present. }
  rewrite H1. cbn [rbind]. rewrite Hany. unfold when_some at 1. cbn [nonempty].
  unfold validate_any. rewrite Hnone. reflexivity.
Qed.

(** X14 at [Devices.update] called with neither [name] nor
    [device_name]. *)
Lemma missing_any_of_raises_before_any_request_witness :
  devices_update (always (ok_response (PDict []))) no_files (Devices false)
    [PStr "42"] [] fresh
  = (Raise (TypeError ("update"
                         ++ "() missing at least one optional keyword-only parameter: "
                         ++ repr (PList (map PStr ["device_name"; "name"])))), fresh).
Proof.
  apply (@missing_any_of_raises_before_any_request nat no_files "update"
           (def1 "update" "device_id"
              (fun self id kwargs =>
                 patch (always (ok_response (PDict []))) no_files self [id] kwargs))
           (Devices false) [PStr "42"] [] fresh "device_name" ["name"]);
    reflexivity.
Defined.



(** X16. The exchange of the file parameter: when the call has a truthy
    file under the file parameter of the method and no truthy [files], the
    method is called with [files] holding the file under the name of the
    parameter, with [file_upload] naming the parameter, without the
    parameter itself, and with its other keywords as given. When the call
    has no file, or has [files] already, the keywords are left alone. *)
Theorem switch_file_exchanges_the_file_parameter
  (conf : method_conf) (kwargs : dict) (p : string) :
  file_param conf = Some p ->
  dict_wf kwargs ->
  String.eqb p "files" = false ->
  String.eqb p "file_upload" = false ->
  (truthy (dict_get_none kwargs "files") = false ->
   truthy (dict_get_none kwargs p) = true ->
   dict_get (switch_file conf kwargs) "files" = Some (PDict [(p, dict_get_none kwargs p)])
   /\ dict_get (switch_file conf kwargs) "file_upload" = Some (PStr p)
   /\ dict_get (switch_file conf kwargs) p = None
   /\ forall k, String.eqb k p = false -> String.eqb k "files" = false ->
                String.eqb k "file_upload" = false ->
                dict_get (switch_file conf kwargs) k = dict_get kwargs k)
  /\ (truthy (dict_get_none kwargs "files") = true
      \/ truthy (dict_get_none kwargs p) = false ->
      switch_file conf kwargs = kwargs).
Proof.
  intros Hp Hwf Hpf Hpu. unfold switch_file. rewrite Hp. split.
  - intros Hfiles Hfile. rewrite Hfiles, Hfile. cbn [negb andb].
    assert (Hfp : String.eqb "files" p = false) by (now rewrite String.eqb_sym).
    assert (Hup : String.eqb "file_upload" p = false) by (now rewrite String.eqb_sym).
    repeat split.
    + rewrite dict_get_del_other by assumption.
      rewrite dict_get_set_other by reflexivity. apply dict_get_set_same.
    + rewrite dict_get_del_other by assumption. apply dict_get_set_same.
    + apply dict_get_del_same. now do 2 apply dict_set_wf.
    + intros k Hkp Hkf Hku. rewrite dict_get_del_other by assumption.
      now rewrite !dict_get_set_other by assumption.
  - intros [Hfiles|Hfile].
    + now rewrite Hfiles.
    + rewrite Hfile. now rewrite andb_false_r.
Qed.

(** X16 at the keywords of [Scripts.create]. *)
Lemma switch_file_exchanges_the_file_parameter_witness :
  (truthy (dict_get_none [("file", PStr "/tmp/s.sh"); ("name", PStr "n")] "files") = false ->
   truthy (dict_get_none [("file", PStr "/tmp/s.sh"); ("name", PStr "n")] "file") = true ->
   dict_get (switch_file (lookup_conf scripts_table "create")
               [("file", PStr "/tmp/s.sh"); ("name", PStr "n")]) "files"
     = Some (PDict [("file", dict_get_none [("file", PStr "/tmp/s.sh"); ("name", PStr "n")]
                               "file")])
   /\ dict_get (switch_file (lookup_conf scripts_table "create")
                  [("file", PStr "/tmp/s.sh"); ("name", PStr "n")]) "file_upload"
      = Some (PStr "file")
   /\ dict_get (switch_file (lookup_conf scripts_table "create")
                  [("file", PStr "/tmp/s.sh"); ("name", PStr "n")]) "file" = None
   /\ forall k, String.eqb k "file" = false -> String.eqb k "files" = false ->
                String.eqb k "file_upload" = false ->
                dict_get (switch_file (lookup_conf scripts_table "create")
                            [("file", PStr "/tmp/s.sh"); ("name", PStr "n")]) k
                = dict_get [("file", PStr "/tmp/s.sh"); ("name", PStr "n")] k)
  /\ (truthy (dict_get_none [("file", PStr "/tmp/s.sh"); ("name", PStr "n")] "files") = true
      \/ truthy (dict_get_none [("file", PStr "/tmp/s.sh"); ("name", PStr "n")] "file")
         = false ->
      switch_file (lookup_conf scripts_table "create")
        [("file", PStr "/tmp/s.sh"); ("name", PStr "n")]
      = [("file", PStr "/tmp/s.sh"); ("name", PStr "n")]).
Proof.
  apply (@switch_file_exchanges_the_file_parameter (lookup_conf scripts_table "create")
           [("file", PStr "/tmp/s.sh"); ("name", PStr "n")] "file");
    try reflexivity.
  unfold dict_wf. simpl. repeat constructor; simpl; intuition discriminate.
Defined.

(** ** decorators.py: [paginate] *)

Lemma consume_no_function_kwargs (kwargs : dict) :
  no_function_kwargs kwargs = true ->
  forall acc, snd (fold_left consume_step kwargs acc) = snd acc.
Proof.
  unfold no_function_kwargs.
  induction kwargs as [|[k v] l IH]; intros Hall acc; [reflexivity|].
  cbn [forallb fst] in Hall. apply andb_prop in Hall as [Hk Hl].
  apply negb_true_iff in Hk. cbn [fold_left]. rewrite (IH Hl).
  destruct acc as [[rk pk] fk]. unfold consume_step. rewrite Hk.
  destruct (in_list k _requests_kwargs); reflexivity.
Qed.

(** A call without function keywords is prepared with the default status
    lists and is no upload. *)
Lemma prepare_plain (self : connector) (args : list pyval) (kwargs : dict) :
  no_function_kwargs kwargs = true ->
  exists k,
    prepare self args kwargs
    = Ret {| p_ignore := map PInt HTTP_IGNORE_STATUS_ERR;
             p_retry := map PInt HTTP_RETRY_STATUS_LIST;
             p_fieldname := PNone;
             p_url := generate_url self args;
             p_kwargs := k |}.
Proof.
  intros Hplain. unfold prepare, consume_kwargs.
  pose proof (consume_no_function_kwargs kwargs Hplain ([], [], [])) as Hfk.
  destruct (fold_left consume_step kwargs ([], [], [])) as [[rk pk] fk].
  cbn [snd] in Hfk. subst fk. cbn. eauto.
Qed.

Lemma no_function_kwargs_set (kwargs : dict) (k : string) (v : pyval) :
  in_list k _function_kwargs = false ->
  no_function_kwargs kwargs = true ->
  no_function_kwargs (dict_set kwargs k v) = true.
Proof.
  unfold no_function_kwargs. intros Hk.
  induction kwargs as [|[k0 v0] l IH]; cbn [dict_set forallb fst].
  - now rewrite Hk.
  - intros [H0 Hl]%andb_prop. destruct (String.eqb k k0); cbn [forallb fst].
    + now rewrite Hk, Hl.
    + now rewrite H0, IH.
Qed.

Lemma no_function_kwargs_setdefault (kwargs : dict) (k : string) (v : pyval) :
  in_list k _function_kwargs = false ->
  no_function_kwargs kwargs = true ->
  no_function_kwargs (dict_setdefault kwargs k v) = true.
Proof.
  intros Hk Hp. unfold dict_setdefault.
  destruct (dict_mem kwargs k); auto using no_function_kwargs_set.
Qed.

Lemma paginate_defaults_plain (kwargs : dict) :
  no_function_kwargs kwargs = true ->
  no_function_kwargs (paginate_defaults kwargs) = true.
Proof.
  intros H. unfold paginate_defaults.
  repeat apply no_function_kwargs_setdefault; auto.
Qed.

(** No keyword repeats [method] or [url] exactly when neither is a key. *)
Lemma given_twice_none (k : dict) :
  given_twice k = None <-> dict_mem k "method" = false /\ dict_mem k "url" = false.
Proof.
  unfold given_twice. induction k as [|[k0 v0] l IH]; [cbn; tauto|].
  rewrite !dict_mem_cons. cbn [filter fst in_list existsb].
  rewrite (String.eqb_sym "method" k0), (String.eqb_sym "url" k0).
  destruct (String.eqb k0 "method"); [cbn; intuition discriminate|].
  destruct (String.eqb k0 "url"); [cbn; intuition discriminate|].
  cbn [orb]. exact IH.
Qed.

Lemma dict_mem_setdefault (d : dict) (k k' : string) (v : pyval) :
  dict_mem (dict_setdefault d k v) k' = String.eqb k' k || dict_mem d k'.
Proof.
  unfold dict_setdefault. destruct (dict_mem d k) eqn:E; [|apply dict_mem_set].
  destruct (String.eqb k' k) eqn:E'; [|reflexivity].
  apply String.eqb_eq in E'. subst k'. now rewrite E.
Qed.

(** The request keywords of a call, its own [params], [timeout] and
    [headers] apart, are those the caller gave. *)
Lemma prepare_mem (self : connector) (args : list pyval) (kwargs : dict)
  (p : prepared) (k : string) :
  prepare self args kwargs = Ret p ->
  String.eqb k "params" = false ->
  String.eqb k "timeout" = false ->
  String.eqb k "headers" = false ->
  dict_mem (p_kwargs p) k = in_list k _requests_kwargs && dict_mem kwargs k.
Proof.
  intros Hp Hk1 Hk2 Hk3. unfold prepare, consume_kwargs in Hp.
  pose proof (@fold_pick_mem 0 k kwargs (Nat.le_0_l 2) ([], [], [])) as H0.
  set (F := fold_left consume_step kwargs ([], [], [])) in *.
  change (pick 0 ([], [], [])) with (@nil (string * pyval)) in H0.
  destruct F as [[rk pk] fk]. cbn [pick fst snd] in H0. cbn beta iota zeta in Hp.
  destruct (consume_func_kwargs self fk) as [[i r]|e|]; cbn [rbind] in Hp;
    try discriminate.
  injection Hp as <-. cbn [p_kwargs].
  assert (Hrk : dict_mem (dict_set rk "params" (PDict pk)) k
                = in_list k _requests_kwargs && dict_mem kwargs k).
  { rewrite dict_mem_set, Hk1, H0. unfold bucket_of.
    destruct (in_list k _requests_kwargs); [reflexivity|].
    destruct (in_list k _function_kwargs); reflexivity. }
  set (rk0 := dict_set rk "params" (PDict pk)) in *.
  set (rk1 := if negb _ && negb _ then _ else rk0).
  assert (H1 : dict_mem rk1 k = dict_mem rk0 k).
  { unfold rk1. destruct (negb _ && negb _); [|reflexivity].
    now rewrite dict_mem_setdefault, Hk2. }
  destruct (truthy (dict_get_none rk1 "json")).
  - now rewrite dict_mem_set, Hk3, H1.
  - now rewrite H1.
Qed.

(** A call whose keywords repeat neither [method] nor [url] is prepared
    with request keywords that repeat neither. *)
Lemma prepare_given_twice (self : connector) (args : list pyval) (kwargs : dict)
  (p : prepared) :
  prepare self args kwargs = Ret p ->
  given_twice kwargs = None ->
  given_twice (p_kwargs p) = None.
Proof.
  intros Hp [Hm Hu]%given_twice_none. apply given_twice_none.
  rewrite (@prepare_mem self args kwargs p "method" Hp eq_refl eq_refl eq_refl).
  rewrite (@prepare_mem self args kwargs p "url" Hp eq_refl eq_refl eq_refl).
  now rewrite Hm, Hu.
Qed.

Lemma given_twice_set (kwargs : dict) (k : string) (v : pyval) :
  in_list k ["method"; "url"] = false ->
  given_twice kwargs = None ->
  given_twice (dict_set kwargs k v) = None.
Proof.
  intros Hk [Hm Hu]%given_twice_none. apply given_twice_none.
  rewrite !dict_mem_set, Hm, Hu. cbn [in_list existsb] in Hk.
  apply orb_false_elim in Hk as [Hk1 Hk2]. apply orb_false_elim in Hk2 as [Hk2 _].
  rewrite (String.eqb_sym "method" k), (String.eqb_sym "url" k), Hk1, Hk2. auto.
Qed.

Lemma given_twice_setdefault (kwargs : dict) (k : string) (v : pyval) :
  in_list k ["method"; "url"] = false ->
  given_twice kwargs = None ->
  given_twice (dict_setdefault kwargs k v) = None.
Proof.
  intros Hk Hp. unfold dict_setdefault.
  destruct (dict_mem kwargs k); auto using given_twice_set.
Qed.

Lemma paginate_defaults_given_twice (kwargs : dict) :
  given_twice kwargs = None -> given_twice (paginate_defaults kwargs) = None.
Proof.
  intros H. unfold paginate_defaults.
  repeat apply given_twice_setdefault; auto.
Qed.

(** A call that names no file to upload leaves the keyword arguments of
    its caller as they were. *)
Lemma kwargs_after_plain (fs : filesystem) (self : connector) (args : list pyval)
  (kwargs : dict) :
  dict_mem kwargs "file_upload" = false ->
  kwargs_after fs self args kwargs = kwargs.
Proof.
  intros Hk. unfold kwargs_after.
  destruct (prepare self args kwargs) as [p|e|] eqn:Hp; try reflexivity.
  unfold prepare, consume_kwargs in Hp.
  pose proof (@fold_pick_mem 1 "file_upload" kwargs (le_S _ _ (le_n 1)) ([], [], []))
    as H1.
  set (F := fold_left consume_step kwargs ([], [], [])) in *.
  change (pick 1 ([], [], [])) with (@nil (string * pyval)) in H1.
  destruct F as [[rk pk] fk]. cbn [pick fst snd] in H1. cbn beta iota zeta in Hp.
  rewrite Hk, andb_false_r in H1. cbn in H1.
  destruct (consume_func_kwargs self fk) as [[i r]|e|]; cbn [rbind] in Hp;
    try discriminate.
  injection Hp as <-. unfold files_after. cbn [p_fieldname].
  unfold dict_mem in H1. unfold dict_get_none at 1.
  destruct (dict_get fk "file_upload"); [discriminate|].
  cbn [truthy andb]. now rewrite andb_false_r.
Qed.

Lemma no_function_kwargs_mem (kwargs : dict) (k : string) :
  in_list k _function_kwargs = true ->
  no_function_kwargs kwargs = true ->
  dict_mem kwargs k = false.
Proof.
  unfold no_function_kwargs. intros Hk.
  induction kwargs as [|[k0 v0] l IH]; [reflexivity|].
  cbn [forallb fst]. intros [H0 Hl]%andb_prop. rewrite dict_mem_cons, (IH Hl).
  destruct (String.eqb k k0) eqn:E; [|reflexivity].
  apply String.eqb_eq in E. subst k0. now rewrite Hk in H0.
Qed.

(** What a page of objects with at least one record is read as. *)
Lemma read_good_page (body : dict) (objs : list pyval) (kwargs : dict) :
  dict_get body "data" = Some (PList objs) ->
  good_page objs = true ->
  exists d,
    last_item (PList objs) = Ret (PDict d)
    /\ read_page (PDict body) kwargs
       = Ret (dict_set kwargs "starting_after" (dict_get_none d "id"),
              truthy (match dict_get body "has_more" with
                      | Some v => v | None => PBool false end),
              objs).
Proof.
  intros Hdata Hgood. unfold good_page in Hgood.
  destruct objs as [|o objs]; [discriminate|].
  destruct (@last_item_of_dicts (o :: objs)) as [d Hd]; [discriminate|assumption|].
  exists d. split; [assumption|].
  unfold read_page, get_attr_get_default. rewrite Hdata. cbn [rbind truthy].
  rewrite Hd. reflexivity.
Qed.

Section Cursor.

Variable T : Type.
Variable send : adapter -> request_call -> T -> result response * T.
Variable fs : filesystem.

(** X17. In a listing that names no file to upload, after a page of
    objects that says that more are to come, the loop goes on with the
    cursor set to the [id] of the last record of the page, all other
    keywords as they were, and yields the records of the page before those
    of the following turns. *)
Theorem paginate_follows_the_last_record
  (fuel : nat) (self : connector) (args : list pyval) (kwargs : dict)
  (w w' : world T) (resp : response) (body : dict) (objs : list pyval) :
  dict_mem kwargs "file_upload" = false ->
  get send fs self args kwargs w = (Ret (RResponse resp), w') ->
  json_body resp = Some (PDict body) ->
  dict_get body "data" = Some (PList objs) ->
  good_page objs = true ->
  truthy (match dict_get body "has_more" with Some v => v | None => PBool false end)
    = true ->
  exists d,
    last_item (PList objs) = Ret (PDict d)
    /\ paginate_loop send fs (S fuel) self args kwargs w
       = (let '(more, r, w'') :=
            paginate_loop send fs fuel self args
              (dict_set kwargs "starting_after" (dict_get_none d "id")) w' in
          ((objs ++ more)%list, r, w'')).
Proof.
  intros Hplain Hget Hj Hdata Hgood Hmore.
  destruct (read_good_page body kwargs Hdata Hgood) as (d & Hlast & Hread).
  exists d. split; [assumption|].
  cbn [paginate_loop]. rewrite Hget, (@kwargs_after_plain fs self args kwargs Hplain).
  cbn [json_of]. unfold json. rewrite Hj.
  cbn [rbind]. rewrite Hread, Hmore. reflexivity.
Qed.

(** X18. In dry-run mode the generator of [paginate] yields nothing,
    whatever the steps allowed: it makes its one call of [get], which
    sends nothing and leaves the service as it was. *)
Theorem paginate_dry_run_yields_nothing
  (fuel : nat) (self : connector) (args : list pyval) (kwargs : dict) (w : world T) :
  dry_run self = true ->
  let '(records, r, w') := paginate_run send fs fuel self args kwargs w in
  records = []
  /\ sent w' = sent w
  /\ net w' = net w
  /\ (r = Ret tt /\ length (printed w') = S (length (printed w))
      \/ exists e, r = Raise e /\ printed w' = printed w).
Proof.
  intros Hdry. unfold paginate_run. rewrite Hdry. cbn [negb].
  unfold get, wrap_request.
  destruct (prepare self args (paginate_defaults kwargs)) as [p|e|] eqn:Hp.
  - unfold perform. rewrite Hdry. cbn. repeat split. left. split; [reflexivity|].
    rewrite length_app. simpl. lia.
  - cbn. repeat split. right. eauto.
  - now apply prepare_answers in Hp.
Qed.

End Cursor.

(** X17 at the first page of the service with two pages. *)
Lemma paginate_follows_the_last_record_witness :
  exists d,
    last_item (PList [record 1; record 2]) = Ret (PDict d)
    /\ paginate_loop two_pages no_files 2 (Devices false) [] [] fresh
       = (let '(more, r, w'') :=
            paginate_loop two_pages no_files 1 (Devices false) []
              (dict_set [] "starting_after" (dict_get_none d "id"))
              (snd (get two_pages no_files (Devices false) [] [] fresh)) in
          (([record 1; record 2] ++ more)%list, r, w'')).
Proof.
  exact (@paginate_follows_the_last_record nat two_pages no_files 1 (Devices false)
           [] [] fresh (snd (get two_pages no_files (Devices false) [] [] fresh))
           (ok_response page1)
           [("data", PList [record 1; record 2]); ("has_more", PBool true)]
           [record 1; record 2]
           eq_refl eq_refl eq_refl eq_refl eq_refl eq_refl).
Defined.

(** X18 at a dry-run listing of the devices. *)
Lemma paginate_dry_run_yields_nothing_witness :
  let '(records, r, w') :=
    paginate_run two_pages no_files 0 (Devices true) [] [("limit", PInt 5)] fresh in
  records = []
  /\ sent w' = sent fresh
  /\ net w' = net fresh
  /\ (r = Ret tt /\ length (printed w') = S (length (printed fresh))
      \/ exists e, r = Raise e /\ printed w' = printed fresh).
Proof.
  exact (@paginate_dry_run_yields_nothing nat two_pages no_files 0 (Devices true) []
           [("limit", PInt 5)] fresh eq_refl).
Defined.

(** *** A service that serves a book of pages *)

Lemma nth_page_app (pre : list (list pyval)) (p : list pyval) (rest : list (list pyval)) :
  nth_page (pre ++ p :: rest) (length pre)
  = Some (page_of p (match rest with [] => false | _ => true end)).
Proof. induction pre as [|q pre IH]; simpl; auto. Qed.

Section Book.

Variable fs : filesystem.
Variable self : connector.
Variable args : list pyval.
Hypothesis live : dry_run self = false.

(** One fetch from the book: the page of the turn comes back, and the
    world has one request and one call more. *)
Lemma get_from_the_book (pre : list (list pyval)) (p : list pyval)
  (rest : list (list pyval)) (kwargs : dict) (w : world nat) :
  no_function_kwargs kwargs = true ->
  given_twice kwargs = None ->
  net w = length pre ->
  exists w',
    get (serve (pre ++ p :: rest)) fs self args kwargs w
    = (Ret (RResponse (ok_response
                         (page_of p (match rest with [] => false | _ => true end)))), w')
    /\ net w' = S (length pre)
    /\ length (sent w') = S (length (sent w)).
Proof.
  intros Hplain Honce Hnet. destruct (prepare_plain self args kwargs Hplain) as [k Hp].
  pose proof (@prepare_given_twice self args kwargs _ Hp Honce) as Hk.
  cbn [p_kwargs] in Hk.
  unfold get, wrap_request. rewrite Hp. unfold perform. rewrite live.
  cbn [negb p_fieldname truthy andb]. unfold send_and_check, session_request.
  cbn [rq_kwargs p_kwargs]. rewrite Hk.
  cbn [mount net sent mounted printed]. unfold serve at 1. rewrite Hnet, nth_page_app.
  cbn [status_code ok_response p_ignore].
  replace (status_in 200 (map PInt HTTP_IGNORE_STATUS_ERR)) with true by reflexivity.
  cbn [negb]. eexists. split; [reflexivity|]. cbn [net sent].
  split; [reflexivity|]. rewrite length_app. simpl. lia.
Qed.

Lemma paginate_through_the_book (rest : list (list pyval)) :
  forall (pre : list (list pyval)) (kwargs : dict) (w : world nat) (extra : nat),
    rest <> [] ->
    forallb good_page rest = true ->
    no_function_kwargs kwargs = true ->
    given_twice kwargs = None ->
    net w = length pre ->
    exists w',
      paginate_loop (serve (pre ++ rest)) fs (length rest + extra) self args kwargs w
      = (concat rest, Ret tt, w')
      /\ net w' = (length pre + length rest)%nat
      /\ length (sent w') = (length (sent w) + length rest)%nat.
Proof.
  induction rest as [|p rest IH];
    intros pre kwargs w extra Hne Hgood Hplain Honce Hnet; [congruence|].
  cbn [forallb] in Hgood. apply andb_prop in Hgood as [Hp Hrest].
  destruct (@get_from_the_book pre p rest kwargs w Hplain Honce Hnet)
    as (w1 & Hget & Hn1 & Hs1).
  cbn [length Nat.add paginate_loop]. rewrite Hget.
  rewrite (@kwargs_after_plain fs self args kwargs
             (@no_function_kwargs_mem kwargs "file_upload" eq_refl Hplain)).
  cbn [json_of ok_response json json_body rbind]. unfold page_of at 1.
  destruct (@read_good_page
              [("data", PList p);
               ("has_more", PBool (match rest with [] => false | _ => true end))]
              p kwargs eq_refl Hp) as (d & _ & Hread).
  rewrite Hread. cbn [dict_get String.eqb].
  replace (String.eqb "has_more" "data") with false by reflexivity.
  replace (String.eqb "has_more" "has_more") with true by reflexivity.
  cbn [truthy].
  destruct rest as [|q rest].
  - exists w1. cbn [concat length]. rewrite app_nil_r.
    split; [reflexivity|]. split; lia.
  - assert (Hplain' : no_function_kwargs
                        (dict_set kwargs "starting_after" (dict_get_none d "id")) = true)
      by (now apply no_function_kwargs_set).
    assert (Honce' : given_twice
                       (dict_set kwargs "starting_after" (dict_get_none d "id")) = None)
      by (now apply given_twice_set).
    assert (Hnet' : net w1 = length (pre ++ [p])%list)
      by (rewrite length_app; simpl; lia).
    destruct (IH (pre ++ [p])%list _ w1 extra ltac:(discriminate) Hrest Hplain' Honce'
                Hnet')
      as (w' & Hloop & Hn & Hs).
    rewrite <- app_assoc in Hloop. cbn [app] in Hloop. rewrite Hloop.
    exists w'. split; [reflexivity|].
    rewrite length_app in Hn. cbn [length] in *. split; lia.
Qed.

(** X19. Against a service that serves a book of pages, each a non-empty
    list of objects, in order and with [has_more] set on all but the last,
    the paginator of a listing whose keywords are none of the three the
    wrapper keeps for itself, nor [method], nor [url], run with as many
    turns as there are pages, or more, yields the records of all the pages
    in order and ends normally after one fetch for each page. *)
Theorem paginate_yields_every_page
  (p : list pyval) (pages : list (list pyval)) (kwargs : dict) (extra : nat) :
  forallb good_page (p :: pages) = true ->
  no_function_kwargs kwargs = true ->
  given_twice kwargs = None ->
  let '(records, r, w') :=
    paginate_run (serve (p :: pages)) fs (length (p :: pages) + extra) self args
      kwargs fresh in
  records = concat (p :: pages)
  /\ r = Ret tt
  /\ length (sent w') = length (p :: pages)
  /\ net w' = length (p :: pages).
Proof.
  intros Hgood Hplain Honce. unfold paginate_run. rewrite live. cbn [negb].
  destruct (@paginate_through_the_book (p :: pages) [] (paginate_defaults kwargs)
              fresh extra ltac:(discriminate) Hgood
              (paginate_defaults_plain kwargs Hplain)
              (@paginate_defaults_given_twice kwargs Honce) eq_refl)
    as (w' & Hloop & Hn & Hs).
  cbn [app] in Hloop. rewrite Hloop. auto.
Qed.

End Book.

(** X19 at a book of three pages. *)
Lemma paginate_yields_every_page_witness :
  let '(records, r, w') :=
    paginate_run (serve [[record 1; record 2]; [record 3]; [record 4; record 5]])
      no_files (length [[record 1; record 2]; [record 3]; [record 4; record 5]] + 0)
      (Devices false) [] [("limit", PInt 2)] fresh in
  records = concat [[record 1; record 2]; [record 3]; [record 4; record 5]]
  /\ r = Ret tt
  /\ length (sent w') = length [[record 1; record 2]; [record 3]; [record 4; record 5]]
  /\ net w' = length [[record 1; record 2]; [record 3]; [record 4; record 5]].
Proof.
  exact (@paginate_yields_every_page no_files (Devices false) [] eq_refl
           [record 1; record 2] [[record 3]; [record 4; record 5]]
           [("limit", PInt 2)] 0%nat eq_refl eq_refl eq_refl).
Defined.

(** *** The files of the caller *)

(** What a prepared call has read from well-formed keyword arguments. *)
Lemma prepare_reads (self : connector) (args : list pyval) (kwargs : dict)
  (p : prepared) :
  dict_wf kwargs ->
  prepare self args kwargs = Ret p ->
  p_fieldname p = dict_get_none kwargs "file_upload"
  /\ dict_get_none (p_kwargs p) "files" = dict_get_none kwargs "files".
Proof.
  intros Hwf. unfold prepare.
  pose proof (@consume_kwargs_get kwargs "files" Hwf eq_refl eq_refl) as Hf.
  pose proof (@consume_kwargs_get_func kwargs "file_upload" Hwf eq_refl eq_refl) as Hu.
  destruct (consume_kwargs kwargs) as [rk fk]. cbn [fst snd] in *.
  destruct (consume_func_kwargs self fk) as [[i r]|e|]; cbn [rbind]; try discriminate.
  intros [= <-]. cbn [p_fieldname p_kwargs]. split.
  - unfold dict_get_none. now rewrite Hu.
  - set (rk1 := if negb _ && negb _ then _ else rk).
    assert (H1 : dict_get rk1 "files" = dict_get rk "files").
    { unfold rk1. destruct (negb _ && negb _); [|reflexivity].
      now apply dict_get_setdefault_other. }
    destruct (truthy (dict_get_none rk1 "json")); unfold dict_get_none;
      [rewrite dict_get_set_other by reflexivity|]; now rewrite H1, Hf.
Qed.

(** Whether a call can be prepared depends on its status overrides
    alone. *)
Lemma prepare_returns (self : connector) (args : list pyval) (kwargs kwargs' : dict)
  (p : prepared) :
  dict_wf kwargs -> dict_wf kwargs' ->
  dict_get kwargs' "ignore_statuses" = dict_get kwargs "ignore_statuses" ->
  dict_get kwargs' "retry_statuses" = dict_get kwargs "retry_statuses" ->
  prepare self args kwargs = Ret p ->
  exists p', prepare self args kwargs' = Ret p'.
Proof.
  intros Hwf Hwf' Hi Hr. unfold prepare.
  pose proof (@consume_kwargs_get_func kwargs "ignore_statuses" Hwf eq_refl eq_refl) as A.
  pose proof (@consume_kwargs_get_func kwargs "retry_statuses" Hwf eq_refl eq_refl) as B.
  pose proof (@consume_kwargs_get_func kwargs' "ignore_statuses" Hwf' eq_refl eq_refl) as A'.
  pose proof (@consume_kwargs_get_func kwargs' "retry_statuses" Hwf' eq_refl eq_refl) as B'.
  destruct (consume_kwargs kwargs) as [rk fk].
  destruct (consume_kwargs kwargs') as [rk' fk']. cbn [fst snd] in *.
  unfold consume_func_kwargs, with_defaults.
  rewrite A', B', Hi, Hr, <- A, <- B.
  destruct (iter _) as [i|e|]; cbn [rbind]; try discriminate.
  destruct (iter _) as [r|e|]; cbn [rbind]; try discriminate.
  intros _. eauto.
Qed.

Lemma dict_set_nonempty (d : dict) (k : string) (v : pyval) :
  truthy (PDict (dict_set d k v)) = true.
Proof. destruct d as [|[k0 v0] d]; cbn; [reflexivity|]. now destruct (String.eqb k k0). Qed.

(** A file that [open_upload] has opened is under the field name in a dict
    of files. *)
Lemma open_upload_inv (fs : filesystem) (fieldname files files' : pyval) :
  open_upload fs fieldname files = Ret files' ->
  exists name d file,
    fieldname = PStr name /\ files = PDict d
    /\ files' = PDict (dict_set d name (PFile file)).
Proof.
  unfold open_upload. destruct fieldname; try discriminate.
  destruct files; cbn [get_attr_get rbind]; try discriminate.
  destruct (as_path _) as [path|e|]; cbn [rbind]; try discriminate.
  destruct (is_file fs _); [|discriminate].
  intros [= <-]. eauto 6.
Qed.

Section Shared.

Variable T : Type.
Variable send : adapter -> request_call -> T -> result response * T.
Variable fs : filesystem.

(** X27. A listing that uploads a file gets one page only. The wrapper
    writes the file it opens into the [files] dict of its caller; when
    the first page has objects and says that more are to come, the second
    turn of the loop finds that file, closed, where the path was, and
    raises [TypeError] before anything is sent: the records of the first
    page are all the generator yields. *)
Theorem paginate_meets_the_file_it_opened
  (fuel : nat) (self : connector) (args : list pyval) (kwargs : dict)
  (w w' : world T) (resp : response) (body : dict) (objs : list pyval) :
  dict_wf kwargs ->
  dry_run self = false ->
  truthy (dict_get_none kwargs "file_upload") = true ->
  truthy (dict_get_none kwargs "files") = true ->
  get send fs self args kwargs w = (Ret (RResponse resp), w') ->
  json_body resp = Some (PDict body) ->
  dict_get body "data" = Some (PList objs) ->
  good_page objs = true ->
  truthy (match dict_get body "has_more" with Some v => v | None => PBool false end)
    = true ->
  exists msg w'',
    paginate_loop send fs (S (S fuel)) self args kwargs w
    = (objs, Raise (TypeError msg), w'')
    /\ sent w'' = sent w'
    /\ net w'' = net w'.
Proof.
  intros Hwf Hlive Hup Hfiles Hget Hj Hdata Hgood Hmore.
  destruct (read_good_page body
              (kwargs_after fs self args kwargs) Hdata Hgood) as (d & Hlast & Hread).
  assert (Hafter : exists name fd file,
             dict_get_none kwargs "file_upload" = PStr name
             /\ kwargs_after fs self args kwargs
                = dict_set kwargs "files" (PDict (dict_set fd name (PFile file)))).
  { unfold get, wrap_request in Hget. unfold kwargs_after, files_after.
    destruct (prepare self args kwargs) as [p|e|] eqn:Hp; try discriminate.
    destruct (@prepare_reads self args kwargs p Hwf Hp) as [Hfn Hfl].
    unfold perform in Hget. rewrite Hlive in *. cbn [negb andb] in *.
    rewrite Hfn, Hfl, Hup, Hfiles in *. cbn [andb] in *.
    destruct (open_upload fs _ _) as [files'|e|] eqn:Ho; try discriminate.
    destruct (@open_upload_inv fs _ _ _ Ho) as (name & fd & file & Hn & _ & ->).
    eauto 6. }
  destruct Hafter as (name & fd & file & Hname & Hafter).
  set (files' := PDict (dict_set fd name (PFile file))) in *.
  set (kwargs2 := dict_set (dict_set kwargs "files" files') "starting_after"
                    (dict_get_none d "id")).
  assert (Hwf2 : dict_wf kwargs2) by (unfold kwargs2; auto using dict_set_wf).
  assert (Hget2 : exists msg a,
             get send fs self args kwargs2 w' = (Raise (TypeError msg), mount a w')).
  { assert (Hp : exists p, prepare self args kwargs = Ret p).
    { unfold get, wrap_request in Hget.
      destruct (prepare self args kwargs) as [p|e|]; try discriminate. eauto. }
    destruct Hp as [p Hp].
    destruct (@prepare_returns self args kwargs kwargs2 p Hwf Hwf2) as [p2 Hp2];
      [unfold kwargs2; now rewrite !dict_get_set_other by reflexivity
      |unfold kwargs2; now rewrite !dict_get_set_other by reflexivity
      |assumption|].
    destruct (@prepare_reads self args kwargs2 p2 Hwf2 Hp2) as [Hfn Hfl].
    assert (Hfn2 : p_fieldname p2 = PStr name).
    { rewrite Hfn. unfold kwargs2, dict_get_none.
      rewrite !dict_get_set_other by reflexivity. exact Hname. }
    assert (Hfl2 : dict_get_none (p_kwargs p2) "files" = files').
    { rewrite Hfl. unfold kwargs2, dict_get_none.
      rewrite dict_get_set_other by reflexivity. now rewrite dict_get_set_same. }
    unfold get, wrap_request. rewrite Hp2. unfold perform. rewrite Hlive.
    cbn [negb]. rewrite Hfn2, Hfl2. rewrite <- Hname, Hup.
    unfold files' at 1. rewrite dict_set_nonempty. cbn [andb].
    rewrite Hname. unfold files', open_upload. cbn [get_attr_get rbind].
    unfold dict_get_none. rewrite dict_get_set_same. cbn [as_path rbind]. eauto. }
  destruct Hget2 as (msg & a & Hget2).
  exists msg, (mount a w'). split; [|split; reflexivity].
  cbn [paginate_loop]. rewrite Hget. cbn [json_of]. unfold json. rewrite Hj.
  cbn [rbind]. rewrite Hread, Hmore, Hafter.
  fold files'. fold kwargs2. rewrite Hget2. now rewrite app_nil_r.
Qed.

End Shared.

(** X27 at a listing given a script to upload, against the service with
    two pages. *)
Lemma paginate_meets_the_file_it_opened_witness :
  exists msg w'',
    paginate_loop two_pages (one_file "/tmp/s.sh" "#!/bin/sh") 2 (Scripts false) []
      [("file_upload", PStr "file"); ("files", PDict [("file", PStr "/tmp/s.sh")])]
      fresh
    = ([record 1; record 2], Raise (TypeError msg), w'')
    /\ sent w''
       = sent (snd (get two_pages (one_file "/tmp/s.sh" "#!/bin/sh") (Scripts false) []
                      [("file_upload", PStr "file");
                       ("files", PDict [("file", PStr "/tmp/s.sh")])] fresh))
    /\ net w''
       = net (snd (get two_pages (one_file "/tmp/s.sh" "#!/bin/sh") (Scripts false) []
                     [("file_upload", PStr "file");
                      ("files", PDict [("file", PStr "/tmp/s.sh")])] fresh)).
Proof.
  refine (@paginate_meets_the_file_it_opened nat two_pages
            (one_file "/tmp/s.sh" "#!/bin/sh") 0 (Scripts false) []
            [("file_upload", PStr "file"); ("files", PDict [("file", PStr "/tmp/s.sh")])]
            fresh _ (ok_response page1)
            [("data", PList [record 1; record 2]); ("has_more", PBool true)]
            [record 1; record 2]
            _ eq_refl eq_refl eq_refl eq_refl eq_refl eq_refl eq_refl eq_refl).
  unfold dict_wf. simpl. repeat constructor; simpl; intuition discriminate.
Defined.

(** ** utils.py: [urljoin] *)

(** Case analysis on the eight bits of a character, for the functions
    that match on character literals. *)
Ltac each_char c := destruct c as [[] [] [] [] [] [] [] []].

Lemma leading_slashes_eq (c : ascii) (r : string) :
  leading_slashes (String c r)
  = if Ascii.eqb c "/"%char then S (leading_slashes r) else O.
Proof. each_char c; reflexivity. Qed.

Lemma has_overlong_scheme_eq (c : ascii) (r : string) :
  has_overlong_scheme (String c r)
  = (Ascii.eqb c ":"%char && Nat.leb 3 (leading_slashes r)) || has_overlong_scheme r.
Proof.
  each_char c; try reflexivity.
  destruct r as [|c1 r1]; [reflexivity|]. each_char c1; try reflexivity.
  destruct r1 as [|c2 r2]; [reflexivity|]. each_char c2; try reflexivity.
  destruct r2 as [|c3 r3]; [reflexivity|]. each_char c3; reflexivity.
Qed.

Lemma scheme_sub_from_eq (eating : bool) (c : ascii) (r : string) :
  scheme_sub_from eating (String c r)
  = if eating && Ascii.eqb c "/"%char then scheme_sub_from true r
    else if Ascii.eqb c ":"%char && Nat.leb 3 (leading_slashes r)
         then "://" ++ scheme_sub_from true (drop3 r)
         else String c (scheme_sub_from false r).
Proof.
  destruct eating; each_char c; try reflexivity;
    (destruct r as [|c1 r1]; [reflexivity|]; each_char c1; try reflexivity;
     destruct r1 as [|c2 r2]; [reflexivity|]; each_char c2; try reflexivity;
     destruct r2 as [|c3 r3]; [reflexivity|]; each_char c3; reflexivity).
Qed.

Lemma fslash_sub_eq (c : ascii) (r : string) :
  fslash_sub (String c r)
  = if Ascii.eqb c "/"%char && starts_two_comma r
    then String "/"%char (fslash_sub (drop2 r))
    else String c (fslash_sub r).
Proof.
  each_char c; try reflexivity.
  destruct r as [|c1 r1]; [reflexivity|]. each_char c1; try reflexivity.
  destruct r1 as [|c2 r2]; [reflexivity|]. each_char c2; reflexivity.
Qed.

Lemma drop3_length (r : string) : (String.length (drop3 r) <= String.length r)%nat.
Proof. destruct r as [|a [|b [|c r]]]; simpl; lia. Qed.

Lemma scheme_sub_from_clean (n : nat) :
  forall s eating,
    (String.length s <= n)%nat ->
    has_overlong_scheme (scheme_sub_from eating s) = false
    /\ (leading_slashes (scheme_sub_from eating s)
        <= if eating then 0 else leading_slashes s)%nat.
Proof.
  induction n as [|n IH]; intros s eating Hlen.
  - destruct s; [|simpl in Hlen; lia]. destruct eating; simpl; auto.
  - destruct s as [|c r]; [destruct eating; simpl; auto|].
    simpl in Hlen. assert (Hr : (String.length r <= n)%nat) by lia.
    rewrite scheme_sub_from_eq.
    destruct (eating && Ascii.eqb c "/"%char) eqn:Ea.
    + apply andb_prop in Ea as [-> _]. apply (IH r true Hr).
    + destruct (Ascii.eqb c ":"%char && Nat.leb 3 (leading_slashes r)) eqn:Eb.
      * pose proof (drop3_length r) as Hd.
        destruct (IH (drop3 r) true ltac:(lia)) as [Hh Hl].
        assert (Hz : leading_slashes (scheme_sub_from true (drop3 r)) = 0%nat) by lia.
        cbn [append]. rewrite !has_overlong_scheme_eq, !leading_slashes_eq, Hz, Hh.
        cbn. split; [reflexivity|lia].
      * destruct (IH r false Hr) as [Hh Hl].
        rewrite has_overlong_scheme_eq, leading_slashes_eq, Hh, orb_false_r.
        split.
        -- destruct (Ascii.eqb c ":"%char); [|reflexivity]. cbn [andb] in *.
           apply Nat.leb_gt in Eb. apply Nat.leb_gt. lia.
        -- destruct eating.
           ++ cbn [andb] in Ea. rewrite Ea. lia.
           ++ rewrite leading_slashes_eq. destruct (Ascii.eqb c "/"%char); lia.
Qed.

(** X20. Whatever the segments and the base, the URL that [urljoin]
    returns has no colon followed by three slashes: a scheme separator
    written with more slashes comes out as [://]. *)
Theorem urljoin_keeps_the_scheme_short (paths : list pyval) (base : string) :
  has_overlong_scheme (urljoin paths base) = false.
Proof.
  unfold urljoin, scheme_sub.
  match goal with
  | |- has_overlong_scheme (scheme_sub_from false ?s) = false =>
      exact (proj1 (@scheme_sub_from_clean (String.length s) s false (le_n _)))
  end.
Qed.

Lemma scheme_sub_id (s : string) :
  has_overlong_scheme s = false -> scheme_sub s = s.
Proof.
  unfold scheme_sub. induction s as [|c r IH]; [reflexivity|].
  rewrite has_overlong_scheme_eq, scheme_sub_from_eq. cbn [andb].
  intros [H1 H2]%orb_false_elim. rewrite H1, (IH H2). reflexivity.
Qed.

Lemma starts_two_comma_has_comma (r : string) :
  starts_two_comma r = true -> str_contains_char ","%char r = true.
Proof.
  destruct r as [|c [|d r]]; cbn [starts_two_comma str_contains_char];
    try discriminate.
  - now rewrite andb_false_r.
  - intros [_ Hd]%andb_prop. rewrite Ascii.eqb_sym in Hd. rewrite Hd.
    now rewrite !orb_true_r.
Qed.

Lemma fslash_sub_id (s : string) :
  str_contains_char ","%char s = false -> fslash_sub s = s.
Proof.
  induction s as [|c r IH]; [reflexivity|].
  cbn [str_contains_char]. intros [Hc Hr]%orb_false_elim.
  rewrite fslash_sub_eq.
  destruct (starts_two_comma r) eqn:E.
  - apply starts_two_comma_has_comma in E. congruence.
  - rewrite andb_false_r, (IH Hr). reflexivity.
Qed.

Lemma str_contains_char_app (c : ascii) (a b : string) :
  str_contains_char c (a ++ b) = str_contains_char c a || str_contains_char c b.
Proof. induction a as [|d a IH]; simpl; [reflexivity|]. now rewrite IH, orb_assoc. Qed.

Lemma concat_without_comma (l : list string) :
  forallb (fun s => negb (str_contains_char ","%char s)) l = true ->
  str_contains_char ","%char (String.concat "/" l) = false.
Proof.
  induction l as [|a l IH]; [reflexivity|].
  cbn [forallb]. intros [Ha Hl]%andb_prop. apply negb_true_iff in Ha.
  destruct l as [|b l]; [exact Ha|].
  change (String.concat "/" (a :: b :: l)) with (a ++ "/" ++ String.concat "/" (b :: l)).
  rewrite !str_contains_char_app, Ha, (IH Hl). reflexivity.
Qed.

(** X21. When no segment has a comma and the joined text has no colon
    followed by three slashes, [urljoin] returns the base, a slash unless
    the base ends in one, and the truthy segments joined by slashes,
    nothing changed. *)
Theorem urljoin_of_clean_segments (paths : list pyval) (base : string) :
  forallb (fun s => negb (str_contains_char ","%char s))
          (map str (filter truthy paths)) = true ->
  has_overlong_scheme
    (base ++ (if negb (endswith_char "/"%char base) then "/" else "")
          ++ String.concat "/" (map str (filter truthy paths))) = false ->
  urljoin paths base
  = base ++ (if negb (endswith_char "/"%char base) then "/" else "")
         ++ String.concat "/" (map str (filter truthy paths)).
Proof.
  intros Hseg Hscheme. unfold urljoin.
  rewrite (fslash_sub_id _ (concat_without_comma _ Hseg)).
  now apply scheme_sub_id.
Qed.

(** X21 at the segments of a URL of the devices, one of them empty. *)
Lemma urljoin_of_clean_segments_witness :
  urljoin [PStr "v1"; PStr "devices"; PInt 42; PStr ""; PStr "profiles"]
          "https://a.simplemdm.com/api"
  = "https://a.simplemdm.com/api"
      ++ (if negb (endswith_char "/"%char "https://a.simplemdm.com/api") then "/" else "")
      ++ String.concat "/"
           (map str (filter truthy
                       [PStr "v1"; PStr "devices"; PInt 42; PStr ""; PStr "profiles"])).
Proof.
  exact (@urljoin_of_clean_segments
           [PStr "v1"; PStr "devices"; PInt 42; PStr ""; PStr "profiles"]
           "https://a.simplemdm.com/api" eq_refl eq_refl).
Defined.

(** ** Endpoint methods that do not pass on what they are given *)

Section Bodies.

Variable T : Type.
Variable send : adapter -> request_call -> T -> result response * T.
Variable fs : filesystem.

(** X22. [Devices.set_multiple_device_attributes] drops the attributes:
    whatever the call is given, [json] included, it sends nothing or one
    [PUT] whose keyword arguments are the empty [params] and the timeout
    of the client, and nothing else. *)
Theorem set_multiple_device_attributes_drops_the_body
  (dry : bool) (args : list pyval) (kwargs : dict) (w : world T) :
  let w' := snd (devices_set_multiple_device_attributes send fs (Devices dry)
                   args kwargs w) in
  sent w' = sent w
  \/ exists rq,
       sent w' = (sent w ++ [rq])%list
       /\ rq_method rq = "PUT"
       /\ rq_kwargs rq = [("params", PDict []); ("timeout", PTuple [PInt 5; PInt 5])].
Proof.
  cbv zeta. unfold devices_set_multiple_device_attributes, method_params.
  destruct (run_validations _ _ _ _) as [[]|e|]; cbn [fst snd]; auto.
  unfold url_suffixes. cbv zeta.
  match goal with
  | |- context [def1 ?f ?n ?b ?s ?a ?k w] =>
      generalize a; generalize k
  end.
  intros k a. unfold def1.
  assert (Hput : forall id,
    let w' := snd (put send fs (Devices dry) [id] [] w) in
    sent w' = sent w
    \/ exists rq,
         sent w' = (sent w ++ [rq])%list
         /\ rq_method rq = "PUT"
         /\ rq_kwargs rq = [("params", PDict []); ("timeout", PTuple [PInt 5; PInt 5])]).
  { intros id. cbv zeta. unfold put, wrap_request.
    change (prepare (Devices dry) [id] [])
      with (Ret {| p_ignore := map PInt HTTP_IGNORE_STATUS_ERR;
                   p_retry := map PInt HTTP_RETRY_STATUS_LIST;
                   p_fieldname := PNone;
                   p_url := generate_url (Devices dry) [id];
                   p_kwargs := [("params", PDict []);
                                ("timeout", PTuple [PInt 5; PInt 5])] |}).
    cbv beta iota zeta.
    match goal with
    | |- context [perform send fs ?m ?s ?p ?a0 ?w0] =>
        destruct (perform send fs m s p a0 w0) as [out w1] eqn:H
    end.
    cbn [snd]. destruct dry.
    - apply perform_inv in H.
      destruct H as [(Hs & _)|[(_ & _ & Hs & _)|(Hd & _)]]; auto.
      discriminate Hd.
    - unfold perform in H. cbn [dry_run Devices resource negb] in H.
      cbn [p_fieldname truthy andb] in H.
      apply send_and_check_inv in H. cbn zeta in H.
      destruct H as [([name Hn] & _)|(_ & Hs & _)]; [discriminate Hn|].
      right. eexists. split; [exact Hs|]. cbn [rq_method rq_kwargs p_kwargs]. auto. }
  destruct a as [|v [|v' a]].
  - destruct (dict_get k "device_id"); [apply Hput|cbn [snd]; auto].
  - destruct (dict_mem k "device_id"); [cbn [snd]; auto|apply Hput].
  - cbn [snd]; auto.
Qed.

(** X23. [Devices.delete_user] called with the device positionally and the
    user as [user_id] sends one [DELETE] to
    [<device_id>/users/<user_id>] under the endpoint, and the user id goes
    out a second time, as a query parameter. *)
Theorem delete_user_names_the_user_twice
  (device_id : string) (user_id : pyval) (w : world T) :
  let w' := snd (devices_delete_user send fs (Devices false) [PStr device_id]
                   [("user_id", user_id)] w) in
  exists rq,
    sent w' = (sent w ++ [rq])%list
    /\ rq_method rq = "DELETE"
    /\ rq_url rq
       = generate_url (Devices false)
           [PStr (device_id ++ "/" ++ "users" ++ "/" ++ str user_id)]
    /\ dict_get (rq_kwargs rq) "params" = Some (PDict [("user_id", user_id)]).
Proof.
  cbv zeta. unfold devices_delete_user, method_params.
  change (run_validations fs (lookup_conf (_method_kwargs (Devices false)) "delete_user")
            "delete_user" [("user_id", user_id)]) with (@Ret unit tt).
  cbv beta iota.
  change (switch_file (lookup_conf (_method_kwargs (Devices false)) "delete_user")
            [("user_id", user_id)]) with [("user_id", user_id)].
  unfold url_suffixes. cbv zeta. unfold def1 at 1.
  change (dict_mem [("user_id", user_id)] "device_id") with false.
  cbv beta iota. unfold delete, wrap_request.
  match goal with
  | |- context [prepare ?s ?a ?k] =>
      change (prepare s a k)
        with (Ret {| p_ignore := map PInt HTTP_IGNORE_STATUS_ERR;
                     p_retry := map PInt HTTP_RETRY_STATUS_LIST;
                     p_fieldname := PNone;
                     p_url := generate_url s a;
                     p_kwargs := [("params", PDict [("user_id", user_id)]);
                                  ("timeout", PTuple [PInt 5; PInt 5])] |})
  end.
  cbv beta iota zeta.
  match goal with
  | |- context [perform send fs ?m ?s ?p ?a ?w0] =>
      destruct (perform send fs m s p a w0) as [out w1] eqn:H
  end.
  cbn [snd]. unfold perform in H. cbn [dry_run Devices resource negb] in H.
  cbn [p_fieldname truthy andb] in H.
  apply send_and_check_inv in H. cbn zeta in H.
  destruct H as [([name Hn] & _)|(_ & Hs & _)]; [discriminate Hn|].
  eexists. split; [exact Hs|]. cbn [rq_method rq_url rq_kwargs p_url dict_get].
  repeat split.
Qed.

End Bodies.

(** ** The assignment group's [delete] *)

Lemma assignment_groups_delete_never_returns (T : Type) (depth : nat) :
  forall self args kwargs (w : world T),
    snd (assignment_groups_delete depth self args kwargs w) = w
    /\ (fst (assignment_groups_delete depth self args kwargs w) = OutOfFuel
        \/ exists msg,
             fst (assignment_groups_delete depth self args kwargs w)
             = Raise (TypeError msg)).
Proof.
  induction depth as [|depth IH]; intros self args kwargs w; [cbn; auto|].
  cbn [assignment_groups_delete]. unfold def1.
  destruct args as [|v [|v' args]].
  - destruct (dict_get kwargs "group_id"); [apply IH|cbn; eauto].
  - destruct (dict_mem kwargs "group_id"); [cbn; eauto|apply IH].
  - cbn; eauto.
Qed.

(** X24. [AssignmentGroups.delete] calls itself, not the request method it
    hides: a call with the group id and no [group_id] keyword uses up
    every depth of nested calls it is allowed, and sends nothing. *)
Theorem assignment_groups_delete_exhausts_every_depth
  (T : Type) (depth : nat) (self : connector) (group_id : pyval) (kwargs : dict)
  (w : world T) :
  dict_mem kwargs "group_id" = false ->
  assignment_groups_delete depth self [group_id] kwargs w = (OutOfFuel, w).
Proof.
  intros Hk. induction depth as [|depth IH]; [reflexivity|].
  cbn [assignment_groups_delete]. unfold def1. now rewrite Hk.
Qed.

(** X24 at a depth of a thousand calls. *)
Lemma assignment_groups_delete_exhausts_every_depth_witness :
  assignment_groups_delete 1000 (AssignmentGroups false) [PStr "7"] [] fresh
  = (OutOfFuel, fresh).
Proof.
  exact (@assignment_groups_delete_exhausts_every_depth nat 1000
           (AssignmentGroups false) (PStr "7") [] fresh eq_refl).
Defined.

(** X25. [AssignmentGroups.unassign_app] ends in that [delete]: whatever
    it is called with, it returns no response and sends nothing; it raises,
    or uses up the depth of nested calls. *)
Theorem assignment_groups_unassign_app_never_sends
  (T : Type) (fs : filesystem) (depth : nat) (self : connector)
  (args : list pyval) (kwargs : dict) (w : world T) :
  snd (assignment_groups_unassign_app fs depth self args kwargs w) = w
  /\ (fst (assignment_groups_unassign_app fs depth self args kwargs w) = OutOfFuel
      \/ exists e,
           fst (assignment_groups_unassign_app fs depth self args kwargs w) = Raise e).
Proof.
  unfold assignment_groups_unassign_app, method_params.
  destruct (run_validations _ _ _ _) as [[]|e|]; cbn [fst snd]; eauto.
  unfold url_suffixes. cbv zeta.
  match goal with
  | |- context [def1 ?f ?n ?b self ?a ?k w] =>
      generalize a; generalize k
  end.
  intros k a. unfold def1.
  destruct a as [|v [|v' a]].
  - destruct (dict_get k "group_id"); [|cbn; eauto].
    destruct (@assignment_groups_delete_never_returns T depth self [p]
                (dict_del k "group_id") w) as [Hw [Hr|[msg Hr]]]; eauto.
  - destruct (dict_mem k "group_id"); [cbn; eauto|].
    destruct (@assignment_groups_delete_never_returns T depth self [v] k w)
      as [Hw [Hr|[msg Hr]]]; eauto.
  - cbn; eauto.
Qed.
